(** * Asset Integrity GenAI Assistant: a shallow embedding

    The dashboard script [asset_integrity_genai_app.py] is embedded as a
    program in a small state-and-exception monad.  The interpreter state
    carries what the script can observe or change: the two random sources, the
    heap of data frames, the module-level variable [prompt], the widgets
    written to the page and the prompts handed to the chat endpoint.

    Conventions.
    - Python [int] is [Z]; a Python [float] is represented by the exact
      rational it denotes ([Q]); [round(x, n)] is rounding to [n] decimals,
      ties to even.
    - Python [str] is [string], a sequence of UTF-8 bytes; a character is the
      code point that one to four of these bytes encode.
    - A date is a day number ([Z]).
    - A data frame is the list of its rows; frames live in a heap and
      variables hold locations, so that an in-place column assignment is
      visible through every alias of the frame. *)

From Stdlib Require Import ZArith QArith Lia List Ascii String.
From stdpp Require Import base list strings pretty gmap sorting.

Open Scope Z_scope.

(** ** Python built-ins used by the script *)

Module Py.

(** [round] to the nearest integer, ties to even. *)
Definition round_half_even (x : Q) : Z :=
  let n := Qnum x in
  let d := Z.pos (Qden x) in
  let f := n / d in
  match (2 * (n mod d) ?= d) with
  | Lt => f
  | Gt => f + 1
  | Eq => if Z.even f then f else f + 1
  end.

(** [round(x, ndigits)] on a float. *)
Definition round (x : Q) (ndigits : nat) : Q :=
  let p := Pos.pow 10 (Pos.of_nat ndigits) in
  let p := match ndigits with O => 1%positive | _ => p end in
  Qmake (round_half_even (x * Qmake (Z.pos p) 1)) p.

(** [str(n)] for an [int]. *)
Definition str_int (n : Z) : string := pretty n.

(** [format(n, "04d")]: sign, then the digits padded with zeros to a total
    width of four. *)
Fixpoint zeros (k : nat) : string :=
  match k with
  | O => ""
  | S k => String "0" (zeros k)
  end.

Definition format_04d (n : Z) : string :=
  let digits := pretty (Z.abs_N n) in
  let sign := if n <? 0 then "-" else "" in
  let width := (String.length sign + String.length digits)%nat in
  sign +:+ zeros (4 - width) +:+ digits.

(** [repr(x)] for a float with a short decimal expansion: the integer part,
    a point, and the fractional digits up to the last non-zero one (at least
    one digit).  The expansion is cut after 17 fractional digits. *)
Fixpoint frac_digits (fuel : nat) (r d : Z) : string :=
  match fuel with
  | O => ""
  | S fuel =>
      if r =? 0 then ""
      else pretty (Z.to_N (10 * r / d)) +:+ frac_digits fuel ((10 * r) mod d) d
  end.

Definition repr_float (x : Q) : string :=
  let n := Z.abs (Qnum x) in
  let d := Z.pos (Qden x) in
  let sign := if Qnum x <? 0 then "-" else "" in
  let fr := frac_digits 17 (n mod d) d in
  sign +:+ pretty (Z.to_N (n / d)) +:+ "." +:+ (if String.eqb fr "" then "0" else fr).

(** [c.isspace()] for the character with code point [c]: the ASCII controls
    U+0009 to U+000D and U+001C to U+001F, the space, U+0085, U+00A0, U+1680,
    U+2000 to U+200A, U+2028, U+2029, U+202F, U+205F and U+3000. *)
Definition isspace (c : N) : bool :=
  ((9 <=? c) && (c <=? 13) || (28 <=? c) && (c <=? 32) || (c =? 133) || (c =? 160)
   || (c =? 5760) || (8192 <=? c) && (c <=? 8202) || (c =? 8232) || (c =? 8233)
   || (c =? 8239) || (c =? 8287) || (c =? 12288))%N.

(** A continuation byte of UTF-8. *)
Definition continuation (b : N) : bool := ((128 <=? b) && (b <=? 191))%N.

(** [ord(ch)] for a string that is one character: the code point that its
    bytes encode.  Encodings longer than needed and surrogates are no
    characters. *)
Definition ord (ch : string) : option N :=
  match map N_of_ascii (list_ascii_of_string ch) with
  | [b1] => if (b1 <? 128)%N then Some b1 else None
  | [b1; b2] =>
      if ((194 <=? b1) && (b1 <=? 223))%N && continuation b2
      then Some ((b1 - 192) * 64 + (b2 - 128))%N else None
  | [b1; b2; b3] =>
      let c := ((b1 - 224) * 4096 + (b2 - 128) * 64 + (b3 - 128))%N in
      if ((224 <=? b1) && (b1 <=? 239))%N && continuation b2 && continuation b3
         && (2048 <=? c)%N && negb ((55296 <=? c) && (c <=? 57343))%N
      then Some c else None
  | [b1; b2; b3; b4] =>
      let c := ((b1 - 240) * 262144 + (b2 - 128) * 4096 + (b3 - 128) * 64
                + (b4 - 128))%N in
      if ((240 <=? b1) && (b1 <=? 244))%N && continuation b2 && continuation b3
         && continuation b4 && (65536 <=? c)%N && (c <=? 1114111)%N
      then Some c else None
  | _ => None
  end.

(** [ch] is one character, and white space. *)
Definition is_space (ch : string) : bool :=
  match ord ch with
  | Some c => isspace c
  | None => false
  end.

(** [s.lstrip()]: white space is dropped character by character; a character
    that is white space takes at most three bytes. *)
Fixpoint lstrip (s : string) : string :=
  match s with
  | String b1 s1 =>
      if is_space (String b1 "") then lstrip s1 else
      match s1 with
      | String b2 s2 =>
          if is_space (String b1 (String b2 "")) then lstrip s2 else
          match s2 with
          | String b3 s3 =>
              if is_space (String b1 (String b2 (String b3 ""))) then lstrip s3
              else s
          | EmptyString => s
          end
      | EmptyString => s
      end
  | EmptyString => EmptyString
  end.

(** [s.rstrip()]: from the right, a byte is dropped together with the bytes
    kept after it when they are one character of white space, everything
    after them having been dropped. *)
Fixpoint rstrip (s : string) : string :=
  match s with
  | String b s' =>
      let t := rstrip s' in
      if is_space (String b t) then EmptyString else String b t
  | EmptyString => EmptyString
  end.

(** [s.strip()] *)
Definition strip (s : string) : string := rstrip (lstrip s).
(** [sub in s] *)
Fixpoint contains (sub s : string) : bool :=
  String.prefix sub s ||
  match s with
  | String _ s' => contains sub s'
  | EmptyString => false
  end.

(** An exception object: its class and [str(e)]. *)
Record Exn := mkExn { exn_class : string; exn_str : string }.

End Py.

(** ** The random sources

    A source answers the calls that the script makes to the two sampling
    routines of the library, [_randbelow] and [random()], through which
    [choice], [randint] and [uniform] all go.  It is a stream with one element
    per call, together with the number of calls answered so far.  The element
    is what the routine turns into its result: [_randbelow n] reduces it
    modulo [n] and [random()] takes its low 53 bits as a binary fraction in
    [[0, 1)], so that every value the routine can return is the result for
    some element.  How many words of the generator one call takes (CPython
    draws again until the value is below [n], and takes two words for a
    float) lies below this model: it keeps the order of the calls and the
    values each of them can return. *)

Module Random.

Record Rng := mkRng { raw : nat -> N; used : nat }.

Definition Rand (A : Type) : Type := Rng -> A * Rng.

Definition ret {A} (a : A) : Rand A := fun g => (a, g).

Definition bind {A B} (m : Rand A) (k : A -> Rand B) : Rand B :=
  fun g => let (a, g') := m g in k a g'.

Definition draw : Rand N :=
  fun g => (raw g (used g), mkRng (raw g) (S (used g))).

Definition randbelow (n : Z) : Rand Z :=
  bind draw (fun r => ret (Z.of_N r mod n)).

Definition random : Rand Q :=
  bind draw (fun r => ret (Qmake (Z.of_N r mod 2 ^ 53) (2 ^ 53))).

(** [random.randint(a, b)] *)
Definition randint (a b : Z) : Rand Z :=
  bind (randbelow (b - a + 1)) (fun k => ret (a + k)).

(** [random.uniform(a, b)] *)
Definition uniform (a b : Q) : Rand Q :=
  bind random (fun u => ret (a + (b - a) * u)%Q).

(** [random.choice(seq)] on a non-empty literal [x :: xs]. *)
Definition choice {A} (x : A) (xs : list A) : Rand A :=
  bind (randbelow (Z.of_nat (List.length (x :: xs))))
       (fun i => ret (nth (Z.to_nat i) (x :: xs) x)).

End Random.

Declare Scope rand_scope.
Delimit Scope rand_scope with rand.
Notation "x <- m ;; k" := (Random.bind m (fun x => k))
  (at level 100, m at next level, right associativity) : rand_scope.


(** ** The asset register *)

(** One row of the register; the fields are the keys of the dictionary built
    in [generate_assets], in insertion order. *)
Record Asset := mkAsset {
  Asset_ID : string;
  Type_ : string;
  Location : string;
  Age_years : Z;
  Last_Maintenance : Z;
  Degradation_pct : Q;
  Status : string;
  Vibration : Q;
  Temperature : Q;
  Corrosion_Level : Q;
  RUL_months : Z
}.

(** The dictionary [equipment_types], in insertion order. *)
Definition equipment_types : list (string * nat) :=
  [ ("Pump", 30); ("Compressor", 10); ("Turbine", 5); ("Heat Exchanger", 10);
    ("Tank", 10); ("Vessel", 5); ("Pipeline", 15); ("Motor", 10);
    ("Control Panel", 5); ("Sensor", 40) ]%nat.

Section Generator.

Import Random.
Local Open Scope rand_scope.

(** The day number of [datetime.today()]. *)
Variable today : Z.

(** The dictionary appended in the body of the inner loop; the values are
    drawn in the order in which the literal lists them. *)
Definition new_asset (eq_type : string) (id_counter : Z) : Rand Asset :=
  zone <- choice "A" ["B"; "C"; "D"] ;;
  age <- randint 1 20 ;;
  days <- randint 30 900 ;;
  degradation <- uniform 10 90 ;;
  status <- choice "Operational" ["Under Maintenance"; "Standby"] ;;
  vibration <- uniform 0.1 5.0 ;;
  temperature <- uniform 30 120 ;;
  corrosion <- uniform 0 1.0 ;;
  rul <- randint 1 36 ;;
  ret {| Asset_ID := "A" +:+ Py.format_04d id_counter;
         Type_ := eq_type;
         Location := "Zone " +:+ zone;
         Age_years := age;
         Last_Maintenance := today - days;
         Degradation_pct := Py.round degradation 2;
         Status := status;
         Vibration := Py.round vibration 2;
         Temperature := Py.round temperature 1;
         Corrosion_Level := Py.round corrosion 2;
         RUL_months := rul |}.

(** [for _ in range(count): assets.append(...); id_counter += 1] *)
Fixpoint append_assets (eq_type : string) (count : nat)
    (assets : list Asset) (id_counter : Z) : Rand (list Asset * Z) :=
  match count with
  | O => ret (assets, id_counter)
  | S count =>
      a <- new_asset eq_type id_counter ;;
      append_assets eq_type count (assets ++ [a]) (id_counter + 1)
  end.

(** [for eq_type, count in equipment_types.items(): ...] *)
Fixpoint each_type (types : list (string * nat))
    (assets : list Asset) (id_counter : Z) : Rand (list Asset * Z) :=
  match types with
  | [] => ret (assets, id_counter)
  | (eq_type, count) :: types =>
      st <- append_assets eq_type count assets id_counter ;;
      each_type types (fst st) (snd st)
  end.

Definition generate_assets : Rand (list Asset) :=
  st <- each_type equipment_types [] 1 ;;
  ret (fst st).

End Generator.

(** ** Data frames *)

Inductive Value :=
| VStr (s : string)
| VInt (n : Z)
| VFloat (x : Q)
| VDate (d : Z).

(** A row of a frame: the generated fields and the two columns that the cost
    forecast adds to its own frame. *)
Record Row := mkRow {
  asset : Asset;
  Replacement_Cost : option Z;
  Replace_By : option Z
}.

Definition Frame : Type := list Row.

(** [pd.DataFrame(assets)] *)
Definition DataFrame (assets : list Asset) : Frame :=
  map (fun a => mkRow a None None) assets.

(** A row as a labelled series, in column order. *)
Definition series (r : Row) : list (string * Value) :=
  let a := asset r in
  [ ("Asset ID", VStr (Asset_ID a)); ("Type", VStr (Type_ a));
    ("Location", VStr (Location a)); ("Age (years)", VInt (Age_years a));
    ("Last Maintenance", VDate (Last_Maintenance a));
    ("Degradation %", VFloat (Degradation_pct a)); ("Status", VStr (Status a));
    ("Vibration", VFloat (Vibration a)); ("Temperature", VFloat (Temperature a));
    ("Corrosion Level", VFloat (Corrosion_Level a));
    ("RUL (months)", VInt (RUL_months a)) ]
  ++ match Replacement_Cost r with
     | Some c => [("Replacement Cost ($)", VInt c)]
     | None => []
     end
  ++ match Replace_By r with
     | Some d => [("Replace By", VDate d)]
     | None => []
     end.

(** [len(row)] *)
Definition len (r : Row) : nat := List.length (series r).

Fixpoint lookup_column (c : string) (s : list (string * Value)) : option Value :=
  match s with
  | [] => None
  | (k, v) :: s => if String.eqb k c then Some v else lookup_column c s
  end.

(** [row[[c1, ..., cn]]]; [inl c] names the first missing column. *)
Fixpoint select_row (cols : list string) (r : Row) : string + list (string * Value) :=
  match cols with
  | [] => inr []
  | c :: cols =>
      match lookup_column c (series r) with
      | None => inl c
      | Some v =>
          match select_row cols r with
          | inl e => inl e
          | inr vs => inr ((c, v) :: vs)
          end
      end
  end.

Fixpoint select (cols : list string) (f : Frame) : string + list (list (string * Value)) :=
  match f with
  | [] => inr []
  | r :: f =>
      match select_row cols r with
      | inl e => inl e
      | inr vs =>
          match select cols f with
          | inl e => inl e
          | inr t => inr (vs :: t)
          end
      end
  end.

(** [sort_values(key, ascending=False)]: rows with the larger key first, rows
    with equal keys in their original order. *)
Fixpoint insert_desc (key : Row -> Q) (r : Row) (sorted : Frame) : Frame :=
  match sorted with
  | [] => [r]
  | r' :: rest =>
      if Qle_bool (key r') (key r) then r :: sorted
      else r' :: insert_desc key r rest
  end.

Definition sort_values_desc (key : Row -> Q) (f : Frame) : Frame :=
  fold_right (insert_desc key) [] f.

(** [head(n)] *)
Definition head (n : nat) (f : Frame) : Frame := firstn n f.

(** ** The page

    The page records, in order, the widgets that the script writes and the
    container each one is written into.  What leaves no widget is left out:
    [st.set_page_config], the creation of the tab containers by [st.tabs], and
    [st.spinner], which only shows a transient indicator while its body
    runs. *)

Inductive Container := Page | Tab (i : nat).

Inductive Widget :=
| st_title (body : string)
| st_subheader (body : string)
| st_markdown (body : string)
| st_info (body : string)
| st_warning (body : string)
| st_error (body : string)
| st_success (body : string)
| st_dataframe (table : list (list (string * Value))) (styles : list (list string))
| st_pyplot (title xlabel ylabel : string) (bars : list (string * Q))
| st_text_area (label value : string)
| st_button (label : string).

(** ** The chat endpoint *)

(** What [client.chat.completions.create] does on one call: it returns a
    response, whose choices each carry a message content that may be null, or
    it raises. *)
Inductive Reply :=
| Response (choices : list (option string))
| Raises (e : Py.Exn).

(** What the script reads from outside: the clock, the configured deployment
    name, the endpoint (its answer to the [n]-th request), and the user's input
    on the field-report panel. *)
Record Env := mkEnv {
  today : Z;
  DEPLOYMENT_NAME : string;
  create : nat -> string -> list (string * string) -> Reply;
  technician_notes : option string;
  generate_summary_clicked : bool
}.

(** ** Interpreter state and the script monad

    [py_random] is the source behind the [random] module and [np_random] the
    one that [DataFrame.sample] draws from; [heap] holds the frame objects,
    addressed by position; [prompt] is the module-level variable of that
    name, unbound until first assigned; [page] is what has been displayed and
    [requests] the user prompts sent to the endpoint so far.  A script either
    ends normally with a value or raises; both leave a state behind. *)

Record State := mkState {
  py_random : Random.Rng;
  np_random : Random.Rng;
  heap : list Frame;
  prompt : option string;
  page : list (Container * Widget);
  requests : list string
}.

Inductive Outcome (A : Type) :=
| Ok (a : A) (s : State)
| Raised (e : Py.Exn) (s : State).
Arguments Ok {A} a s.
Arguments Raised {A} e s.

Definition Script (A : Type) : Type := Env -> State -> Outcome A.

Definition pure {A} (a : A) : Script A := fun _ s => Ok a s.

Definition and_then {A B} (m : Script A) (k : A -> Script B) : Script B :=
  fun env s =>
    match m env s with
    | Ok a s' => k a env s'
    | Raised e s' => Raised e s'
    end.

Definition raise {A} (e : Py.Exn) : Script A := fun _ s => Raised e s.

Definition ask : Script Env := fun env s => Ok env s.

Declare Scope script_scope.
Delimit Scope script_scope with script.
Notation "x <- m ;; k" := (and_then m (fun x => k))
  (at level 100, m at next level, right associativity) : script_scope.
Notation "m ;;; k" := (and_then m (fun _ => k))
  (at level 100, right associativity) : script_scope.

Section Primitives.

Local Open Scope script_scope.

(** Run a computation on the [random] module's source. *)
Definition rand {A} (m : Random.Rand A) : Script A :=
  fun _ s =>
    let (a, g) := m (py_random s) in
    Ok a (mkState g (np_random s) (heap s) (prompt s) (page s) (requests s)).

(** Run a computation on the source that pandas samples from. *)
Definition np_rand {A} (m : Random.Rand A) : Script A :=
  fun _ s =>
    let (a, g) := m (np_random s) in
    Ok a (mkState (py_random s) g (heap s) (prompt s) (page s) (requests s)).

(** Write a widget into a container of the page. *)
Definition show (c : Container) (w : Widget) : Script unit :=
  fun _ s =>
    Ok tt (mkState (py_random s) (np_random s) (heap s) (prompt s)
                   (page s ++ [(c, w)]) (requests s)).

(** A new frame object. *)
Definition alloc (f : Frame) : Script nat :=
  fun _ s =>
    Ok (List.length (heap s))
       (mkState (py_random s) (np_random s) (heap s ++ [f]) (prompt s)
                (page s) (requests s)).

(** The rows of the frame at a location. *)
Definition rows (l : nat) : Script Frame :=
  fun _ s => Ok (default [] (heap s !! l)) s.

(** Overwrite the frame at a location (column assignment in place). *)
Definition store (l : nat) (f : Frame) : Script unit :=
  fun _ s =>
    Ok tt (mkState (py_random s) (np_random s) (<[l := f]> (heap s)) (prompt s)
                   (page s) (requests s)).

(** [prompt = p] *)
Definition assign_prompt (p : string) : Script unit :=
  fun _ s =>
    Ok tt (mkState (py_random s) (np_random s) (heap s) (Some p)
                   (page s) (requests s)).

(** Reading the module-level name [prompt]. *)
Definition read_prompt : Script string :=
  fun _ s =>
    match prompt s with
    | Some p => Ok p s
    | None => Raised (Py.mkExn "NameError" "name 'prompt' is not defined") s
    end.

(** [df[mask]]: indexing with a boolean series copies; the result is a new
    frame holding the rows that satisfy the mask. *)
Definition mask (l : nat) (p : Row -> bool) : Script nat :=
  f <- rows l ;; alloc (List.filter p f).

(** [df.sort_values(key, ascending=False).head(n)] *)
Definition top (l : nat) (key : Row -> Q) (n : nat) : Script nat :=
  f <- rows l ;;
  sorted <- alloc (sort_values_desc key f) ;;
  f' <- rows sorted ;;
  alloc (head n f').

(** [df.sample(1).iloc[0]] *)
Definition sample1 (l : nat) : Script Row :=
  f <- rows l ;;
  match f with
  | [] => raise (Py.mkExn "ValueError"
                   "a must be greater than 0 unless no samples are taken")
  | r :: _ =>
      i <- np_rand (Random.randbelow (Z.of_nat (List.length f))) ;;
      pure (nth (Z.to_nat i) f r)
  end.

(** [df[cols]] for display. *)
Definition project (cols : list string) (f : Frame)
    : Script (list (list (string * Value))) :=
  match select cols f with
  | inl c => raise (Py.mkExn "KeyError" c)
  | inr t => pure t
  end.

(** [for x in xs: body] *)
Fixpoint for_each {A} (xs : list A) (body : A -> Script unit) : Script unit :=
  match xs with
  | [] => pure tt
  | x :: xs => body x ;;; for_each xs body
  end.

(** The body of the [try] in [genai_advisory]. *)
Definition first_content_stripped (r : Reply) : Py.Exn + string :=
  match r with
  | Raises e => inl e
  | Response [] => inl (Py.mkExn "IndexError" "list index out of range")
  | Response (None :: _) =>
      inl (Py.mkExn "AttributeError" "'NoneType' object has no attribute 'strip'")
  | Response (Some content :: _) => inr (Py.strip content)
  end.

(** The state after one more request went out. *)
Definition sent (user_content : string) (s : State) : State :=
  mkState (py_random s) (np_random s) (heap s) (prompt s)
          (page s) (requests s ++ [user_content]).

Definition genai_advisory (prompt : string) : Script string :=
  fun env s =>
    let s' := sent prompt s in
    match first_content_stripped
            (create env (List.length (requests s)) (DEPLOYMENT_NAME env)
               [ ("system", "You are an asset integrity advisor.");
                 ("user", prompt) ]) with
    | inr text => Ok text s'
    | inl e => Ok ("⚠️ GenAI Error: " +:+ Py.exn_str e) s'
    end.

End Primitives.

(** ** The panels *)

Section Panels.

Local Open Scope script_scope.

(** The location of the frame bound to [assets_df]. *)
Variable assets_df : nat.

Definition RUL (r : Row) : Z := RUL_months (asset r).

Definition tab0 : Script unit :=
  show (Tab 0) (st_markdown "
    ### About This Assistant

    This Asset Integrity GenAI Assistant provides AI-powered insights and simulations for managing infrastructure health.

    **Included Modules:**
    - Asset Register with condition and maintenance status
    - Remaining Useful Life (RUL) estimation with risk highlighting
    - Corrosion trend visualization and analysis
    - Failure mode prediction for critical assets
    - Technician field report summarization and advisory
    - Regulatory compliance risk forecasting
    - Replacement cost estimation and capital planning
    - Prioritized maintenance work order generation

    **Next steps could include integrating real-time sensor data, CMMS connections, and advanced image-based fault detection.**
    ").

Definition color_row (row : Row) : list string :=
  if RUL row <=? 3 then repeat "background-color: red" (len row)
  else if RUL row <=? 6 then repeat "background-color: yellow" (len row)
  else repeat "background-color: lightgreen" (len row).

Definition tab1 : Script unit :=
  show (Tab 1) (st_subheader "🧱 Full Asset Register") ;;;
  show (Tab 1) (st_markdown "**🟩 Green = Safe | 🟨 Yellow = Nearing Replacement | 🟥 Red = Immediate Replacement Required**") ;;;
  df <- rows assets_df ;;
  show (Tab 1) (st_dataframe (map series df) (map color_row df)).

Definition highlight_lifespan (row : Row) : list string :=
  if RUL row <=? 3 then repeat "background-color: red" (len row)
  else if RUL row <=? 6 then repeat "background-color: yellow" (len row)
  else repeat "" (len row).

Definition lifespan_prompt (sample : Asset) : string :=
  "Asset ID: " +:+ Asset_ID sample +:+ "
Type: " +:+ Type_ sample +:+ "
Age: " +:+ Py.str_int (Age_years sample) +:+ " years
Degradation: " +:+ Py.repr_float (Degradation_pct sample) +:+ "%
Vibration: " +:+ Py.repr_float (Vibration sample) +:+ "
Temperature: " +:+ Py.repr_float (Temperature sample) +:+ " deg C
Corrosion Level: " +:+ Py.repr_float (Corrosion_Level sample) +:+ "
RUL: " +:+ Py.str_int (RUL_months sample) +:+ " months
Explain why this asset's RUL is low and suggest next steps.".

Definition tab2 : Script unit :=
  show (Tab 2) (st_subheader "🔮 Lifespan & Risk Estimator") ;;;
  low_rul_df <- mask assets_df (fun r => RUL r <=? 6) ;;
  show (Tab 2) (st_markdown "**🟥 Red = Immediate Replacement | 🟨 Yellow = Nearing End of Life**") ;;;
  low <- rows low_rul_df ;;
  show (Tab 2) (st_dataframe (map series low) (map highlight_lifespan low)) ;;;
  match low with
  | [] => pure tt
  | _ =>
      sample <- sample1 low_rul_df ;;
      assign_prompt (lifespan_prompt (asset sample)) ;;;
      p <- read_prompt ;;
      advisory <- genai_advisory p ;;
      show (Tab 2) (st_markdown ("**GenAI Insight for " +:+ Asset_ID (asset sample) +:+ "**")) ;;;
      show (Tab 2) (st_info advisory)
  end.

Definition tab3 : Script unit :=
  show (Tab 3) (st_subheader "🧪 Corrosion Trend Simulator") ;;;
  corroding <- top assets_df (fun r => Corrosion_Level (asset r)) 5 ;;
  top5 <- rows corroding ;;
  show (Tab 3) (st_pyplot "Top Corroding Assets" "Asset ID" "Corrosion Level"
                  (map (fun r => (Asset_ID (asset r), Corrosion_Level (asset r))) top5)) ;;;
  for_each top5 (fun row =>
    show (Tab 3) (st_markdown ("**Corrosion Summary for " +:+ Asset_ID (asset row) +:+ "**")) ;;;
    p <- read_prompt ;;
    advisory <- genai_advisory p ;;
    show (Tab 3) (st_warning advisory)).

Definition tab4 : Script unit :=
  risky <- top assets_df (fun r => Degradation_pct (asset r)) 5 ;;
  top5 <- rows risky ;;
  for_each top5 (fun row =>
    show (Tab 4) (st_markdown ("**Failure Mode Prediction for " +:+ Asset_ID (asset row) +:+ "**")) ;;;
    p <- read_prompt ;;
    advisory <- genai_advisory p ;;
    show (Tab 4) (st_error advisory)).

Definition tab5 : Script unit :=
  env <- ask ;;
  let default_note := "Pump A003 vibrating heavily and overheating. Corrosion visible." in
  show (Tab 5) (st_text_area "Paste technician notes" default_note) ;;;
  let note := default default_note (technician_notes env) in
  show (Tab 5) (st_button "Generate Summary") ;;;
  if generate_summary_clicked env then
    assign_prompt ("Summarize this field report into risk advisory:
" +:+ note) ;;;
    p <- read_prompt ;;
    advisory <- genai_advisory p ;;
    show (Tab 5) (st_success advisory)
  else pure tt.

Definition compliance_prompt (sample : Asset) : string :=
  "The asset " +:+ Asset_ID sample +:+ " is " +:+ Py.str_int (Age_years sample)
  +:+ " years old with degradation " +:+ Py.repr_float (Degradation_pct sample)
  +:+ "%, in location " +:+ Location sample
  +:+ ". Predict possible upcoming compliance risks.".

Definition tab6 : Script unit :=
  show (Tab 6) (st_subheader "📜 Regulatory Compliance Forecast") ;;;
  sample <- sample1 assets_df ;;
  assign_prompt (compliance_prompt (asset sample)) ;;;
  p <- read_prompt ;;
  advisory <- genai_advisory p ;;
  show (Tab 6) (st_info advisory).

(** The catalog is rebuilt, with ten calls to [randint], on every call. *)
Definition get_equipment_cost (eq_type : string) : Random.Rand Z :=
  (pump <- Random.randint 5000 15000 ;;
   compressor <- Random.randint 20000 60000 ;;
   turbine <- Random.randint 40000 120000 ;;
   tank <- Random.randint 15000 40000 ;;
   sensor <- Random.randint 500 3000 ;;
   pipeline <- Random.randint 10000 30000 ;;
   motor <- Random.randint 8000 20000 ;;
   control_panel <- Random.randint 5000 15000 ;;
   heat_exchanger <- Random.randint 10000 25000 ;;
   vessel <- Random.randint 12000 35000 ;;
   let catalog : gmap string Z :=
     list_to_map
       [ ("Pump", pump); ("Compressor", compressor); ("Turbine", turbine);
         ("Tank", tank); ("Sensor", sensor); ("Pipeline", pipeline);
         ("Motor", motor); ("Control Panel", control_panel);
         ("Heat Exchanger", heat_exchanger); ("Vessel", vessel) ] in
   Random.ret (default 10000 (catalog !! eq_type)))%rand.

(** [series.apply(f)]: [f] is called on the elements in order. *)
Fixpoint apply {A B} (f : A -> Random.Rand B) (xs : list A) : Random.Rand (list B) :=
  match xs with
  | [] => Random.ret []
  | x :: xs =>
      (y <- f x ;; ys <- apply f xs ;; Random.ret (y :: ys))%rand
  end.

(** [df["Replacement Cost ($)"] = costs], row by row. *)
Fixpoint set_replacement_cost (f : Frame) (costs : list Z) : Frame :=
  match f, costs with
  | r :: f, c :: costs =>
      mkRow (asset r) (Some c) (Replace_By r) :: set_replacement_cost f costs
  | _, _ => f
  end.

(** [df["Replace By"] = today + 30 days per month of RUL] *)
Definition set_replace_by (today : Z) (f : Frame) : Frame :=
  map (fun r => mkRow (asset r) (Replacement_Cost r) (Some (today + RUL r * 30))) f.

(** [df[c]] for a column of integers; [inl c] when a row lacks it. *)
Fixpoint int_column (c : string) (f : Frame) : string + list Z :=
  match f with
  | [] => inr []
  | r :: f =>
      match lookup_column c (series r), int_column c f with
      | Some (VInt n), inr ns => inr (n :: ns)
      | _, _ => inl c
      end
  end.

Definition sum (ns : list Z) : Z := fold_left Z.add ns 0.

Definition cost_prompt (total : Z) : string :=
  "In the next 6 months, assets totaling $" +:+ Py.str_int total
  +:+ " are due for replacement. Provide a capital planning summary.".

Definition tab7 : Script unit :=
  env <- ask ;;
  low_rul <- mask assets_df (fun r => RUL r <=? 6) ;;
  low <- rows low_rul ;;
  match low with
  | [] => show (Tab 7) (st_info "No assets nearing end of life.")
  | _ =>
      costs <- rand (apply get_equipment_cost (map (fun r => Type_ (asset r)) low)) ;;
      store low_rul (set_replacement_cost low costs) ;;;
      low <- rows low_rul ;;
      store low_rul (set_replace_by (today env) low) ;;;
      low <- rows low_rul ;;
      table <- project ["Asset ID"; "Type"; "Location"; "RUL (months)";
                        "Replacement Cost ($)"; "Replace By"] low ;;
      show (Tab 7) (st_dataframe table []) ;;;
      match int_column "Replacement Cost ($)" low with
      | inl c => raise (Py.mkExn "KeyError" c)
      | inr column =>
          let total := sum column in
          assign_prompt (cost_prompt total) ;;;
          p <- read_prompt ;;
          advisory <- genai_advisory p ;;
          show (Tab 7) (st_success advisory)
      end
  end.

Definition work_order_prompt (sample : Asset) : string :=
  "Create a prioritized maintenance work order for:
Asset: " +:+ Asset_ID sample +:+ "
Type: " +:+ Type_ sample +:+ "
Location: " +:+ Location sample +:+ "
Status: " +:+ Status sample +:+ "
RUL: " +:+ Py.str_int (RUL_months sample) +:+ " months
Vibration: " +:+ Py.repr_float (Vibration sample) +:+ "
Temperature: " +:+ Py.repr_float (Temperature sample) +:+ " deg C
Corrosion: " +:+ Py.repr_float (Corrosion_Level sample) +:+ "
Suggest optimal technician type and urgency.".

Definition tab8 : Script unit :=
  show (Tab 8) (st_subheader "🧰 Work Order Optimizer") ;;;
  show (Tab 8) (st_markdown "✅ Tab Loaded") ;;;
  critical_assets <- mask assets_df (fun r => RUL r <=? 3) ;;
  critical <- rows critical_assets ;;
  match critical with
  | [] => show (Tab 8) (st_success "✅ No urgent work orders required.")
  | _ =>
      table <- project ["Asset ID"; "Type"; "Location"; "Status"; "RUL (months)"]
                       critical ;;
      show (Tab 8) (st_dataframe table []) ;;;
      sample <- sample1 critical_assets ;;
      assign_prompt (work_order_prompt (asset sample)) ;;;
      p <- read_prompt ;;
      advisory <- genai_advisory p ;;
      if Py.contains "⚠️" advisory then show (Tab 8) (st_error advisory)
      else show (Tab 8) (st_info advisory)
  end.

End Panels.

(** ** The script, top to bottom *)

Section Main.

Local Open Scope script_scope.

Definition main : Script unit :=
  env <- ask ;;
  assets <- rand (generate_assets (today env)) ;;
  assets_df <- alloc (DataFrame assets) ;;
  show Page (st_title "🏭 Asset Integrity GenAI Assistant") ;;;
  tab0 ;;;
  tab1 assets_df ;;;
  tab2 assets_df ;;;
  tab3 assets_df ;;;
  tab4 assets_df ;;;
  tab5 ;;;
  tab6 assets_df ;;;
  tab7 assets_df ;;;
  tab8 assets_df.

(** The state in which the interpreter starts the script. *)
Definition startup (py np : nat -> N) : State :=
  mkState (Random.mkRng py 0) (Random.mkRng np 0) [] None [] [].

Definition final {A} (o : Outcome A) : State :=
  match o with
  | Ok _ s => s
  | Raised _ s => s
  end.

End Main.

(** ** Notions used in the statements *)

(** The power of ten by which [round(x, ndigits)] scales. *)
Definition scale (ndigits : nat) : positive :=
  match ndigits with
  | O => 1%positive
  | _ => Pos.pow 10 (Pos.of_nat ndigits)
  end.

(** [post m P]: every result of [m] satisfies [P], whatever the draws. *)
Definition post {A} (m : Random.Rand A) (P : A -> Prop) : Prop :=
  forall g, P (fst (m g)).

(** Python's order on [str], here on byte strings. *)
Definition str_lt (a b : string) : Prop := String.compare a b = Lt.

#[global] Instance str_lt_dec : RelDecision str_lt.
Proof. intros a b. unfold str_lt. solve_decision. Defined.

(** [A0001], [A0002], ... *)
Definition asset_id (i : nat) : string := "A" +:+ Py.format_04d (Z.of_nat i).

(** A float that was rounded to the given number of decimals. *)
Definition decimals (ndigits : nat) (x : Q) : Prop :=
  exists k : Z, x = Qmake k (scale ndigits).

(** The declared bounds of the numeric fields of a record. *)
Definition within_declared_bounds (a : Asset) : Prop :=
  1 <= Age_years a <= 20 /\
  ((10 <= Degradation_pct a)%Q /\ (Degradation_pct a <= 90)%Q /\
   decimals 2 (Degradation_pct a)) /\
  ((0.1 <= Vibration a)%Q /\ (Vibration a <= 5.0)%Q /\ decimals 2 (Vibration a)) /\
  ((30 <= Temperature a)%Q /\ (Temperature a <= 120)%Q /\
   decimals 1 (Temperature a)) /\
  ((0 <= Corrosion_Level a)%Q /\ (Corrosion_Level a <= 1.0)%Q /\
   decimals 2 (Corrosion_Level a)) /\
  1 <= RUL_months a <= 36.

(** The table of section 4.2 of the specification: type, lowest and highest
    replacement cost. *)
Definition declared_cost_ranges : list (string * (Z * Z)) :=
  [ ("Pump", (5000, 15000)); ("Compressor", (20000, 60000));
    ("Turbine", (40000, 120000)); ("Tank", (15000, 40000));
    ("Sensor", (500, 3000)); ("Pipeline", (10000, 30000));
    ("Motor", (8000, 20000)); ("Control Panel", (5000, 15000));
    ("Heat Exchanger", (10000, 25000)); ("Vessel", (12000, 35000)) ].

(** The three classes of section 4.5 of the specification, with the
    boundaries as the specification words them. *)
Inductive Risk := critical | warning | safe.

Inductive risk_spec (rul : Z) : Risk -> Prop :=
| risk_critical : rul <= 3 -> risk_spec rul critical
| risk_warning : 3 < rul <= 6 -> risk_spec rul warning
| risk_safe : 6 < rul -> risk_spec rul safe.

(** The cell style of a class in the asset register and in the lifespan
    table. *)
Definition register_style (c : Risk) : string :=
  match c with
  | critical => "background-color: red"
  | warning => "background-color: yellow"
  | safe => "background-color: lightgreen"
  end.

Definition lifespan_style (c : Risk) : string :=
  match c with
  | critical => "background-color: red"
  | warning => "background-color: yellow"
  | safe => ""
  end.

(** The characters that Unicode classes as white space, by code point. *)
Definition white_space : list N :=
  [ 9; 10; 11; 12; 13; 28; 29; 30; 31; 32; 133; 160; 5760;
    8192; 8193; 8194; 8195; 8196; 8197; 8198; 8199; 8200; 8201; 8202;
    8232; 8233; 8239; 8287; 12288 ]%N.

(** The UTF-8 encoding of a code point. *)
Definition utf8 (c : N) : string :=
  let byte (n : N) := String (ascii_of_N n) "" in
  (if c <? 128 then byte c
   else if c <? 2048 then byte (192 + c / 64) +:+ byte (128 + c mod 64)
   else if c <? 65536 then
     byte (224 + c / 4096) +:+ byte (128 + (c / 64) mod 64) +:+ byte (128 + c mod 64)
   else
     byte (240 + c / 262144) +:+ byte (128 + (c / 4096) mod 64)
     +:+ byte (128 + (c / 64) mod 64) +:+ byte (128 + c mod 64))%N.

Definition encode (cs : list N) : string := foldr (fun c s => utf8 c +:+ s) "" cs.

(** White space only. *)
Definition blank (s : string) : Prop :=
  exists cs, Forall (fun c => In c white_space) cs /\ s = encode cs.

Definition starts_with_space (s : string) : Prop :=
  exists c rest, In c white_space /\ s = utf8 c +:+ rest.

Definition ends_with_space (s : string) : Prop :=
  exists c front, In c white_space /\ s = front +:+ utf8 c.

(** [t] is [s] without the white space around it. *)
Definition trimmed_from (s t : string) : Prop :=
  exists l r, s = l +:+ t +:+ r /\ blank l /\ blank r /\
              ~ starts_with_space t /\ ~ ends_with_space t.

(** The request that [genai_advisory] sends for a prompt. *)
Definition advisory_request (prompt : string) : list (string * string) :=
  [ ("system", "You are an asset integrity advisor."); ("user", prompt) ].

(** The key by which the corrosion panel and the failure-mode panel rank. *)
Definition corrosion (r : Row) : Q := Corrosion_Level (asset r).
Definition degradation (r : Row) : Q := Degradation_pct (asset r).

(** The rows of the frame at a location, and the five that rank highest. *)
Definition frame_at (l : nat) (h : list Frame) : Frame := default [] (h !! l).

Definition top5_by (key : Row -> Q) (l : nat) (h : list Frame) : Frame :=
  head 5 (sort_values_desc key (frame_at l h)).

Definition NameError_prompt : Py.Exn :=
  Py.mkExn "NameError" "name 'prompt' is not defined".

(** One cost estimate per type, in order, each continuing with the random
    source where the previous one left it. *)
Fixpoint cost_samples (types : list string) (g : Random.Rng) : list Z :=
  match types with
  | [] => []
  | t :: types =>
      fst (get_equipment_cost t g) :: cost_samples types (snd (get_equipment_cost t g))
  end.

(** The rows that the cost forecast is about. *)
Definition due_for_replacement (assets_df : nat) (s : State) : Frame :=
  List.filter (fun r => RUL r <=? 6) (frame_at assets_df (heap s)).

(** [grows h0 m Q]: started on a heap that extends [h0], the script [m] ends,
    normally or not, on a heap that still extends [h0]; a result satisfies
    [Q]. *)
Definition grows (h0 : list Frame) {A} (m : Script A) (Q : A -> Prop) : Prop :=
  forall env s,
    h0 `prefix_of` heap s ->
    match m env s with
    | Ok a s' => h0 `prefix_of` heap s' /\ Q a
    | Raised _ s' => h0 `prefix_of` heap s'
    end.

(** The nine panels, each as a function of the location of the table. *)
Definition panels : list (nat -> Script unit) :=
  [ fun _ => tab0; tab1; tab2; tab3; tab4; fun _ => tab5; tab6; tab7; tab8 ].

(** How a widget is rendered: the Streamlit call that wrote it. *)
Definition kind (w : Widget) : string :=
  match w with
  | st_title _ => "title"
  | st_subheader _ => "subheader"
  | st_markdown _ => "markdown"
  | st_info _ => "info"
  | st_warning _ => "warning"
  | st_error _ => "error"
  | st_success _ => "success"
  | st_dataframe _ _ => "dataframe"
  | st_pyplot _ _ _ _ => "pyplot"
  | st_text_area _ _ => "text_area"
  | st_button _ => "button"
  end.

(** Where and how the widgets of a page are rendered, their text apart. *)
Definition routing (pg : list (Container * Widget)) : list (Container * string) :=
  map (fun cw => (fst cw, kind (snd cw))) pg.

(** The same environment with another endpoint behind the client. *)
Definition with_endpoint (env : Env)
    (create' : nat -> string -> list (string * string) -> Reply) : Env :=
  mkEnv (today env) (DEPLOYMENT_NAME env) create' (technician_notes env)
        (generate_summary_clicked env).

(** Two states that differ at most in the text of the widgets shown. *)
Definition similar (s1 s2 : State) : Prop :=
  py_random s1 = py_random s2 /\ np_random s1 = np_random s2 /\
  heap s1 = heap s2 /\ prompt s1 = prompt s2 /\ requests s1 = requests s2 /\
  routing (page s1) = routing (page s2).

(** [blind env create' R m1 m2]: run from similar states, [m1] with the
    endpoint of [env] and [m2] with the endpoint [create'], both end the same
    way in similar states, with results related by [R]. *)
Definition blind (env : Env)
    (create' : nat -> string -> list (string * string) -> Reply)
    {A} (R : A -> A -> Prop) (m1 m2 : Script A) : Prop :=
  forall s1 s2,
    similar s1 s2 ->
    match m1 env s1, m2 (with_endpoint env create') s2 with
    | Ok a1 s1', Ok a2 s2' => R a1 a2 /\ similar s1' s2'
    | Raised e1 s1', Raised e2 s2' => e1 = e2 /\ similar s1' s2'
    | _, _ => False
    end.

(** What two environments share when only the endpoint differs. *)
Definition same_inputs (e1 e2 : Env) : Prop :=
  today e1 = today e2 /\ technician_notes e1 = technician_notes e2 /\
  generate_summary_clicked e1 = generate_summary_clicked e2.

(** The panels before the work-order panel. *)
Definition panels_before_work_order : list (nat -> Script unit) :=
  [ fun _ => tab0; tab1; tab2; tab3; tab4; fun _ => tab5; tab6; tab7 ].

(** The rows that the work-order panel considers. *)
Definition critical_rows (assets_df : nat) (s : State) : Frame :=
  List.filter (fun r => RUL r <=? 3) (frame_at assets_df (heap s)).

(** ** Concrete runs *)

(** A stream of draws, an endpoint that answers and one that is down. *)
Definition sample_draws (n : nat) : N :=
  (((N.of_nat n + 17) * (N.of_nat n + 3) * 6364136223846793005
    + 1442695040888963407) mod 2 ^ 64 / 2048)%N.

Definition constant_draws (k : N) (n : nat) : N := k.

Definition answering : Env :=
  mkEnv 20000 "gpt-4o"
        (fun _ _ _ => Response [Some " Inspect the seals and plan a replacement. "])
        None false.

Definition endpoint_down : Env :=
  mkEnv 20000 "gpt-4o"
        (fun _ _ _ => Raises (Py.mkExn "APIConnectionError" "Connection error."))
        None false.

(** The script from its first line to the end of the lifespan panel. *)
Definition through_lifespan : Script unit :=
  (env <- ask ;;
   assets <- rand (generate_assets (today env)) ;;
   assets_df <- alloc (DataFrame assets) ;;
   show Page (st_title "🏭 Asset Integrity GenAI Assistant") ;;;
   tab0 ;;;
   tab1 assets_df ;;;
   tab2 assets_df)%script.

Definition after_lifespan : State :=
  final (through_lifespan answering (startup sample_draws sample_draws)).

(** The prompt that the lifespan panel builds in that run. *)
Definition lifespan_prompt_A0095 : string :=
  "Asset ID: A0095
Type: Motor
Age: 5 years
Degradation: 49.91%
Vibration: 1.57
Temperature: 96.3 deg C
Corrosion Level: 0.86
RUL: 4 months
Explain why this asset's RUL is low and suggest next steps.".

(** ** Notions for the random sources *)

(** The source after [n] more calls. *)
Definition advance (n : nat) (g : Random.Rng) : Random.Rng :=
  Random.mkRng (Random.raw g) (Random.used g + n).

(** Two sources that answer the next [n] calls alike. *)
Definition same_window (n : nat) (g1 g2 : Random.Rng) : Prop :=
  forall i, (i < n)%nat ->
    Random.raw g1 (Random.used g1 + i)%nat = Random.raw g2 (Random.used g2 + i)%nat.

(** [calls n m]: [m] calls the sampling routines exactly [n] times, and its
    result depends on nothing but what these calls are answered. *)
Definition calls (n : nat) {A} (m : Random.Rand A) : Prop :=
  forall g,
    snd (m g) = advance n g /\
    forall g', same_window n g g' -> fst (m g) = fst (m g').

(** The values that the generator can give to a field that is not numeric. *)
Definition zones : list string := ["Zone A"; "Zone B"; "Zone C"; "Zone D"].
Definition statuses : list string := ["Operational"; "Under Maintenance"; "Standby"].

Definition within_declared_values (today : Z) (a : Asset) : Prop :=
  In (Location a) zones /\ In (Status a) statuses /\
  today - 900 <= Last_Maintenance a <= today - 30 /\
  In (Type_ a) (map fst declared_cost_ranges).

(** Ranked from the largest key down. *)
Definition descending (key : Row -> Q) (f : Frame) : Prop :=
  StronglySorted (fun a b => (key b <= key a)%Q) f.

(** The script from its first line to the end of the asset register panel. *)
Definition main_up_to_register : Script unit :=
  (env <- ask ;;
   assets <- rand (generate_assets (today env)) ;;
   assets_df <- alloc (DataFrame assets) ;;
   show Page (st_title "🏭 Asset Integrity GenAI Assistant") ;;;
   tab0 ;;;
   tab1 assets_df)%script.

Definition after_register : State :=
  final (main_up_to_register answering (startup sample_draws sample_draws)).

(** The answering endpoint, with a note typed and the button clicked. *)
Definition typed_and_clicked (note : string) : Env :=
  mkEnv 20000 "gpt-4o"
        (fun _ _ _ => Response [Some " Inspect the seals and plan a replacement. "])
        (Some note) true.

(** A cost within the range that the catalog declares for the type. *)
Definition in_declared_range (eq_type : string) (cost : Z) : Prop :=
  exists lo hi, In (eq_type, (lo, hi)) declared_cost_ranges /\ lo <= cost <= hi.

Definition known_type (r : Row) : Prop :=
  In (Type_ (asset r)) (map fst declared_cost_ranges).

(** The frame that the cost forecast builds: the due rows, each with its cost
    and the day by which to replace it. *)
Definition forecast_frame (today : Z) (low : Frame) (costs : list Z) : Frame :=
  zip_with (fun r c => mkRow (asset r) (Some c) (Some (today + RUL r * 30)))
           low costs.

(** What [genai_advisory] returns for a prompt sent as the [n]-th request. *)
Definition reply_text (env : Env) (n : nat) (prompt : string) : string :=
  match first_content_stripped
          (create env n (DEPLOYMENT_NAME env) (advisory_request prompt)) with
  | inr text => text
  | inl e => "⚠️ GenAI Error: " +:+ Py.exn_str e
  end.

(** An endpoint on which every call raises [e]. *)
Definition always_raises (env : Env) (e : Py.Exn) : Prop :=
  forall n model messages, create env n model messages = Raises e.

(** Two states that differ at most in what the page shows. *)
Definition agree (s1 s2 : State) : Prop :=
  py_random s1 = py_random s2 /\ np_random s1 = np_random s2 /\
  heap s1 = heap s2 /\ prompt s1 = prompt s2 /\ requests s1 = requests s2.

(** Two outcomes of the same kind, with the same exception if any, in states
    that agree. *)
Definition same_outcome {A} (R : A -> A -> Prop) (o1 o2 : Outcome A) : Prop :=
  match o1, o2 with
  | Ok a1 s1, Ok a2 s2 => R a1 a2 /\ agree s1 s2
  | Raised e1 s1, Raised e2 s2 => e1 = e2 /\ agree s1 s2
  | _, _ => False
  end.

(** [aloof env create' R m1 m2]: run from states that agree, [m1] with the
    endpoint of [env] and [m2] with the endpoint [create'], the two scripts
    have the same outcome. *)
Definition aloof (env : Env)
    (create' : nat -> string -> list (string * string) -> Reply)
    {A} (R : A -> A -> Prop) (m1 m2 : Script A) : Prop :=
  forall s1 s2,
    agree s1 s2 ->
    same_outcome R (m1 env s1) (m2 (with_endpoint env create') s2).

(** * The variant [asset_integrity_genai_app_FINAL_TAB_ALIGNED.py]

    The second script of the repository follows the first one line for line,
    except that its client is [OpenAI] and every request names the model
    itself; that the overview text is another; that the lifespan prompt has
    an empty line after each field; and that nothing follows the cost
    forecast: two more tab labels are declared, but no code fills them.
    [generate_assets], [color_row], [highlight_lifespan],
    [get_equipment_cost] and the one-line prompts of the compliance panel and
    of the cost forecast are the same text in both scripts, and are shared. *)

Module Aligned.

Local Open Scope script_scope.

Definition genai_advisory (prompt : string) : Script string :=
  fun env s =>
    let s' := sent prompt s in
    match first_content_stripped
            (create env (List.length (requests s)) "gpt-3.5-turbo"
               [ ("system", "You are an asset integrity advisor.");
                 ("user", prompt) ]) with
    | inr text => Ok text s'
    | inl e => Ok ("⚠️ GenAI Error: " +:+ Py.exn_str e) s'
    end.

Section AlignedPanels.

Variable assets_df : nat.

Definition tab0 : Script unit :=
  show (Tab 0) (st_markdown "

    ### About This Assistant

    Simulates Asset Integrity Monitoring using AI.

    **Simulated Modules**:

    - Asset registry

    - RUL prediction

    - Corrosion modeling

    - Failure prediction

    - Regulatory foresight

    - Replacement cost advisory

    **Production Ready With**:

    - Real sensor APIs

    - CMMS integrations

    - OCR for field reports

    ").

Definition tab1 : Script unit :=
  show (Tab 1) (st_subheader "🧱 Full Asset Register") ;;;
  show (Tab 1) (st_markdown "**🟩 Green = Safe | 🟨 Yellow = Nearing Replacement | 🟥 Red = Immediate Replacement Required**") ;;;
  df <- rows assets_df ;;
  show (Tab 1) (st_dataframe (map series df) (map color_row df)).

Definition lifespan_prompt (sample : Asset) : string :=
  "Asset ID: " +:+ Asset_ID sample +:+ "

Type: " +:+ Type_ sample +:+ "

Age: " +:+ Py.str_int (Age_years sample) +:+ " years

Degradation: " +:+ Py.repr_float (Degradation_pct sample) +:+ "%

Vibration: " +:+ Py.repr_float (Vibration sample) +:+ "

Temperature: " +:+ Py.repr_float (Temperature sample) +:+ " deg C

Corrosion Level: " +:+ Py.repr_float (Corrosion_Level sample) +:+ "

RUL: " +:+ Py.str_int (RUL_months sample) +:+ " months

Explain why this asset's RUL is low and suggest next steps.".

Definition tab2 : Script unit :=
  show (Tab 2) (st_subheader "🔮 Lifespan & Risk Estimator") ;;;
  low_rul_df <- mask assets_df (fun r => RUL r <=? 6) ;;
  show (Tab 2) (st_markdown "**🟥 Red = Immediate Replacement | 🟨 Yellow = Nearing End of Life**") ;;;
  low <- rows low_rul_df ;;
  show (Tab 2) (st_dataframe (map series low) (map highlight_lifespan low)) ;;;
  match low with
  | [] => pure tt
  | _ =>
      sample <- sample1 low_rul_df ;;
      assign_prompt (lifespan_prompt (asset sample)) ;;;
      p <- read_prompt ;;
      advisory <- genai_advisory p ;;
      show (Tab 2) (st_markdown ("**GenAI Insight for " +:+ Asset_ID (asset sample) +:+ "**")) ;;;
      show (Tab 2) (st_info advisory)
  end.

Definition tab3 : Script unit :=
  show (Tab 3) (st_subheader "🧪 Corrosion Trend Simulator") ;;;
  corroding <- top assets_df (fun r => Corrosion_Level (asset r)) 5 ;;
  top5 <- rows corroding ;;
  show (Tab 3) (st_pyplot "Top Corroding Assets" "Asset ID" "Corrosion Level"
                  (map (fun r => (Asset_ID (asset r), Corrosion_Level (asset r))) top5)) ;;;
  for_each top5 (fun row =>
    show (Tab 3) (st_markdown ("**Corrosion Summary for " +:+ Asset_ID (asset row) +:+ "**")) ;;;
    p <- read_prompt ;;
    advisory <- genai_advisory p ;;
    show (Tab 3) (st_warning advisory)).

Definition tab4 : Script unit :=
  risky <- top assets_df (fun r => Degradation_pct (asset r)) 5 ;;
  top5 <- rows risky ;;
  for_each top5 (fun row =>
    show (Tab 4) (st_markdown ("**Failure Mode Prediction for " +:+ Asset_ID (asset row) +:+ "**")) ;;;
    p <- read_prompt ;;
    advisory <- genai_advisory p ;;
    show (Tab 4) (st_error advisory)).

Definition tab5 : Script unit :=
  env <- ask ;;
  let default_note := "Pump A003 vibrating heavily and overheating. Corrosion visible." in
  show (Tab 5) (st_text_area "Paste technician notes" default_note) ;;;
  let note := default default_note (technician_notes env) in
  show (Tab 5) (st_button "Generate Summary") ;;;
  if generate_summary_clicked env then
    assign_prompt ("Summarize this field report into risk advisory:
" +:+ note) ;;;
    p <- read_prompt ;;
    advisory <- genai_advisory p ;;
    show (Tab 5) (st_success advisory)
  else pure tt.

Definition tab6 : Script unit :=
  show (Tab 6) (st_subheader "📜 Regulatory Compliance Forecast") ;;;
  sample <- sample1 assets_df ;;
  assign_prompt (compliance_prompt (asset sample)) ;;;
  p <- read_prompt ;;
  advisory <- genai_advisory p ;;
  show (Tab 6) (st_info advisory).

Definition tab7 : Script unit :=
  env <- ask ;;
  low_rul <- mask assets_df (fun r => RUL r <=? 6) ;;
  low <- rows low_rul ;;
  match low with
  | [] => show (Tab 7) (st_info "No assets nearing end of life.")
  | _ =>
      costs <- rand (apply get_equipment_cost (map (fun r => Type_ (asset r)) low)) ;;
      store low_rul (set_replacement_cost low costs) ;;;
      low <- rows low_rul ;;
      store low_rul (set_replace_by (today env) low) ;;;
      low <- rows low_rul ;;
      table <- project ["Asset ID"; "Type"; "Location"; "RUL (months)";
                        "Replacement Cost ($)"; "Replace By"] low ;;
      show (Tab 7) (st_dataframe table []) ;;;
      match int_column "Replacement Cost ($)" low with
      | inl c => raise (Py.mkExn "KeyError" c)
      | inr column =>
          let total := sum column in
          assign_prompt (cost_prompt total) ;;;
          p <- read_prompt ;;
          advisory <- genai_advisory p ;;
          show (Tab 7) (st_success advisory)
      end
  end.

End AlignedPanels.

(** The script ends with the cost forecast. *)
Definition main : Script unit :=
  env <- ask ;;
  assets <- rand (generate_assets (today env)) ;;
  assets_df <- alloc (DataFrame assets) ;;
  show Page (st_title "🏭 Asset Integrity GenAI Assistant") ;;;
  tab0 ;;;
  tab1 assets_df ;;;
  tab2 assets_df ;;;
  tab3 assets_df ;;;
  tab4 assets_df ;;;
  tab5 ;;;
  tab6 assets_df ;;;
  tab7 assets_df.

End Aligned.

(** The same environment with another deployment name. *)
Definition with_model (env : Env) (model : string) : Env :=
  mkEnv (today env) model (create env) (technician_notes env)
        (generate_summary_clicked env).

(** [ported m1 m2]: in every environment and state, [m1] runs as [m2] does
    when the deployment is named gpt-3.5-turbo. *)
Definition ported {A} (m1 m2 : Script A) : Prop :=
  forall env s, m1 env s = m2 (with_model env "gpt-3.5-turbo") s.

(** * Properties *)

(** ** Rounding *)

Module PyFacts.

Lemma round_half_even_bounds (x : Q) (lo hi : Z) :
  (inject_Z lo <= x)%Q -> (x <= inject_Z hi)%Q ->
  lo <= Py.round_half_even x <= hi.
Proof.
  destruct x as [n d]. unfold Qle, inject_Z, Py.round_half_even. simpl.
  intros Hlo Hhi.
  pose proof (Z.div_mod n (Z.pos d) ltac:(lia)) as Hdm.
  pose proof (Z.mod_pos_bound n (Z.pos d) ltac:(lia)) as Hr.
  assert (Hf : lo <= n / Z.pos d) by (apply Z.div_le_lower_bound; lia).
  assert (Hc : n / Z.pos d <= hi) by (apply Z.div_le_upper_bound; lia).
  assert (Hup : 0 < n mod Z.pos d -> n / Z.pos d + 1 <= hi) by nia.
  destruct (Z.compare_spec (2 * (n mod Z.pos d)) (Z.pos d)).
  - destruct (Z.even (n / Z.pos d)); lia.
  - lia.
  - lia.
Qed.

Lemma round_unfold (x : Q) (ndigits : nat) :
  Py.round x ndigits =
  Qmake (Py.round_half_even (x * Qmake (Z.pos (scale ndigits)) 1)) (scale ndigits).
Proof. unfold Py.round, scale. destruct ndigits; reflexivity. Qed.

(** Rounding to [ndigits] decimals keeps a value between two bounds that
    themselves have at most [ndigits] decimals. *)
Lemma round_bounds (x : Q) (ndigits : nat) (lo hi : Z) :
  (Qmake lo (scale ndigits) <= x)%Q -> (x <= Qmake hi (scale ndigits))%Q ->
  (Qmake lo (scale ndigits) <= Py.round x ndigits)%Q /\
  (Py.round x ndigits <= Qmake hi (scale ndigits))%Q.
Proof.
  intros Hlo Hhi. rewrite round_unfold.
  set (p := scale ndigits) in *.
  assert (H : lo <= Py.round_half_even (x * Qmake (Z.pos p) 1) <= hi).
  { apply round_half_even_bounds.
    - destruct x as [n d]. unfold Qle, inject_Z, Qmult in *. simpl in *. nia.
    - destruct x as [n d]. unfold Qle, inject_Z, Qmult in *. simpl in *. nia. }
  unfold Qle. simpl. nia.
Qed.

Lemma contains_prefix (sub s : string) :
  String.prefix sub s = true -> Py.contains sub s = true.
Proof. intros H. destruct s; simpl in *; rewrite H; reflexivity. Qed.

Lemma prefix_app (a b : string) : String.prefix a (a +:+ b) = true.
Proof.
  induction a as [|c a IH]; simpl.
  - destruct b; reflexivity.
  - destruct (ascii_dec c c) as [_|Hne]; [exact IH | destruct Hne; reflexivity].
Qed.

Lemma append_empty_r (s : string) : s +:+ "" = s.
Proof.
  induction s as [|c s IH]; [reflexivity|].
  change (String c (s +:+ "") = String c s). rewrite IH. reflexivity.
Qed.

Lemma contains_app_r (sub pre : string) : Py.contains sub (pre +:+ sub) = true.
Proof.
  induction pre as [|c pre IH].
  - apply contains_prefix. change ("" +:+ sub) with sub.
    pose proof (prefix_app sub "") as H. rewrite append_empty_r in H. exact H.
  - change (String c pre +:+ sub) with (String c (pre +:+ sub)).
    simpl. rewrite IH. apply orb_true_r.
Qed.

End PyFacts.

(** ** The random source *)

Module RandomFacts.

Import Random.

Lemma bind_run {A B} (m : Rand A) (k : A -> Rand B) (g : Rng) :
  bind m k g = k (fst (m g)) (snd (m g)).
Proof. unfold bind. destruct (m g). reflexivity. Qed.

Lemma post_ret {A} (a : A) (P : A -> Prop) : P a -> post (ret a) P.
Proof. intros H g. exact H. Qed.

Lemma post_bind {A B} (m : Rand A) (k : A -> Rand B) (P : A -> Prop) (Q : B -> Prop) :
  post m P -> (forall a, P a -> post (k a) Q) -> post (bind m k) Q.
Proof.
  intros Hm Hk g. unfold bind. specialize (Hm g).
  destruct (m g) as [a g']. apply Hk. exact Hm.
Qed.

Lemma post_ret_any {A} (m : Rand A) : post m (fun _ => True).
Proof. intros g. exact I. Qed.

Lemma post_weaken {A} (m : Rand A) (P Q : A -> Prop) :
  post m P -> (forall a, P a -> Q a) -> post m Q.
Proof. intros H HPQ g. apply HPQ, H. Qed.

Lemma post_randbelow (n : Z) : 0 < n -> post (randbelow n) (fun k => 0 <= k < n).
Proof. intros Hn g. simpl. apply Z.mod_pos_bound. exact Hn. Qed.

Lemma post_randint (a b : Z) : a <= b -> post (randint a b) (fun k => a <= k <= b).
Proof.
  intros Hab g. simpl.
  pose proof (Z.mod_pos_bound (Z.of_N (raw g (used g))) (b - a + 1) ltac:(lia)).
  lia.
Qed.

Lemma post_random : post random (fun u => (0 <= u)%Q /\ (u <= 1)%Q).
Proof.
  intros g. simpl.
  pose proof (Z.mod_pos_bound (Z.of_N (raw g (used g))) (2 ^ 53) ltac:(lia)) as H.
  unfold Qle. simpl. change (Z.pos (2 ^ 53)) with (2 ^ 53). lia.
Qed.

Lemma post_uniform (a b : Q) :
  (a <= b)%Q -> post (uniform a b) (fun x => (a <= x)%Q /\ (x <= b)%Q).
Proof.
  intros Hab. unfold uniform.
  eapply post_bind; [apply post_random|].
  intros u [H0 H1]. apply post_ret.
  assert (Hd : (0 <= b - a)%Q) by (unfold Qminus; apply (proj1 (Qle_minus_iff a b)); exact Hab).
  split.
  - rewrite <- (Qplus_0_r a) at 1. apply Qplus_le_r.
    apply Qmult_le_0_compat; assumption.
  - apply Qle_trans with (a + (b - a) * 1)%Q.
    + apply Qplus_le_r.
      rewrite (Qmult_comm (b - a) u), (Qmult_comm (b - a) 1).
      apply Qmult_le_compat_r; assumption.
    + assert (E : (a + (b - a) * 1 == b)%Q) by ring.
      rewrite E. apply Qle_refl.
Qed.

End RandomFacts.

(** ** The generator *)

Section GeneratorFacts.

Import Random RandomFacts.
Variable today : Z.

Lemma new_asset_id (eq_type : string) (id_counter : Z) (g : Rng) :
  Asset_ID (fst (new_asset today eq_type id_counter g)) =
  "A" +:+ Py.format_04d id_counter.
Proof. unfold new_asset. rewrite !bind_run. reflexivity. Qed.

Lemma new_asset_type (eq_type : string) (id_counter : Z) (g : Rng) :
  Type_ (fst (new_asset today eq_type id_counter g)) = eq_type.
Proof. unfold new_asset. rewrite !bind_run. reflexivity. Qed.

(** What the loops establish about the identifiers and types, whatever
    the draws. *)
Lemma append_assets_shape (eq_type : string) (count : nat) :
  forall assets id_counter g,
    let st := fst (append_assets today eq_type count assets id_counter g) in
    map Asset_ID (fst st) =
      map Asset_ID assets ++
      map (fun k => "A" +:+ Py.format_04d k) (seqZ id_counter (Z.of_nat count)) /\
    map Type_ (fst st) = map Type_ assets ++ repeat eq_type count /\
    snd st = id_counter + Z.of_nat count.
Proof.
  induction count as [|count IH]; intros assets id_counter g.
  - simpl. rewrite !app_nil_r. repeat split; lia.
  - cbn [append_assets]. rewrite bind_run.
    pose proof (new_asset_id eq_type id_counter g) as Hid.
    pose proof (new_asset_type eq_type id_counter g) as Hty.
    destruct (new_asset today eq_type id_counter g) as [a g'].
    simpl fst in *. simpl snd in *.
    specialize (IH (assets ++ [a]) (id_counter + 1) g').
    cbv zeta in IH |- *. destruct IH as (IH1 & IH2 & IH3).
    rewrite IH1, IH2, IH3, !map_app. cbn [map].
    rewrite Hid, Hty, <- !app_assoc. cbn [app repeat].
    rewrite (seqZ_cons id_counter (Z.of_nat (S count))) by lia.
    replace (Z.pred (Z.of_nat (S count))) with (Z.of_nat count) by lia.
    split; [reflexivity|]. split; [reflexivity|]. lia.
Qed.

Lemma each_type_shape (types : list (string * nat)) :
  forall assets id_counter g,
    let st := fst (each_type today types assets id_counter g) in
    let produced := flat_map (fun tc => repeat (fst tc) (snd tc)) types in
    map Asset_ID (fst st) =
      map Asset_ID assets ++
      map (fun k => "A" +:+ Py.format_04d k)
          (seqZ id_counter (Z.of_nat (List.length produced))) /\
    map Type_ (fst st) = map Type_ assets ++ produced.
Proof.
  induction types as [|[eq_type count] types IH]; intros assets id_counter g.
  - simpl. rewrite !app_nil_r. split; reflexivity.
  - cbn [each_type]. rewrite bind_run.
    pose proof (append_assets_shape eq_type count assets id_counter g) as Hin.
    destruct (append_assets today eq_type count assets id_counter g) as [[assets' id'] g'].
    cbv zeta in Hin. simpl fst in *. simpl snd in *.
    destruct Hin as (Hin1 & Hin2 & Hin3).
    specialize (IH assets' id' g'). cbv zeta in IH |- *.
    destruct IH as (IH1 & IH2).
    rewrite IH1, IH2, Hin1, Hin2, Hin3. cbn [flat_map fst snd].
    rewrite length_app, repeat_length, Nat2Z.inj_add, seqZ_app by lia.
    rewrite map_app, <- !app_assoc.
    split; reflexivity.
Qed.

Lemma total_count :
  Z.of_nat (List.length (flat_map (fun tc : string * nat => repeat (fst tc) (snd tc))
                                  equipment_types)) = 140.
Proof. reflexivity. Qed.

Lemma generate_assets_run (g : Rng) :
  fst (generate_assets today g) = fst (fst (each_type today equipment_types [] 1 g)).
Proof.
  unfold generate_assets, bind.
  destruct (each_type today equipment_types [] 1 g) as [st g']. reflexivity.
Qed.

Lemma generate_assets_shape (g : Rng) :
  map Asset_ID (fst (generate_assets today g)) =
    map (fun k => "A" +:+ Py.format_04d k) (seqZ 1 140) /\
  map Type_ (fst (generate_assets today g)) =
    flat_map (fun tc => repeat (fst tc) (snd tc)) equipment_types.
Proof.
  rewrite generate_assets_run.
  destruct (each_type_shape equipment_types [] 1 g) as [H1 H2].
  rewrite total_count in H1. split; [exact H1 | exact H2].
Qed.

Lemma generate_assets_length (g : Rng) :
  List.length (fst (generate_assets today g)) = 140%nat.
Proof.
  destruct (generate_assets_shape g) as [Hid _].
  rewrite <- (length_map Asset_ID), Hid, length_map, length_seqZ. reflexivity.
Qed.

End GeneratorFacts.

(** C2: [generate_assets] returns 140 records, in the fixed order of types
    with the fixed counts; the identifier of the i-th record is the letter A
    followed by i written with four digits, so the identifiers are pairwise
    distinct and strictly increasing without gaps, whatever the random source
    yields. *)
Theorem generate_assets_count_order_ids (today : Z) (g : Random.Rng) :
  let assets := fst (generate_assets today g) in
  List.length assets = 140%nat /\
  map Type_ assets =
    repeat "Pump" 30 ++ repeat "Compressor" 10 ++ repeat "Turbine" 5 ++
    repeat "Heat Exchanger" 10 ++ repeat "Tank" 10 ++ repeat "Vessel" 5 ++
    repeat "Pipeline" 15 ++ repeat "Motor" 10 ++ repeat "Control Panel" 5 ++
    repeat "Sensor" 40 /\
  map Asset_ID assets = map asset_id (seq 1 140) /\
  (forall i a, assets !! i = Some a -> Asset_ID a = asset_id (S i)) /\
  NoDup (map Asset_ID assets) /\
  StronglySorted str_lt (map Asset_ID assets).
Proof.
  cbv zeta.
  destruct (generate_assets_shape today g) as [Hid Hty].
  generalize dependent (fst (generate_assets today g)). intros assets Hid Hty.
  assert (Hids : map Asset_ID assets = map asset_id (seq 1 140)).
  { rewrite Hid. vm_compute. reflexivity. }
  assert (Hlen : List.length assets = 140%nat).
  { rewrite <- (length_map Asset_ID), Hids, length_map, length_seq. reflexivity. }
  split; [exact Hlen|].
  split; [rewrite Hty; vm_compute; reflexivity|].
  split; [exact Hids|].
  split.
  { intros i a Hi.
    assert (Hm : map Asset_ID assets !! i = Some (Asset_ID a))
      by (rewrite list_lookup_fmap, Hi; reflexivity).
    rewrite Hids, list_lookup_fmap in Hm.
    destruct (seq 1 140 !! i) as [k|] eqn:Hk; [|discriminate].
    apply lookup_seq in Hk as [-> _].
    cbv [fmap option_fmap option_map] in Hm. injection Hm as <-. reflexivity. }
  rewrite Hids. split.
  - apply (bool_decide_unpack _). vm_compute. exact I.
  - apply (bool_decide_unpack _). vm_compute. exact I.
Qed.

Section GeneratorBounds.

Import Random RandomFacts.
Variable today : Z.

(** A draw of [uniform(a, b)], rounded, stays between bounds that have no
    more decimals than the rounding keeps. *)
Lemma post_round_uniform (a b : Q) (ndigits : nat) (lo hi : Z) :
  (a <= b)%Q ->
  (a == Qmake lo (scale ndigits))%Q -> (b == Qmake hi (scale ndigits))%Q ->
  post (uniform a b)
       (fun x => (a <= Py.round x ndigits)%Q /\ (Py.round x ndigits <= b)%Q /\
                 decimals ndigits (Py.round x ndigits)).
Proof.
  intros Hab Ha Hb.
  eapply post_weaken; [apply post_uniform; exact Hab|].
  intros x [Hlo Hhi]. cbv beta.
  destruct (PyFacts.round_bounds x ndigits lo hi) as [H1 H2].
  - rewrite <- Ha. exact Hlo.
  - rewrite <- Hb. exact Hhi.
  - split; [|split].
    + apply Qle_trans with (Qmake lo (scale ndigits)); [|exact H1].
      rewrite Ha. apply Qle_refl.
    + apply Qle_trans with (Qmake hi (scale ndigits)); [exact H2|].
      rewrite Hb. apply Qle_refl.
    + exists (Py.round_half_even (x * Qmake (Z.pos (scale ndigits)) 1)).
      apply PyFacts.round_unfold.
Qed.

Lemma post_new_asset (eq_type : string) (id_counter : Z) :
  post (new_asset today eq_type id_counter) within_declared_bounds.
Proof.
  unfold new_asset.
  eapply post_bind; [apply (post_ret_any (choice "A" ["B"; "C"; "D"]))|].
  intros zone _.
  eapply post_bind; [apply (post_randint 1 20); lia|]. intros age Hage.
  eapply post_bind; [apply (post_ret_any (randint 30 900))|]. intros days _.
  eapply post_bind;
    [apply (post_round_uniform 10 90 2 1000 9000); by vm_compute|].
  intros degradation Hdeg.
  eapply post_bind;
    [apply (post_ret_any (choice "Operational" ["Under Maintenance"; "Standby"]))|].
  intros status _.
  eapply post_bind;
    [apply (post_round_uniform 0.1 5.0 2 10 500); by vm_compute|].
  intros vibration Hvib.
  eapply post_bind;
    [apply (post_round_uniform 30 120 1 300 1200); by vm_compute|].
  intros temperature Htemp.
  eapply post_bind;
    [apply (post_round_uniform 0 1.0 2 0 100); by vm_compute|].
  intros corrosion Hcor.
  eapply post_bind; [apply (post_randint 1 36); lia|]. intros rul Hrul.
  apply post_ret. unfold within_declared_bounds. cbn [Age_years Degradation_pct
    Vibration Temperature Corrosion_Level RUL_months].
  cbv beta in *. tauto.
Qed.

Lemma append_assets_bounds (eq_type : string) (count : nat) :
  forall assets id_counter,
    Forall within_declared_bounds assets ->
    post (append_assets today eq_type count assets id_counter)
         (fun st => Forall within_declared_bounds (fst st)).
Proof.
  induction count as [|count IH]; intros assets id_counter Hall.
  - apply post_ret. exact Hall.
  - cbn [append_assets].
    eapply post_bind; [apply post_new_asset|].
    intros a Ha. apply IH. apply Forall_app. split; [exact Hall|].
    constructor; [exact Ha | constructor].
Qed.

Lemma each_type_bounds (types : list (string * nat)) :
  forall assets id_counter,
    Forall within_declared_bounds assets ->
    post (each_type today types assets id_counter)
         (fun st => Forall within_declared_bounds (fst st)).
Proof.
  induction types as [|[eq_type count] types IH]; intros assets id_counter Hall.
  - apply post_ret. exact Hall.
  - cbn [each_type].
    eapply post_bind; [apply append_assets_bounds; exact Hall|].
    intros st Hst. apply IH. exact Hst.
Qed.

End GeneratorBounds.

(** C6: every record that [generate_assets] produces has its numeric fields
    within the declared bounds, with the declared number of decimals, whatever
    the random source yields. *)
Theorem generated_fields_within_bounds (today : Z) (g : Random.Rng) :
  Forall within_declared_bounds (fst (generate_assets today g)).
Proof.
  revert g. change (post (generate_assets today) (Forall within_declared_bounds)).
  unfold generate_assets.
  eapply RandomFacts.post_bind; [apply each_type_bounds; constructor|].
  intros st Hst. apply RandomFacts.post_ret. exact Hst.
Qed.

(** ** The cost catalog *)

Section CostCatalog.

Import Random RandomFacts.

(** The ten draws of a call and the entry it returns. *)
Lemma get_equipment_cost_post (eq_type : string) :
  post (get_equipment_cost eq_type)
       (fun cost =>
          exists pump compressor turbine tank sensor pipeline motor
                 control_panel heat_exchanger vessel,
            (5000 <= pump <= 15000 /\ 20000 <= compressor <= 60000 /\
             40000 <= turbine <= 120000 /\ 15000 <= tank <= 40000 /\
             500 <= sensor <= 3000 /\ 10000 <= pipeline <= 30000 /\
             8000 <= motor <= 20000 /\ 5000 <= control_panel <= 15000 /\
             10000 <= heat_exchanger <= 25000 /\ 12000 <= vessel <= 35000) /\
            cost = default 10000
                     ((list_to_map
                         [ ("Pump", pump); ("Compressor", compressor);
                           ("Turbine", turbine); ("Tank", tank);
                           ("Sensor", sensor); ("Pipeline", pipeline);
                           ("Motor", motor); ("Control Panel", control_panel);
                           ("Heat Exchanger", heat_exchanger);
                           ("Vessel", vessel) ] : gmap string Z) !! eq_type)).
Proof.
  unfold get_equipment_cost.
  eapply post_bind; [apply (post_randint 5000 15000); lia|]. intros pump ?.
  eapply post_bind; [apply (post_randint 20000 60000); lia|]. intros compressor ?.
  eapply post_bind; [apply (post_randint 40000 120000); lia|]. intros turbine ?.
  eapply post_bind; [apply (post_randint 15000 40000); lia|]. intros tank ?.
  eapply post_bind; [apply (post_randint 500 3000); lia|]. intros sensor ?.
  eapply post_bind; [apply (post_randint 10000 30000); lia|]. intros pipeline ?.
  eapply post_bind; [apply (post_randint 8000 20000); lia|]. intros motor ?.
  eapply post_bind; [apply (post_randint 5000 15000); lia|]. intros control_panel ?.
  eapply post_bind; [apply (post_randint 10000 25000); lia|]. intros heat_exchanger ?.
  eapply post_bind; [apply (post_randint 12000 35000); lia|]. intros vessel ?.
  apply post_ret.
  exists pump, compressor, turbine, tank, sensor, pipeline, motor,
         control_panel, heat_exchanger, vessel.
  cbv beta in *. split; [tauto | reflexivity].
Qed.

End CostCatalog.

(** C5: for each of the ten known types the estimated cost lies in the range
    declared for the type, and for every other string it is exactly 10000,
    whatever the random source yields. *)
Theorem get_equipment_cost_in_range (g : Random.Rng) :
  Forall (fun entry =>
            fst (snd entry) <= fst (get_equipment_cost (fst entry) g)
                            <= snd (snd entry))
         declared_cost_ranges /\
  (forall eq_type : string,
      ~ In eq_type (map fst declared_cost_ranges) ->
      fst (get_equipment_cost eq_type g) = 10000).
Proof.
  split.
  - unfold declared_cost_ranges.
    repeat (apply Forall_cons; split; [|]); [..|constructor]; cbn [fst snd].
    all: match goal with
         | |- _ <= fst (get_equipment_cost ?t ?g') <= _ =>
             destruct (get_equipment_cost_post t g')
               as (pump & compressor & turbine & tank & sensor & pipeline & motor
                   & control_panel & heat_exchanger & vessel & Hr & ->)
         end.
    all: cbn [list_to_map foldr fst snd uncurry]; simplify_map_eq; lia.
  - intros eq_type Hnot.
    destruct (get_equipment_cost_post eq_type g)
      as (pump & compressor & turbine & tank & sensor & pipeline & motor
          & control_panel & heat_exchanger & vessel & _ & ->).
    rewrite (not_elem_of_list_to_map_1 (M := gmap string)); [reflexivity|].
    intros Hin. apply Hnot. apply list_elem_of_In in Hin. exact Hin.
Qed.


(** ** Risk classes *)

Lemma risk_spec_total (rul : Z) : exists c, risk_spec rul c.
Proof.
  destruct (Z_le_gt_dec rul 3); [exists critical; constructor; lia|].
  destruct (Z_le_gt_dec rul 6); [exists warning | exists safe]; constructor; lia.
Qed.

Lemma risk_spec_functional (rul : Z) (c c' : Risk) :
  risk_spec rul c -> risk_spec rul c' -> c = c'.
Proof. intros H H'. destruct H; destruct H'; try reflexivity; lia. Qed.

(** C1: the classification by remaining useful life is total and
    single-valued, with the boundaries at 3 and 6 inclusive; the asset register
    colours a row red, yellow or light green by its class, the lifespan table
    uses the same two thresholds (red, yellow, no colour), and the row filters
    of the panels cut at the same values; 3 is critical, 4 and 6 are warning,
    7 is safe. *)
Theorem risk_classification_thresholds (row : Row) :
  (exists c,
      risk_spec (RUL row) c /\
      (forall c', risk_spec (RUL row) c' -> c' = c) /\
      color_row row = repeat (register_style c) (len row) /\
      highlight_lifespan row = repeat (lifespan_style c) (len row) /\
      ((RUL row <=? 6) = true <-> c <> safe) /\
      ((RUL row <=? 3) = true <-> c = critical)) /\
  (RUL row = 3 -> color_row row = repeat "background-color: red" (len row)) /\
  (RUL row = 4 -> color_row row = repeat "background-color: yellow" (len row)) /\
  (RUL row = 6 -> color_row row = repeat "background-color: yellow" (len row)) /\
  (RUL row = 7 -> color_row row = repeat "background-color: lightgreen" (len row)).
Proof.
  split.
  - destruct (risk_spec_total (RUL row)) as [c Hc]. exists c.
    split; [exact Hc|].
    split; [intros c' Hc'; exact (risk_spec_functional _ _ _ Hc' Hc)|].
    unfold color_row, highlight_lifespan.
    destruct Hc as [H|H|H].
    + rewrite (proj2 (Z.leb_le _ 3)) by lia.
      rewrite (proj2 (Z.leb_le _ 6)) by lia.
      repeat split; auto; discriminate.
    + rewrite (proj2 (Z.leb_gt _ 3)) by lia.
      rewrite (proj2 (Z.leb_le _ 6)) by lia.
      repeat split; auto; discriminate.
    + rewrite (proj2 (Z.leb_gt _ 3)) by lia.
      rewrite (proj2 (Z.leb_gt _ 6)) by lia.
      repeat split; auto; try discriminate; congruence.
  - unfold color_row. repeat split; intros ->; reflexivity.
Qed.

(** ** The advisory client *)

(** Decoding and encoding agree: a string that is one character is the
    encoding of its code point. *)
Lemma ord_utf8 (ch : string) (c : N) : Py.ord ch = Some c -> ch = utf8 c.
Proof.
  unfold Py.ord, Py.continuation.
  destruct ch as [|a1 [|a2 [|a3 [|a4 [|a5 r]]]]]; cbn [map list_ascii_of_string];
    try discriminate.
  - destruct (N.ltb_spec (N_of_ascii a1) 128); [|discriminate].
    intros [= <-]. unfold utf8.
    rewrite (proj2 (N.ltb_lt _ _)) by assumption.
    rewrite ascii_N_embedding. reflexivity.
  - set (b1 := N_of_ascii a1). set (b2 := N_of_ascii a2).
    destruct (_ && _) eqn:E; [|discriminate]. intros [= <-].
    rewrite !andb_true_iff, !N.leb_le in E.
    unfold utf8.
    rewrite (proj2 (N.ltb_ge _ _)) by lia.
    rewrite (proj2 (N.ltb_lt _ _)) by lia.
    replace (192 + ((b1 - 192) * 64 + (b2 - 128)) / 64)%N with b1
      by (zify; Z.to_euclidean_division_equations; lia).
    replace (128 + ((b1 - 192) * 64 + (b2 - 128)) mod 64)%N with b2
      by (zify; Z.to_euclidean_division_equations; lia).
    subst b1 b2. rewrite !ascii_N_embedding. reflexivity.
  - set (b1 := N_of_ascii a1). set (b2 := N_of_ascii a2). set (b3 := N_of_ascii a3).
    cbv zeta.
    destruct (_ && _) eqn:E; [|discriminate]. intros [= <-].
    rewrite !andb_true_iff, !N.leb_le in E.
    destruct E as [[[[[? ?] [? ?]] [? ?]] ?] _].
    unfold utf8.
    rewrite (proj2 (N.ltb_ge _ 128)) by lia.
    rewrite (proj2 (N.ltb_ge _ 2048)) by lia.
    rewrite (proj2 (N.ltb_lt _ 65536)) by lia.
    replace (224 + ((b1 - 224) * 4096 + (b2 - 128) * 64 + (b3 - 128)) / 4096)%N with b1
      by (zify; Z.to_euclidean_division_equations; lia).
    replace (128 + (((b1 - 224) * 4096 + (b2 - 128) * 64 + (b3 - 128)) / 64) mod 64)%N
      with b2 by (zify; Z.to_euclidean_division_equations; lia).
    replace (128 + ((b1 - 224) * 4096 + (b2 - 128) * 64 + (b3 - 128)) mod 64)%N with b3
      by (zify; Z.to_euclidean_division_equations; lia).
    subst b1 b2 b3. rewrite !ascii_N_embedding. reflexivity.
  - set (b1 := N_of_ascii a1). set (b2 := N_of_ascii a2). set (b3 := N_of_ascii a3).
    set (b4 := N_of_ascii a4).
    cbv zeta.
    destruct (_ && _) eqn:E; [|discriminate]. intros [= <-].
    rewrite !andb_true_iff, !N.leb_le in E.
    destruct E as [[[[[[? ?] [? ?]] [? ?]] [? ?]] ?] ?].
    unfold utf8.
    rewrite (proj2 (N.ltb_ge _ 128)) by lia.
    rewrite (proj2 (N.ltb_ge _ 2048)) by lia.
    rewrite (proj2 (N.ltb_ge _ 65536)) by lia.
    set (c := ((b1 - 240) * 262144 + (b2 - 128) * 4096 + (b3 - 128) * 64 + (b4 - 128))%N).
    replace (240 + c / 262144)%N with b1
      by (subst c; zify; Z.to_euclidean_division_equations; lia).
    replace (128 + (c / 4096) mod 64)%N with b2
      by (subst c; zify; Z.to_euclidean_division_equations; lia).
    replace (128 + (c / 64) mod 64)%N with b3
      by (subst c; zify; Z.to_euclidean_division_equations; lia).
    replace (128 + c mod 64)%N with b4
      by (subst c; zify; Z.to_euclidean_division_equations; lia).
    subst b1 b2 b3 b4. rewrite !ascii_N_embedding. reflexivity.
Qed.

Lemma string_app_assoc (a b c : string) : (a +:+ b) +:+ c = a +:+ b +:+ c.
Proof.
  induction a as [|x a IH]; [reflexivity|].
  change (String x ((a +:+ b) +:+ c) = String x (a +:+ b +:+ c)).
  rewrite IH. reflexivity.
Qed.

Lemma isspace_listed (c : N) : Py.isspace c = true -> In c white_space.
Proof.
  unfold Py.isspace. rewrite !orb_true_iff, !andb_true_iff, !N.leb_le, !N.eqb_eq.
  intros H.
  assert (Hc : ((c = 9 \/ c = 10 \/ c = 11 \/ c = 12 \/ c = 13)
               \/ (c = 28 \/ c = 29 \/ c = 30 \/ c = 31 \/ c = 32)
               \/ (c = 133 \/ c = 160 \/ c = 5760)
               \/ (c = 8192 \/ c = 8193 \/ c = 8194 \/ c = 8195 \/ c = 8196 \/ c = 8197)
               \/ (c = 8198 \/ c = 8199 \/ c = 8200 \/ c = 8201 \/ c = 8202)
               \/ (c = 8232 \/ c = 8233 \/ c = 8239 \/ c = 8287 \/ c = 12288))%N).
  { decompose [and or] H; lia. }
  decompose [or] Hc; subst c; apply list_elem_of_In;
    apply (bool_decide_unpack _); vm_compute; exact I.
Qed.

Lemma listed_is_space (c : N) : In c white_space -> Py.is_space (utf8 c) = true.
Proof.
  unfold white_space. cbn [In]. intros H.
  decompose [or] H; try contradiction; subst c; vm_compute; reflexivity.
Qed.

Lemma is_space_listed (ch : string) :
  Py.is_space ch = true -> exists c, In c white_space /\ ch = utf8 c.
Proof.
  unfold Py.is_space. destruct (Py.ord ch) as [c|] eqn:E; [|discriminate].
  intros H. exists c. split; [apply isspace_listed; exact H | apply ord_utf8; exact E].
Qed.

Lemma blank_nil : blank "".
Proof. exists []. split; [constructor | reflexivity]. Qed.

Lemma blank_cons (ch l : string) : Py.is_space ch = true -> blank l -> blank (ch +:+ l).
Proof.
  intros Hch (cs & Hcs & ->). destruct (is_space_listed ch Hch) as (c & Hc & ->).
  exists (c :: cs). split; [constructor; assumption | reflexivity].
Qed.

Lemma utf8_listed_shape (c : N) :
  In c white_space ->
  exists b1, utf8 c = String b1 "" \/
    exists b2, utf8 c = String b1 (String b2 "") \/
      exists b3, utf8 c = String b1 (String b2 (String b3 "")).
Proof.
  unfold white_space. cbn [In]. intros H.
  decompose [or] H; try contradiction; subst c; vm_compute; eauto 6.
Qed.

(** No white space at the front of a string on which the three tests of
    [lstrip] fail. *)
Lemma lstrip_stops (b1 : ascii) (s1 : string) :
  Py.is_space (String b1 "") = false ->
  (forall b2 s2, s1 = String b2 s2 -> Py.is_space (String b1 (String b2 "")) = false) ->
  (forall b2 b3 s3, s1 = String b2 (String b3 s3) ->
                    Py.is_space (String b1 (String b2 (String b3 ""))) = false) ->
  ~ starts_with_space (String b1 s1).
Proof.
  intros H1 H2 H3 (c & rest & Hc & Hs).
  pose proof (listed_is_space c Hc) as Hsp.
  destruct (utf8_listed_shape c Hc) as (x1 & [E | (x2 & [E | (x3 & E)])]);
    rewrite E in Hs, Hsp.
  - injection Hs as -> _. congruence.
  - injection Hs as -> Hs. rewrite (H2 x2 rest Hs) in Hsp. discriminate.
  - injection Hs as -> Hs. rewrite (H3 x2 x3 rest Hs) in Hsp. discriminate.
Qed.

Lemma not_starts_nil : ~ starts_with_space "".
Proof.
  intros (c & rest & Hc & Hs).
  destruct (utf8_listed_shape c Hc) as (x1 & [E | (x2 & [E | (x3 & E)])]);
    rewrite E in Hs; discriminate.
Qed.

Lemma lstrip_spec_upto (n : nat) (s : string) :
  (String.length s <= n)%nat ->
  exists l, s = l +:+ Py.lstrip s /\ blank l /\ ~ starts_with_space (Py.lstrip s).
Proof.
  revert s. induction n as [|n IH]; intros s Hn.
  - destruct s; [|cbn in Hn; lia].
    exists "". split; [reflexivity|]. split; [apply blank_nil | apply not_starts_nil].
  - destruct s as [|b1 s1].
    { exists "". split; [reflexivity|]. split; [apply blank_nil | apply not_starts_nil]. }
    cbn [String.length] in Hn. cbn [Py.lstrip].
    destruct (Py.is_space (String b1 "")) eqn:E1.
    { destruct (IH s1 ltac:(lia)) as (l & Hs & Hl & Hst).
      exists (String b1 "" +:+ l). split; [|split; [apply blank_cons; assumption | exact Hst]].
      change (String b1 s1 = String b1 (l +:+ Py.lstrip s1)). rewrite <- Hs. reflexivity. }
    destruct s1 as [|b2 s2].
    { exists "". split; [reflexivity|]. split; [apply blank_nil|].
      apply lstrip_stops; [exact E1 | discriminate | discriminate]. }
    cbn [String.length] in Hn.
    destruct (Py.is_space (String b1 (String b2 ""))) eqn:E2.
    { destruct (IH s2 ltac:(lia)) as (l & Hs & Hl & Hst).
      exists (String b1 (String b2 "") +:+ l).
      split; [|split; [apply blank_cons; assumption | exact Hst]].
      change (String b1 (String b2 s2) = String b1 (String b2 (l +:+ Py.lstrip s2))).
      rewrite <- Hs. reflexivity. }
    destruct s2 as [|b3 s3].
    { exists "". split; [reflexivity|]. split; [apply blank_nil|].
      apply lstrip_stops; [exact E1 | | discriminate].
      intros ? ? [= <- <-]. exact E2. }
    cbn [String.length] in Hn.
    destruct (Py.is_space (String b1 (String b2 (String b3 "")))) eqn:E3.
    { destruct (IH s3 ltac:(lia)) as (l & Hs & Hl & Hst).
      exists (String b1 (String b2 (String b3 "")) +:+ l).
      split; [|split; [apply blank_cons; assumption | exact Hst]].
      change (String b1 (String b2 (String b3 s3))
              = String b1 (String b2 (String b3 (l +:+ Py.lstrip s3)))).
      rewrite <- Hs. reflexivity. }
    exists "". split; [reflexivity|]. split; [apply blank_nil|].
    apply lstrip_stops; [exact E1 | |].
    + intros ? ? [= <- _]. exact E2.
    + intros ? ? ? [= <- <- _]. exact E3.
Qed.

Lemma lstrip_spec (s : string) :
  exists l, s = l +:+ Py.lstrip s /\ blank l /\ ~ starts_with_space (Py.lstrip s).
Proof. apply (lstrip_spec_upto (String.length s)). lia. Qed.

Lemma not_ends_nil : ~ ends_with_space "".
Proof.
  intros (c & front & Hc & Hs).
  destruct (utf8_listed_shape c Hc) as (x1 & [E | (x2 & [E | (x3 & E)])]);
    rewrite E in Hs; destruct front; discriminate.
Qed.

Lemma rstrip_spec (s : string) :
  exists r, s = Py.rstrip s +:+ r /\ blank r /\ ~ ends_with_space (Py.rstrip s).
Proof.
  induction s as [|b s (r & Hs & Hr & Hend)].
  - exists "". split; [reflexivity|]. split; [apply blank_nil | apply not_ends_nil].
  - cbn [Py.rstrip]. cbv zeta.
    destruct (Py.is_space (String b (Py.rstrip s))) eqn:E.
    + exists (String b (Py.rstrip s) +:+ r).
      split; [|split; [apply blank_cons; assumption | apply not_ends_nil]].
      change (String b s = String b (Py.rstrip s +:+ r)). rewrite <- Hs. reflexivity.
    + exists r. split; [|split; [exact Hr|]].
      * change (String b s = String b (Py.rstrip s +:+ r)). rewrite <- Hs. reflexivity.
      * intros (c & front & Hc & Hf). destruct front as [|a front].
        -- change ("" +:+ utf8 c) with (utf8 c) in Hf. rewrite Hf in E.
           rewrite (listed_is_space c Hc) in E. discriminate.
        -- change (String a front +:+ utf8 c) with (String a (front +:+ utf8 c)) in Hf.
           injection Hf as _ Hf. apply Hend. exists c, front. split; assumption.
Qed.

Lemma strip_spec (s : string) : trimmed_from s (Py.strip s).
Proof.
  unfold Py.strip.
  destruct (lstrip_spec s) as (l & Hl & Hbl & Hst).
  destruct (rstrip_spec (Py.lstrip s)) as (r & Hr & Hbr & Hend).
  exists l, r. rewrite <- Hr.
  split; [exact Hl|]. split; [exact Hbl|]. split; [exact Hbr|]. split; [|exact Hend].
  intros (c & rest & Hc & Hs). apply Hst. exists c, (rest +:+ r).
  split; [exact Hc|]. rewrite Hr at 1. rewrite Hs. apply string_app_assoc.
Qed.

(** No-break spaces and an ideographic space around a text. *)
Lemma strip_unicode_white_space :
  Py.strip (utf8 160 +:+ " a b " +:+ utf8 12288 +:+ utf8 8239) = "a b".
Proof. vm_compute. reflexivity. Qed.

(** C4: [genai_advisory] never raises.  It sends one request; when the
    endpoint answers with a text, the result is that text without the white
    space around it, white space being what Unicode classes as such; when the
    call raises, the result is the warning marker
    followed by the message of the exception; an answer without a usable text
    also ends in a string that starts with the marker. *)
Theorem genai_advisory_never_raises (prompt : string) (env : Env) (s : State) :
  exists text,
    genai_advisory prompt env s = Ok text (sent prompt s) /\
    match create env (List.length (requests s)) (DEPLOYMENT_NAME env)
                 (advisory_request prompt) with
    | Response (Some content :: _) =>
        text = Py.strip content /\ trimmed_from content text
    | Response _ => String.prefix "⚠️ GenAI Error: " text = true
    | Raises e =>
        text = "⚠️ GenAI Error: " +:+ Py.exn_str e /\
        String.prefix "⚠️ GenAI Error: " text = true /\
        Py.contains (Py.exn_str e) text = true
    end.
Proof.
  unfold genai_advisory, advisory_request.
  destruct (create env (List.length (requests s)) (DEPLOYMENT_NAME env)
              [("system", "You are an asset integrity advisor."); ("user", prompt)])
    as [[|[content|] rest]|e]; cbn [first_content_stripped].
  - eexists. split; [reflexivity|]. apply PyFacts.prefix_app.
  - eexists. split; [reflexivity|]. split; [reflexivity | apply strip_spec].
  - eexists. split; [reflexivity|]. apply PyFacts.prefix_app.
  - eexists. split; [reflexivity|].
    split; [reflexivity|]. split; [apply PyFacts.prefix_app|].
    apply PyFacts.contains_app_r.
Qed.

(** ** Running the panels *)

Open Scope script_scope.

(** The loop of the corrosion and failure-mode panels: a header per row, then
    the advisory for the module-level [prompt]. *)
Lemma advisory_loop_bound (c : Container) (header : Row -> string)
    (widget : string -> Widget) (p : string) (top5 : list Row) :
  forall env s,
    prompt s = Some p ->
    exists s',
      for_each top5 (fun row =>
        show c (st_markdown (header row)) ;;;
        p <- read_prompt ;;
        advisory <- genai_advisory p ;;
        show c (widget advisory)) env s = Ok tt s' /\
      requests s' = requests s ++ repeat p (List.length top5) /\
      prompt s' = Some p /\ heap s' = heap s /\
      py_random s' = py_random s /\ np_random s' = np_random s.
Proof.
  induction top5 as [|row top5 IH]; intros env s Hp.
  - exists s. cbn. rewrite app_nil_r. repeat split; assumption.
  - cbn [for_each]. unfold and_then at 1 2. cbn [show].
    unfold and_then at 1, read_prompt at 1. cbn [prompt]. rewrite Hp.
    unfold and_then at 1, genai_advisory at 1.
    destruct (first_content_stripped _) as [e|text].
    all: cbn [show].
    all: match goal with
         | |- context [for_each _ ?b ?e0 ?s0] =>
             destruct (IH e0 s0 eq_refl) as (s' & Hrun & Hreq & Hp' & Hh & Hpy & Hnp)
         end.
    all: exists s'; rewrite Hrun, Hreq; cbn [requests sent heap py_random np_random prompt] in *.
    all: rewrite <- app_assoc; repeat split; assumption.
Qed.

(** The same loop when [prompt] is not bound: the first iteration shows its
    header and raises; no request goes out. *)
Lemma advisory_loop_unbound (c : Container) (header : Row -> string)
    (widget : string -> Widget) (row : Row) (rest : list Row) env s :
  prompt s = None ->
  exists s',
    for_each (row :: rest) (fun row =>
      show c (st_markdown (header row)) ;;;
      p <- read_prompt ;;
      advisory <- genai_advisory p ;;
      show c (widget advisory)) env s = Raised NameError_prompt s' /\
    requests s' = requests s /\ prompt s' = None /\ heap s' = heap s /\
    page s' = page s ++ [(c, st_markdown (header row))].
Proof.
  intros Hp. cbn [for_each]. unfold and_then at 1 2. cbn [show].
  unfold and_then at 1, read_prompt at 1. cbn [prompt]. rewrite Hp.
  eexists. split; [reflexivity|]. cbn. repeat split.
Qed.

Lemma and_then_run {A B} (m : Script A) (k : A -> Script B) env s a s' :
  m env s = Ok a s' -> and_then m k env s = k a env s'.
Proof. intros H. unfold and_then. rewrite H. reflexivity. Qed.

(** One step of a script whose first action runs by computation, or by a
    run equation. *)
Ltac fields :=
  cbn [heap py_random np_random prompt page requests sent final].

Ltac step :=
  match goal with
  | |- context [and_then ?m ?k ?env ?s] =>
      rewrite (and_then_run m k env s _ _ eq_refl); fields
  end.

Ltac step_with eqn :=
  match goal with
  | |- context [and_then ?m ?k ?env ?s] =>
      erewrite (and_then_run m k env s) by (apply eqn); fields
  end.

Lemma rows_run (l : nat) env s : rows l env s = Ok (frame_at l (heap s)) s.
Proof. reflexivity. Qed.

Lemma mask_run (l : nat) (p : Row -> bool) env s :
  mask l p env s =
  Ok (List.length (heap s))
     (mkState (py_random s) (np_random s)
              (heap s ++ [List.filter p (frame_at l (heap s))])
              (prompt s) (page s) (requests s)).
Proof. reflexivity. Qed.

Lemma top_run (l : nat) (key : Row -> Q) (n : nat) env s :
  top l key n env s =
  Ok (S (List.length (heap s)))
     (mkState (py_random s) (np_random s)
              ((heap s ++ [sort_values_desc key (frame_at l (heap s))])
                 ++ [head n (sort_values_desc key (frame_at l (heap s)))])
              (prompt s) (page s) (requests s)).
Proof.
  unfold top, and_then, rows, alloc. fields.
  rewrite (list_lookup_middle (heap s) [] _ (List.length (heap s)) eq_refl).
  cbn [default]. rewrite length_app. cbn [List.length].
  rewrite Nat.add_1_r. reflexivity.
Qed.

(** Reading back a frame that was just allocated. *)
Lemma frame_at_new (h : list Frame) (f : Frame) :
  frame_at (List.length h) (h ++ [f]) = f.
Proof. unfold frame_at. rewrite list_lookup_middle; reflexivity. Qed.

Lemma frame_at_new2 (h : list Frame) (f f' : Frame) :
  frame_at (S (List.length h)) ((h ++ [f]) ++ [f']) = f'.
Proof.
  unfold frame_at. rewrite (list_lookup_middle (h ++ [f]) [] f'); [reflexivity|].
  rewrite length_app. cbn [List.length]. lia.
Qed.

Lemma frame_at_old (h : list Frame) (f : Frame) (l : nat) :
  (l < List.length h)%nat -> frame_at l (h ++ [f]) = frame_at l h.
Proof. intros H. unfold frame_at. rewrite lookup_app_l by exact H. reflexivity. Qed.

Lemma tab3_bound (l : nat) env s (p : string) :
  prompt s = Some p ->
  exists s',
    tab3 l env s = Ok tt s' /\
    requests s' = requests s ++ repeat p (List.length (top5_by corrosion l (heap s))) /\
    prompt s' = Some p /\
    heap s' = (heap s ++ [sort_values_desc corrosion (frame_at l (heap s))])
                ++ [top5_by corrosion l (heap s)].
Proof.
  intros Hp. unfold tab3.
  step. step_with top_run. step_with rows_run. rewrite frame_at_new2. step.
  match goal with
  | |- context [for_each _ _ _ ?s0] =>
      destruct (advisory_loop_bound (Tab 3)
                  (fun row => "**Corrosion Summary for " +:+ Asset_ID (asset row) +:+ "**")
                  st_warning p (top5_by corrosion l (heap s)) env s0 Hp)
        as (s' & Hrun & Hreq & Hp' & Hh & _)
  end.
  exists s'. split; [exact Hrun|]. split; [exact Hreq|]. split; [exact Hp' | exact Hh].
Qed.

Lemma tab3_unbound (l : nat) env s :
  prompt s = None -> top5_by corrosion l (heap s) <> [] ->
  exists s',
    tab3 l env s = Raised NameError_prompt s' /\
    requests s' = requests s /\ prompt s' = None.
Proof.
  intros Hp Hne. unfold tab3.
  step. step_with top_run. step_with rows_run. rewrite frame_at_new2. step.
  change (fun r : Row => Corrosion_Level (asset r)) with corrosion.
  unfold top5_by in Hne.
  destruct (head 5 (sort_values_desc corrosion (frame_at l (heap s))))
    as [|row rest]; [congruence|].
  match goal with
  | |- context [for_each _ _ _ ?s0] =>
      destruct (advisory_loop_unbound (Tab 3)
                  (fun row => "**Corrosion Summary for " +:+ Asset_ID (asset row) +:+ "**")
                  st_warning row rest env s0 Hp)
        as (s' & Hrun & Hreq & Hp' & _)
  end.
  exists s'. split; [exact Hrun|]. split; [exact Hreq | exact Hp'].
Qed.

Lemma tab4_bound (l : nat) env s (p : string) :
  prompt s = Some p ->
  exists s',
    tab4 l env s = Ok tt s' /\
    requests s' = requests s ++ repeat p (List.length (top5_by degradation l (heap s))) /\
    prompt s' = Some p /\
    heap s' = (heap s ++ [sort_values_desc degradation (frame_at l (heap s))])
                ++ [top5_by degradation l (heap s)].
Proof.
  intros Hp. unfold tab4.
  step_with top_run. step_with rows_run. rewrite frame_at_new2.
  match goal with
  | |- context [for_each _ _ _ ?s0] =>
      destruct (advisory_loop_bound (Tab 4)
                  (fun row => "**Failure Mode Prediction for " +:+ Asset_ID (asset row) +:+ "**")
                  st_error p (top5_by degradation l (heap s)) env s0 Hp)
        as (s' & Hrun & Hreq & Hp' & Hh & _)
  end.
  exists s'. split; [exact Hrun|]. split; [exact Hreq|]. split; [exact Hp' | exact Hh].
Qed.

Lemma tab4_unbound (l : nat) env s :
  prompt s = None -> top5_by degradation l (heap s) <> [] ->
  exists s',
    tab4 l env s = Raised NameError_prompt s' /\
    requests s' = requests s /\ prompt s' = None.
Proof.
  intros Hp Hne. unfold tab4.
  step_with top_run. step_with rows_run. rewrite frame_at_new2.
  change (fun r : Row => Degradation_pct (asset r)) with degradation.
  unfold top5_by in Hne.
  destruct (head 5 (sort_values_desc degradation (frame_at l (heap s))))
    as [|row rest]; [congruence|].
  match goal with
  | |- context [for_each _ _ _ ?s0] =>
      destruct (advisory_loop_unbound (Tab 4)
                  (fun row => "**Failure Mode Prediction for " +:+ Asset_ID (asset row) +:+ "**")
                  st_error row rest env s0 Hp)
        as (s' & Hrun & Hreq & Hp' & _)
  end.
  exists s'. split; [exact Hrun|]. split; [exact Hreq | exact Hp'].
Qed.

(** Sorting keeps the number of rows. *)
Lemma insert_desc_length (key : Row -> Q) (r : Row) (f : Frame) :
  List.length (insert_desc key r f) = S (List.length f).
Proof.
  induction f as [|r' f IH]; [reflexivity|].
  cbn [insert_desc]. destruct (Qle_bool (key r') (key r)); cbn [List.length]; congruence.
Qed.

Lemma sort_values_desc_length (key : Row -> Q) (f : Frame) :
  List.length (sort_values_desc key f) = List.length f.
Proof.
  induction f as [|r f IH]; [reflexivity|].
  unfold sort_values_desc in *. cbn [fold_right].
  rewrite insert_desc_length, IH. reflexivity.
Qed.

Lemma top5_by_length (key : Row -> Q) (l : nat) (h : list Frame) :
  List.length (top5_by key l h) = Nat.min 5 (List.length (frame_at l h)).
Proof.
  unfold top5_by, head. rewrite length_firstn, sort_values_desc_length. reflexivity.
Qed.

(** The lifespan panel when no row has at most six months left: nothing is
    sampled and [prompt] stays as it was. *)
Lemma tab2_empty (l : nat) env s :
  List.filter (fun r => RUL r <=? 6) (frame_at l (heap s)) = [] ->
  exists s',
    tab2 l env s = Ok tt s' /\
    requests s' = requests s /\ prompt s' = prompt s /\
    heap s' = heap s ++ [[]].
Proof.
  intros Hlow. unfold tab2.
  step. step_with mask_run. step. step_with rows_run. rewrite frame_at_new.
  rewrite Hlow. step.
  eexists. split; [reflexivity|]. fields. repeat split.
Qed.

Lemma genai_advisory_run (p : string) env s :
  exists text, genai_advisory p env s = Ok text (sent p s).
Proof.
  unfold genai_advisory. destruct (first_content_stripped _); eexists; reflexivity.
Qed.

Lemma sample1_run (l : nat) env s (r : Row) (f : Frame) :
  frame_at l (heap s) = r :: f ->
  exists sample g',
    In sample (r :: f) /\
    sample1 l env s =
    Ok sample (mkState (py_random s) g' (heap s) (prompt s) (page s) (requests s)).
Proof.
  intros Hf. unfold sample1. step_with rows_run. rewrite Hf.
  unfold and_then, np_rand, pure.
  destruct (Random.randbelow (Z.of_nat (List.length (r :: f))) (np_random s))
    as [i g'].
  exists (nth (Z.to_nat i) (r :: f) r), g'. split; [|reflexivity].
  destruct (nth_in_or_default (Z.to_nat i) (r :: f) r) as [H| ->];
    [exact H | left; reflexivity].
Qed.

Lemma tab2_nonempty (l : nat) env s :
  List.filter (fun r => RUL r <=? 6) (frame_at l (heap s)) <> [] ->
  exists sample s',
    In sample (List.filter (fun r => RUL r <=? 6) (frame_at l (heap s))) /\
    tab2 l env s = Ok tt s' /\
    requests s' = requests s ++ [lifespan_prompt (asset sample)] /\
    prompt s' = Some (lifespan_prompt (asset sample)) /\
    heap s' = heap s ++ [List.filter (fun r => RUL r <=? 6) (frame_at l (heap s))].
Proof.
  intros Hlow. unfold tab2.
  step. step_with mask_run. step. step_with rows_run. rewrite frame_at_new.
  destruct (List.filter (fun r => RUL r <=? 6) (frame_at l (heap s)))
    as [|r low] eqn:E; [congruence|].
  step.
  match goal with
  | |- context [and_then (sample1 ?l0) _ _ ?s0] =>
      destruct (sample1_run l0 env s0 r low) as (sample & g' & Hin & Hrun);
        [apply frame_at_new|]
  end.
  erewrite and_then_run by exact Hrun. fields.
  step. step.
  match goal with
  | |- context [and_then (genai_advisory ?p) _ _ ?s0] =>
      destruct (genai_advisory_run p env s0) as (text & Hrun')
  end.
  erewrite and_then_run by exact Hrun'. fields.
  step.
  exists sample. eexists. split; [exact Hin|]. split; [reflexivity|].
  fields. repeat split.
Qed.

Lemma frame_at_nonempty_lt (l : nat) (h : list Frame) :
  frame_at l h <> [] -> (l < List.length h)%nat.
Proof.
  unfold frame_at. intros H.
  destruct (h !! l) as [f|] eqn:E; [|contradiction H; reflexivity].
  apply lookup_lt_Some in E. exact E.
Qed.

Lemma top5_by_old (key : Row -> Q) (l : nat) (h : list Frame) (f : Frame) :
  (l < List.length h)%nat -> top5_by key l (h ++ [f]) = top5_by key l h.
Proof. intros H. unfold top5_by. rewrite frame_at_old by exact H. reflexivity. Qed.

Lemma top5_of_five (key : Row -> Q) (l : nat) (h : list Frame) :
  (5 <= List.length (frame_at l h))%nat -> List.length (top5_by key l h) = 5%nat.
Proof. intros H. rewrite top5_by_length. lia. Qed.

Lemma filter_none_low (f : Frame) :
  Forall (fun r => 6 < RUL r) f -> List.filter (fun r => RUL r <=? 6) f = [].
Proof.
  induction 1 as [|r f Hr _ IH]; [reflexivity|].
  cbn [List.filter]. rewrite (proj2 (Z.leb_gt _ _)) by lia. exact IH.
Qed.

(** What each of the two panels does when [prompt] is not bound and no row has
    at most six months left. *)
Lemma panels_with_unbound_prompt (assets_df : nat) (env : Env) (s : State) :
  prompt s = None ->
  frame_at assets_df (heap s) <> [] ->
  Forall (fun r => 6 < RUL r) (frame_at assets_df (heap s)) ->
  exists s2,
    tab2 assets_df env s = Ok tt s2 /\ prompt s2 = None /\
    requests s2 = requests s /\
    (exists s3, tab3 assets_df env s2 = Raised NameError_prompt s3 /\
                requests s3 = requests s) /\
    (exists s4, tab4 assets_df env s2 = Raised NameError_prompt s4 /\
                requests s4 = requests s).
Proof.
  intros Hp Hne Hall.
  pose proof (frame_at_nonempty_lt _ _ Hne) as Hlt.
  destruct (tab2_empty assets_df env s (filter_none_low _ Hall))
    as (s2 & Hrun & Hreq & Hp2 & Hh).
  exists s2. rewrite Hp in Hp2.
  assert (Hf : frame_at assets_df (heap s2) = frame_at assets_df (heap s))
    by (rewrite Hh; apply frame_at_old; exact Hlt).
  assert (Htop : forall key, top5_by key assets_df (heap s2) <> []).
  { intros key E. apply (f_equal (@List.length Row)) in E.
    rewrite top5_by_length, Hf in E.
    destruct (frame_at assets_df (heap s)); [congruence | cbn in E; lia]. }
  split; [exact Hrun|]. split; [exact Hp2|]. split; [exact Hreq|]. split.
  - destruct (tab3_unbound assets_df env s2 Hp2 (Htop _)) as (s3 & H3 & Hr3 & _).
    exists s3. split; [exact H3 | congruence].
  - destruct (tab4_unbound assets_df env s2 Hp2 (Htop _)) as (s4 & H4 & Hr4 & _).
    exists s4. split; [exact H4 | congruence].
Qed.

Lemma rand_run {A} (m : Random.Rand A) env s :
  rand m env s =
  Ok (fst (m (py_random s)))
     (mkState (snd (m (py_random s))) (np_random s) (heap s) (prompt s)
              (page s) (requests s)).
Proof. unfold rand. destruct (m (py_random s)). reflexivity. Qed.

Lemma tab1_run (l : nat) env s :
  exists pg,
    tab1 l env s =
    Ok tt (mkState (py_random s) (np_random s) (heap s) (prompt s) pg (requests s)).
Proof. unfold tab1. step. step. step_with rows_run. eexists. reflexivity. Qed.

(** The script up to the lifespan panel: the table is generated, stored as
    the first frame, and shown. *)
Lemma main_prefix_run env (py np : nat -> N) (rest : nat -> Script unit) :
  exists pg,
    (env' <- ask ;;
     assets <- rand (generate_assets (today env')) ;;
     assets_df <- alloc (DataFrame assets) ;;
     show Page (st_title "🏭 Asset Integrity GenAI Assistant") ;;;
     tab0 ;;;
     tab1 assets_df ;;;
     rest assets_df)%script env (startup py np)
    = rest 0%nat env
        (mkState (snd (generate_assets (today env) (Random.mkRng py 0)))
                 (Random.mkRng np 0)
                 [DataFrame (fst (generate_assets (today env) (Random.mkRng py 0)))]
                 None pg []).
Proof.
  step. step_with @rand_run. unfold startup. fields. step. step. step.
  match goal with
  | |- context [and_then (tab1 ?l) _ _ ?s0] =>
      destruct (tab1_run l env s0) as (pg & Hrun)
  end.
  erewrite and_then_run by exact Hrun. fields.
  exists pg. reflexivity.
Qed.

(** C10: when no row of the generated table has at most six months left, the
    lifespan panel leaves [prompt] unbound, and the corrosion panel and the
    failure-mode panel raise NameError on reading it, before any advisory is
    requested; the script as a whole stops there, in the corrosion panel. *)
Theorem panels_need_a_low_rul_row (env : Env) (py np : nat -> N) :
  let table := DataFrame (fst (generate_assets (today env) (Random.mkRng py 0))) in
  Forall (fun r => 6 < RUL r) table ->
  (exists s', main env (startup py np) = Raised NameError_prompt s' /\
              requests s' = []) /\
  (forall assets_df s,
      prompt s = None -> frame_at assets_df (heap s) = table ->
      exists s2,
        tab2 assets_df env s = Ok tt s2 /\ prompt s2 = None /\
        requests s2 = requests s /\
        (exists s3, tab3 assets_df env s2 = Raised NameError_prompt s3 /\
                    requests s3 = requests s) /\
        (exists s4, tab4 assets_df env s2 = Raised NameError_prompt s4 /\
                    requests s4 = requests s)).
Proof.
  cbv zeta.
  pose proof (generate_assets_length (today env) (Random.mkRng py 0)) as Hlen.
  destruct (main_prefix_run env py np
              (fun assets_df =>
                 tab2 assets_df ;;; tab3 assets_df ;;; tab4 assets_df ;;; tab5 ;;;
                 tab6 assets_df ;;; tab7 assets_df ;;; tab8 assets_df))
    as (pg & Hmain).
  unfold main. rewrite Hmain. clear Hmain.
  destruct (generate_assets (today env) (Random.mkRng py 0)) as [assets g'].
  cbn [fst snd] in *.
  set (table := DataFrame assets).
  intros Hall.
  assert (Hne : table <> []).
  { intros E. apply (f_equal (@List.length Row)) in E. unfold table, DataFrame in E.
    rewrite length_map, Hlen in E. discriminate. }
  assert (Hpanels : forall assets_df s,
      prompt s = None -> frame_at assets_df (heap s) = table ->
      exists s2,
        tab2 assets_df env s = Ok tt s2 /\ prompt s2 = None /\
        requests s2 = requests s /\
        (exists s3, tab3 assets_df env s2 = Raised NameError_prompt s3 /\
                    requests s3 = requests s) /\
        (exists s4, tab4 assets_df env s2 = Raised NameError_prompt s4 /\
                    requests s4 = requests s)).
  { intros l s Hp Hf. apply panels_with_unbound_prompt; [exact Hp | | ];
      rewrite Hf; assumption. }
  split; [|exact Hpanels].
  match goal with
  | |- context [and_then (tab2 0%nat) _ _ ?s0] =>
      destruct (Hpanels 0%nat s0 eq_refl eq_refl)
        as (s2 & H2 & Hp2 & Hr2 & (s3 & H3 & Hr3) & _)
  end.
  erewrite and_then_run by exact H2.
  unfold and_then at 1. rewrite H3.
  exists s3. split; [reflexivity | exact Hr3].
Qed.

Lemma panels_need_a_low_rul_row_witness :
  Forall (fun r => 6 < RUL r)
         (DataFrame (fst (generate_assets 20000
                            (Random.mkRng (constant_draws 10) 0)))) /\
  exists s', main endpoint_down (startup (constant_draws 10) (constant_draws 0))
             = Raised NameError_prompt s' /\ requests s' = [].
Proof.
  assert (H : Forall (fun r => 6 < RUL r)
                (DataFrame (fst (generate_assets 20000
                                   (Random.mkRng (constant_draws 10) 0))))).
  { apply (bool_decide_unpack _). vm_compute. exact I. }
  split; [exact H|].
  exact (proj1 (panels_need_a_low_rul_row endpoint_down (constant_draws 10)
                  (constant_draws 0) H)).
Defined.

(** C3 (what the code does): once [prompt] is bound, the corrosion panel and
    the failure-mode panel send that one prompt for each of their five rows;
    the rows they rank contribute nothing to what is sent. *)
Theorem ranked_panels_send_the_bound_prompt (assets_df : nat) (env : Env)
    (s : State) (p : string) :
  prompt s = Some p ->
  (5 <= List.length (frame_at assets_df (heap s)))%nat ->
  exists s3 s4,
    tab3 assets_df env s = Ok tt s3 /\
    requests s3 = requests s ++ [p; p; p; p; p] /\
    tab4 assets_df env s3 = Ok tt s4 /\
    requests s4 = requests s3 ++ [p; p; p; p; p].
Proof.
  intros Hp Hfive.
  assert (Hlt : (assets_df < List.length (heap s))%nat).
  { apply frame_at_nonempty_lt. destruct (frame_at assets_df (heap s));
      [cbn in Hfive; lia | discriminate]. }
  destruct (tab3_bound assets_df env s p Hp) as (s3 & H3 & Hr3 & Hp3 & Hh3).
  destruct (tab4_bound assets_df env s3 p Hp3) as (s4 & H4 & Hr4 & _).
  assert (Hf3 : frame_at assets_df (heap s3) = frame_at assets_df (heap s)).
  { rewrite Hh3, !frame_at_old; [reflexivity | exact Hlt |].
    rewrite length_app. cbn [List.length]. lia. }
  rewrite (top5_of_five _ _ _ Hfive) in Hr3.
  rewrite top5_of_five in Hr4 by (rewrite Hf3; exact Hfive).
  exists s3, s4. repeat split; assumption.
Qed.

Lemma ranked_panels_send_the_bound_prompt_witness :
  prompt after_lifespan = Some lifespan_prompt_A0095 /\
  (5 <= List.length (frame_at 0 (heap after_lifespan)))%nat /\
  map (fun r => Asset_ID (asset r)) (top5_by corrosion 0 (heap after_lifespan))
    = ["A0051"; "A0056"; "A0085"; "A0079"; "A0063"] /\
  map (fun r => Asset_ID (asset r)) (top5_by degradation 0 (heap after_lifespan))
    = ["A0069"; "A0138"; "A0132"; "A0105"; "A0125"] /\
  exists s3 s4,
    tab3 0 answering after_lifespan = Ok tt s3 /\
    requests s3 = requests after_lifespan ++ repeat lifespan_prompt_A0095 5 /\
    tab4 0 answering s3 = Ok tt s4 /\
    requests s4 = requests s3 ++ repeat lifespan_prompt_A0095 5.
Proof.
  assert (Hp : prompt after_lifespan = Some lifespan_prompt_A0095)
    by (vm_compute; reflexivity).
  assert (Hfive : (5 <= List.length (frame_at 0 (heap after_lifespan)))%nat)
    by (vm_compute; lia).
  split; [exact Hp|]. split; [exact Hfive|].
  split; [vm_compute; reflexivity|]. split; [vm_compute; reflexivity|].
  exact (ranked_panels_send_the_bound_prompt 0 answering after_lifespan
           lifespan_prompt_A0095 Hp Hfive).
Defined.

(** ** The cost forecast *)

Lemma apply_cost_samples (types : list string) (g : Random.Rng) :
  fst (apply get_equipment_cost types g) = cost_samples types g.
Proof.
  revert g. induction types as [|t types IH]; intros g; [reflexivity|].
  cbn [apply cost_samples]. rewrite !RandomFacts.bind_run. cbn [Random.ret fst].
  rewrite IH. reflexivity.
Qed.

Lemma cost_samples_length (types : list string) (g : Random.Rng) :
  List.length (cost_samples types g) = List.length types.
Proof.
  revert g. induction types as [|t types IH]; intros g; [reflexivity|].
  cbn [cost_samples List.length]. rewrite IH. reflexivity.
Qed.

Lemma sum_foldr (ns : list Z) : sum ns = foldr Z.add 0 ns.
Proof.
  unfold sum. assert (H : forall a, fold_left Z.add ns a = a + foldr Z.add 0 ns).
  { induction ns as [|n ns IH]; intros a; cbn [fold_left foldr]; [lia|].
    rewrite IH. lia. }
  rewrite H. lia.
Qed.

(** After both column assignments every row carries a cost and a date. *)
Lemma set_columns_cons (today : Z) (r : Row) (low : Frame) (c : Z) (costs : list Z) :
  set_replace_by today (set_replacement_cost (r :: low) (c :: costs)) =
  mkRow (asset r) (Some c) (Some (today + RUL_months (asset r) * 30))
    :: set_replace_by today (set_replacement_cost low costs).
Proof. reflexivity. Qed.

Lemma int_column_costs (today : Z) (low : Frame) :
  forall costs, List.length costs = List.length low ->
    int_column "Replacement Cost ($)"
               (set_replace_by today (set_replacement_cost low costs)) = inr costs.
Proof.
  induction low as [|r low IH]; intros [|c costs] Hlen; try discriminate.
  - reflexivity.
  - rewrite set_columns_cons. cbn [int_column].
    rewrite IH by (cbn in Hlen; lia). reflexivity.
Qed.

Lemma select_costs (today : Z) (cols : list string) (low : Frame) :
  (forall a c d, exists vs, select_row cols (mkRow a (Some c) (Some d)) = inr vs) ->
  forall costs, List.length costs = List.length low ->
    exists table,
      select cols (set_replace_by today (set_replacement_cost low costs)) = inr table.
Proof.
  intros Hrow.
  induction low as [|r low IH]; intros [|c costs] Hlen; try discriminate.
  - exists []. reflexivity.
  - rewrite set_columns_cons. cbn [select].
    destruct (Hrow (asset r) c (today + RUL_months (asset r) * 30)) as (vs & Hvs).
    rewrite Hvs.
    destruct (IH costs) as (table & Ht); [cbn in Hlen; lia|].
    rewrite Ht. eexists. reflexivity.
Qed.

Lemma frame_at_store (l : nat) (h : list Frame) (f : Frame) :
  (l < List.length h)%nat -> frame_at l (<[l := f]> h) = f.
Proof. intros H. unfold frame_at. rewrite list_lookup_insert_eq by exact H. reflexivity. Qed.

Lemma tab7_run (assets_df : nat) env s :
  due_for_replacement assets_df s <> [] ->
  exists s',
    tab7 assets_df env s = Ok tt s' /\
    requests s' =
      requests s ++
      [cost_prompt
         (foldr Z.add 0
            (cost_samples (map (fun r => Type_ (asset r))
                               (due_for_replacement assets_df s))
                          (py_random s)))].
Proof.
  unfold due_for_replacement. intros Hlow. unfold tab7.
  step. step_with mask_run. step_with rows_run. rewrite frame_at_new.
  destruct (List.filter (fun r => RUL r <=? 6) (frame_at assets_df (heap s)))
    as [|r low] eqn:E; [congruence|].
  set (rows6 := r :: low) in *.
  step_with @rand_run. rewrite apply_cost_samples.
  set (costs := cost_samples (map (fun r => Type_ (asset r)) rows6) (py_random s)).
  assert (Hlen : List.length costs = List.length rows6)
    by (unfold costs; rewrite cost_samples_length, length_map; reflexivity).
  assert (Hl : (List.length (heap s) < List.length (heap s ++ [rows6]))%nat)
    by (rewrite length_app; cbn [List.length]; lia).
  step. step_with rows_run. rewrite frame_at_store by exact Hl.
  step. step_with rows_run.
  rewrite frame_at_store by (rewrite length_insert; exact Hl).
  destruct (select_costs (today env)
              ["Asset ID"; "Type"; "Location"; "RUL (months)";
               "Replacement Cost ($)"; "Replace By"] rows6
              ltac:(intros; eexists; reflexivity) costs Hlen) as (table & Ht).
  unfold project at 1. rewrite Ht. step. step.
  rewrite (int_column_costs (today env) rows6 costs Hlen).
  step. step.
  match goal with
  | |- context [and_then (genai_advisory ?p) _ _ ?s0] =>
      destruct (genai_advisory_run p env s0) as (text & Hrun')
  end.
  erewrite and_then_run by exact Hrun'. fields.
  eexists. split; [reflexivity|]. fields. rewrite sum_foldr. reflexivity.
Qed.

Lemma tab7_nothing_due (assets_df : nat) env s :
  due_for_replacement assets_df s = [] ->
  exists s', tab7 assets_df env s = Ok tt s' /\ requests s' = requests s.
Proof.
  unfold due_for_replacement. intros Hlow. unfold tab7.
  step. step_with mask_run. step_with rows_run. rewrite frame_at_new, Hlow.
  eexists. split; reflexivity.
Qed.

(** C7: in the cost forecast, the prompt carries the sum of one cost estimate
    per row with at most six months left, each estimate being
    [get_equipment_cost] of the row's type; when there is no such row no
    prompt is sent. *)
Theorem cost_forecast_total (assets_df : nat) (env : Env) (s : State) :
  let low := due_for_replacement assets_df s in
  let costs := cost_samples (map (fun r => Type_ (asset r)) low) (py_random s) in
  List.length costs = List.length low /\
  (low <> [] ->
   exists s',
     tab7 assets_df env s = Ok tt s' /\
     requests s' =
       requests s ++
       ["In the next 6 months, assets totaling $" +:+ Py.str_int (foldr Z.add 0 costs)
        +:+ " are due for replacement. Provide a capital planning summary."]) /\
  (low = [] ->
   exists s', tab7 assets_df env s = Ok tt s' /\ requests s' = requests s).
Proof.
  cbv zeta. split; [rewrite cost_samples_length, length_map; reflexivity|].
  split.
  - intros Hlow. exact (tab7_run assets_df env s Hlow).
  - intros Hlow. exact (tab7_nothing_due assets_df env s Hlow).
Qed.


Lemma cost_forecast_total_witness :
  due_for_replacement 0 after_lifespan <> [] /\
  exists s',
    tab7 0 answering after_lifespan = Ok tt s' /\
    requests s' =
      requests after_lifespan ++
      ["In the next 6 months, assets totaling $292127 are due for replacement. Provide a capital planning summary."].
Proof.
  assert (Hne : due_for_replacement 0 after_lifespan <> [])
    by (vm_compute; discriminate).
  split; [exact Hne|].
  destruct (proj1 (proj2 (cost_forecast_total 0 answering after_lifespan)) Hne)
    as (s' & Hrun & Hreq).
  exists s'. split; [exact Hrun|]. rewrite Hreq. vm_compute. reflexivity.
Defined.

(** ** The table is read-only *)

Section HeapOnlyGrows.

Variable h0 : list Frame.

Lemma grows_bind {A B} (m : Script A) (k : A -> Script B) (Q : A -> Prop)
    (R : B -> Prop) :
  grows h0 m Q -> (forall a, Q a -> grows h0 (k a) R) -> grows h0 (and_then m k) R.
Proof.
  intros Hm Hk env s Hs. unfold and_then. specialize (Hm env s Hs).
  destruct (m env s) as [a s'|e s']; [|exact Hm].
  destruct Hm as [Hs' Ha]. exact (Hk a Ha env s' Hs').
Qed.

Lemma grows_pure {A} (a : A) (Q : A -> Prop) : Q a -> grows h0 (pure a) Q.
Proof. intros Ha env s Hs. split; assumption. Qed.

Lemma grows_raise {A} (e : Py.Exn) (Q : A -> Prop) : grows h0 (raise e) Q.
Proof. intros env s Hs. exact Hs. Qed.

Lemma grows_ask : grows h0 ask (fun _ => True).
Proof. intros env s Hs. split; [exact Hs | exact I]. Qed.

Lemma grows_show (c : Container) (w : Widget) : grows h0 (show c w) (fun _ => True).
Proof. intros env s Hs. split; [exact Hs | exact I]. Qed.

Lemma grows_rows (l : nat) : grows h0 (rows l) (fun _ => True).
Proof. intros env s Hs. split; [exact Hs | exact I]. Qed.

Lemma grows_assign_prompt (p : string) : grows h0 (assign_prompt p) (fun _ => True).
Proof. intros env s Hs. split; [exact Hs | exact I]. Qed.

Lemma grows_read_prompt : grows h0 read_prompt (fun _ => True).
Proof.
  intros env s Hs. unfold read_prompt. destruct (prompt s); [split|]; trivial.
Qed.

Lemma grows_rand {A} (m : Random.Rand A) : grows h0 (rand m) (fun _ => True).
Proof.
  intros env s Hs. unfold rand. destruct (m (py_random s)). split; [exact Hs | exact I].
Qed.

Lemma grows_np_rand {A} (m : Random.Rand A) : grows h0 (np_rand m) (fun _ => True).
Proof.
  intros env s Hs. unfold np_rand. destruct (m (np_random s)).
  split; [exact Hs | exact I].
Qed.

Lemma grows_genai_advisory (p : string) : grows h0 (genai_advisory p) (fun _ => True).
Proof.
  intros env s Hs. unfold genai_advisory.
  destruct (first_content_stripped _); split; trivial.
Qed.

(** A new frame lies beyond [h0]. *)
Lemma grows_alloc (f : Frame) :
  grows h0 (alloc f) (fun l => (List.length h0 <= l)%nat).
Proof.
  intros env s Hs. cbn. split; [apply prefix_app_r; exact Hs|].
  apply prefix_length. exact Hs.
Qed.

(** Assigning to a frame beyond [h0] leaves [h0] alone. *)
Lemma grows_store (l : nat) (f : Frame) :
  (List.length h0 <= l)%nat -> grows h0 (store l f) (fun _ => True).
Proof.
  intros Hl env s [k Hk]. cbn. split; [|exact I].
  rewrite Hk, insert_app_r_alt by exact Hl. eexists. reflexivity.
Qed.

Lemma grows_for_each {A} (xs : list A) (body : A -> Script unit) :
  (forall x, grows h0 (body x) (fun _ => True)) ->
  grows h0 (for_each xs body) (fun _ => True).
Proof.
  intros Hbody. induction xs as [|x xs IH]; cbn [for_each].
  - apply grows_pure. exact I.
  - eapply grows_bind; [apply Hbody|]. intros _ _. exact IH.
Qed.

End HeapOnlyGrows.

Create HintDb grows.
#[local] Hint Resolve grows_ask grows_show grows_rows grows_assign_prompt
  grows_read_prompt grows_rand grows_np_rand grows_genai_advisory grows_alloc
  grows_store grows_raise : grows.

(** Decompose a script into its actions. *)
Ltac grows_tac :=
  repeat first
    [ progress intros
    | solve [eauto with grows]
    | apply grows_pure; exact I
    | apply grows_for_each
    | eapply grows_bind; [solve [eauto with grows]|]
    | match goal with
      | |- grows _ (match ?x with _ => _ end) _ => destruct x
      end ].

Lemma grows_mask (h0 : list Frame) (l : nat) (p : Row -> bool) :
  grows h0 (mask l p) (fun l' => (List.length h0 <= l')%nat).
Proof. unfold mask. grows_tac. Qed.

Lemma grows_top (h0 : list Frame) (l : nat) (key : Row -> Q) (n : nat) :
  grows h0 (top l key n) (fun l' => (List.length h0 <= l')%nat).
Proof. unfold top. grows_tac. Qed.

Lemma grows_sample1 (h0 : list Frame) (l : nat) :
  grows h0 (sample1 l) (fun _ => True).
Proof. unfold sample1. grows_tac. Qed.

Lemma grows_project (h0 : list Frame) (cols : list string) (f : Frame) :
  grows h0 (project cols f) (fun _ => True).
Proof. unfold project. grows_tac. Qed.

#[local] Hint Resolve grows_mask grows_top grows_sample1 grows_project : grows.

Lemma grows_panel (h0 : list Frame) (panel : nat -> Script unit) (assets_df : nat) :
  In panel panels -> grows h0 (panel assets_df) (fun _ => True).
Proof.
  unfold panels. cbn [In].
  intros [<-|[<-|[<-|[<-|[<-|[<-|[<-|[<-|[<-|[]]]]]]]]]].
  - unfold tab0. grows_tac.
  - unfold tab1. grows_tac.
  - unfold tab2. grows_tac.
  - unfold tab3. grows_tac.
  - unfold tab4. grows_tac.
  - unfold tab5. grows_tac.
  - unfold tab6. grows_tac.
  - unfold tab7. grows_tac.
  - unfold tab8. grows_tac.
Qed.

Lemma grows_final {A} (h0 : list Frame) (m : Script A) (Q : A -> Prop) env s :
  grows h0 m Q -> h0 `prefix_of` heap s -> h0 `prefix_of` heap (final (m env s)).
Proof.
  intros Hm Hs. specialize (Hm env s Hs).
  destruct (m env s) as [a s'|e s']; cbn [final]; [exact (proj1 Hm) | exact Hm].
Qed.

Lemma panel_keeps_frame (panel : nat -> Script unit) (assets_df : nat) env s
    (l : nat) (f : Frame) :
  In panel panels -> heap s !! l = Some f ->
  heap (final (panel assets_df env s)) !! l = Some f.
Proof.
  intros Hin Hl.
  eapply prefix_lookup_Some; [exact Hl|].
  apply (grows_final (heap s) (panel assets_df) (fun _ => True));
    [apply grows_panel; exact Hin | reflexivity].
Qed.

(** C8: the script generates the table once, as its first frame, and nothing
    that runs afterwards changes it: at the end of the script, however it
    ends, that frame is the generated table; and no panel, the cost forecast
    included, changes a frame that exists when the panel starts. *)
Theorem asset_table_is_read_only (env : Env) (py np : nat -> N) :
  let table := DataFrame (fst (generate_assets (today env) (Random.mkRng py 0))) in
  heap (final (main env (startup py np))) !! 0%nat = Some table /\
  (forall panel assets_df s f,
      In panel panels ->
      heap s !! assets_df = Some f ->
      heap (final (panel assets_df env s)) !! assets_df = Some f).
Proof.
  cbv zeta. split.
  - destruct (main_prefix_run env py np
                (fun assets_df =>
                   tab2 assets_df ;;; tab3 assets_df ;;; tab4 assets_df ;;; tab5 ;;;
                   tab6 assets_df ;;; tab7 assets_df ;;; tab8 assets_df))
      as (pg & Hmain).
    unfold main. rewrite Hmain. clear Hmain.
    destruct (generate_assets (today env) (Random.mkRng py 0)) as [assets g'].
    cbn [fst snd].
    apply (prefix_lookup_Some [DataFrame assets] _ 0%nat _ eq_refl).
    apply (grows_final [DataFrame assets] _ (fun _ => True)); [|reflexivity].
    repeat (eapply grows_bind;
            [ first [ apply (grows_panel _ (fun _ => tab5) 0%nat)
                    | apply grows_panel ];
              unfold panels; cbn [In]; tauto
            | intros _ _ ]).
    apply grows_panel. unfold panels; cbn [In]; tauto.
  - intros panel assets_df s f Hin Hl.
    exact (panel_keeps_frame panel assets_df env s assets_df f Hin Hl).
Qed.

(** ** How the advisory is displayed *)

Section Blind.

Variable env : Env.
Variable create' : nat -> string -> list (string * string) -> Reply.

Local Abbreviation blind' := (blind env create').

Lemma similar_refl (s : State) : similar s s.
Proof. repeat split. Qed.

Lemma blind_bind {A B} (R : A -> A -> Prop) (S : B -> B -> Prop)
    (m1 m2 : Script A) (k1 k2 : A -> Script B) :
  blind' R m1 m2 -> (forall a1 a2, R a1 a2 -> blind' S (k1 a1) (k2 a2)) ->
  blind' S (and_then m1 k1) (and_then m2 k2).
Proof.
  intros Hm Hk s1 s2 Hs. unfold and_then. specialize (Hm s1 s2 Hs).
  destruct (m1 env s1) as [a1 s1'|e1 s1'],
           (m2 (with_endpoint env create') s2) as [a2 s2'|e2 s2'];
    try contradiction.
  - destruct Hm as [Ha Hs']. exact (Hk a1 a2 Ha s1' s2' Hs').
  - exact Hm.
Qed.

Lemma blind_pure {A} (R : A -> A -> Prop) (a1 a2 : A) :
  R a1 a2 -> blind' R (pure a1) (pure a2).
Proof. intros Ha s1 s2 Hs. split; assumption. Qed.

Lemma blind_raise {A} (R : A -> A -> Prop) (e : Py.Exn) :
  blind' R (raise e) (raise e).
Proof. intros s1 s2 Hs. split; [reflexivity | exact Hs]. Qed.

Lemma blind_ask : blind' same_inputs ask ask.
Proof. intros s1 s2 Hs. split; [repeat split | exact Hs]. Qed.

(** Two widgets of the same kind may replace one another. *)
Lemma blind_show (c : Container) (w1 w2 : Widget) :
  kind w1 = kind w2 -> blind' eq (show c w1) (show c w2).
Proof.
  intros Hk s1 s2 (Hpy & Hnp & Hh & Hp & Hr & Hpg). unfold show.
  split; [reflexivity|]. unfold similar. fields.
  unfold routing in *. rewrite !map_app, Hpg. cbn [map fst snd]. rewrite Hk.
  repeat split; assumption.
Qed.

Lemma blind_rows (l : nat) : blind' eq (rows l) (rows l).
Proof.
  intros s1 s2 Hs. unfold rows. split; [|exact Hs].
  destruct Hs as (_ & _ & Hh & _). rewrite Hh. reflexivity.
Qed.

Lemma blind_alloc (f : Frame) : blind' eq (alloc f) (alloc f).
Proof.
  intros s1 s2 (Hpy & Hnp & Hh & Hp & Hr & Hpg). unfold alloc.
  split; [rewrite Hh; reflexivity|]. unfold similar. fields.
  rewrite Hh. repeat split; assumption.
Qed.

Lemma blind_store (l : nat) (f : Frame) : blind' eq (store l f) (store l f).
Proof.
  intros s1 s2 (Hpy & Hnp & Hh & Hp & Hr & Hpg). unfold store.
  split; [reflexivity|]. unfold similar. fields.
  rewrite Hh. repeat split; assumption.
Qed.

Lemma blind_assign_prompt (p : string) :
  blind' eq (assign_prompt p) (assign_prompt p).
Proof.
  intros s1 s2 (Hpy & Hnp & Hh & Hp & Hr & Hpg). unfold assign_prompt.
  split; [reflexivity|]. unfold similar. fields. repeat split; assumption.
Qed.

Lemma blind_read_prompt : blind' eq read_prompt read_prompt.
Proof.
  intros s1 s2 Hs. unfold read_prompt.
  destruct Hs as (Hpy & Hnp & Hh & Hp & Hr & Hpg). rewrite Hp.
  destruct (prompt s2) eqn:E; (split; [reflexivity|]);
    unfold similar; rewrite ?E; repeat split; assumption.
Qed.

Lemma blind_rand {A} (m : Random.Rand A) : blind' eq (rand m) (rand m).
Proof.
  intros s1 s2 (Hpy & Hnp & Hh & Hp & Hr & Hpg). unfold rand. rewrite Hpy.
  destruct (m (py_random s2)). split; [reflexivity|]. unfold similar. fields.
  repeat split; assumption.
Qed.

Lemma blind_np_rand {A} (m : Random.Rand A) : blind' eq (np_rand m) (np_rand m).
Proof.
  intros s1 s2 (Hpy & Hnp & Hh & Hp & Hr & Hpg). unfold np_rand. rewrite Hnp.
  destruct (m (np_random s2)). split; [reflexivity|]. unfold similar. fields.
  repeat split; assumption.
Qed.

(** The two advisories need not have anything in common. *)
Lemma blind_genai_advisory (p : string) :
  blind' (fun _ _ => True) (genai_advisory p) (genai_advisory p).
Proof.
  intros s1 s2 (Hpy & Hnp & Hh & Hp & Hr & Hpg). unfold genai_advisory.
  destruct (first_content_stripped _), (first_content_stripped _);
    (split; [exact I|]); unfold similar; fields; rewrite Hr;
    repeat split; assumption.
Qed.

Lemma blind_for_each {A} (xs : list A) (body1 body2 : A -> Script unit) :
  (forall x, blind' eq (body1 x) (body2 x)) ->
  blind' eq (for_each xs body1) (for_each xs body2).
Proof.
  intros Hbody. induction xs as [|x xs IH]; cbn [for_each].
  - apply blind_pure. reflexivity.
  - eapply blind_bind; [apply Hbody|]. intros _ _ _. exact IH.
Qed.

End Blind.

Create HintDb blind.
#[local] Hint Resolve blind_ask blind_rows blind_alloc blind_store blind_assign_prompt
  blind_read_prompt blind_rand blind_np_rand blind_genai_advisory blind_raise
  : blind.

(** Decompose two runs of one script, action by action. *)
Ltac blind_tac :=
  repeat first
    [ progress intros
    | progress subst
    | match goal with
      | H : same_inputs _ _ |- _ => destruct H as (? & ? & ?)
      | H : today ?e1 = today ?e2 |- context [today ?e1] => rewrite H
      | H : technician_notes ?e1 = _ |- context [technician_notes ?e1] => rewrite H
      | H : generate_summary_clicked ?e1 = _
        |- context [generate_summary_clicked ?e1] => rewrite H
      end
    | solve [eauto with blind]
    | apply blind_show; reflexivity
    | apply blind_pure; reflexivity
    | apply blind_for_each
    | eapply blind_bind; [solve [eauto with blind] | ]
    | eapply blind_bind; [apply blind_show; reflexivity | ]
    | match goal with
      | |- blind _ _ _ (match ?x with _ => _ end) (match ?x with _ => _ end) =>
          destruct x
      end ].

Lemma blind_mask env create' (l : nat) (p : Row -> bool) :
  blind env create' eq (mask l p) (mask l p).
Proof. unfold mask. blind_tac. Qed.

Lemma blind_top env create' (l : nat) (key : Row -> Q) (n : nat) :
  blind env create' eq (top l key n) (top l key n).
Proof. unfold top. blind_tac. Qed.

Lemma blind_sample1 env create' (l : nat) :
  blind env create' eq (sample1 l) (sample1 l).
Proof. unfold sample1. blind_tac. Qed.

Lemma blind_project env create' (cols : list string) (f : Frame) :
  blind env create' eq (project cols f) (project cols f).
Proof. unfold project. blind_tac. Qed.

#[local] Hint Resolve blind_mask blind_top blind_sample1 blind_project : blind.

Lemma blind_panel env create' (panel : nat -> Script unit) (assets_df : nat) :
  In panel panels_before_work_order ->
  blind env create' eq (panel assets_df) (panel assets_df).
Proof.
  unfold panels_before_work_order. cbn [In].
  intros [<-|[<-|[<-|[<-|[<-|[<-|[<-|[<-|[]]]]]]]]].
  - unfold tab0. blind_tac.
  - unfold tab1. blind_tac.
  - unfold tab2. blind_tac.
  - unfold tab3. blind_tac.
  - unfold tab4. blind_tac.
  - unfold tab5. blind_tac.
  - unfold tab6. blind_tac.
  - unfold tab7. blind_tac.
Qed.

Lemma blind_routing env create' (panel : nat -> Script unit) (assets_df : nat) s :
  In panel panels_before_work_order ->
  routing (page (final (panel assets_df env s))) =
  routing (page (final (panel assets_df (with_endpoint env create') s))).
Proof.
  intros Hin.
  pose proof (blind_panel env create' panel assets_df Hin s s (similar_refl s)) as H.
  destruct (panel assets_df env s) as [[] s1|e1 s1],
           (panel assets_df (with_endpoint env create') s) as [[] s2|e2 s2];
    try contradiction; destruct H as (_ & _ & _ & _ & _ & _ & Hpg); exact Hpg.
Qed.

(** The columns that the work-order panel shows exist in every frame. *)
Lemma select_work_order_columns (f : Frame) :
  exists table,
    select ["Asset ID"; "Type"; "Location"; "Status"; "RUL (months)"] f = inr table.
Proof.
  induction f as [|r f (table & IH)]; [exists []; reflexivity|].
  cbn [select].
  assert (Hr : exists vs,
             select_row ["Asset ID"; "Type"; "Location"; "Status"; "RUL (months)"] r
             = inr vs) by (eexists; reflexivity).
  destruct Hr as (vs & Hvs). rewrite Hvs, IH. eexists. reflexivity.
Qed.

Lemma tab8_run (assets_df : nat) env s :
  critical_rows assets_df s <> [] ->
  exists advisory s',
    tab8 assets_df env s = Ok tt s' /\
    last (page s') =
      Some (Tab 8, if Py.contains "⚠️" advisory then st_error advisory
                   else st_info advisory).
Proof.
  unfold critical_rows. intros Hne. unfold tab8.
  step. step. step_with mask_run. step_with rows_run. rewrite frame_at_new.
  destruct (List.filter (fun r => RUL r <=? 3) (frame_at assets_df (heap s)))
    as [|r critical] eqn:E; [congruence|].
  destruct (select_work_order_columns (r :: critical)) as (table & Ht).
  unfold project at 1. rewrite Ht. step. step.
  match goal with
  | |- context [and_then (sample1 ?l0) _ _ ?s0] =>
      destruct (sample1_run l0 env s0 r critical) as (sample & g' & Hin & Hrun);
        [apply frame_at_new|]
  end.
  erewrite and_then_run by exact Hrun. fields.
  step. step.
  match goal with
  | |- context [and_then (genai_advisory ?p) _ _ ?s0] =>
      destruct (genai_advisory_run p env s0) as (text & Hrun')
  end.
  erewrite and_then_run by exact Hrun'. fields.
  exists text.
  destruct (Py.contains "⚠️" text); eexists; (split; [reflexivity|]);
    fields; apply last_snoc.
Qed.




Lemma asset_table_is_read_only_witness :
  In tab7 panels /\
  heap after_lifespan !! 0%nat =
    Some (DataFrame (fst (generate_assets 20000 (Random.mkRng sample_draws 0)))) /\
  heap (final (tab7 0 answering after_lifespan)) !! 0%nat =
    Some (DataFrame (fst (generate_assets 20000 (Random.mkRng sample_draws 0)))).
Proof.
  assert (Hin : In tab7 panels) by (unfold panels; cbn [In]; tauto).
  assert (H0 : heap after_lifespan !! 0%nat =
               Some (DataFrame (fst (generate_assets 20000
                                       (Random.mkRng sample_draws 0)))))
    by (vm_compute; reflexivity).
  split; [exact Hin|]. split; [exact H0|].
  exact (proj2 (asset_table_is_read_only answering sample_draws sample_draws)
           tab7 0%nat after_lifespan _ Hin H0).
Defined.

(** * Further properties of the code *)

(** ** The calls to the sampling routines *)

Section Calls.

Import Random RandomFacts.

Lemma advance_advance (n k : nat) (g : Rng) :
  advance k (advance n g) = advance (n + k) g.
Proof. unfold advance. cbn [raw used]. rewrite Nat.add_assoc. reflexivity. Qed.

Lemma same_window_advance (n k : nat) (g g' : Rng) :
  same_window (n + k) g g' -> same_window k (advance n g) (advance n g').
Proof.
  intros H i Hi. unfold advance. cbn [raw used].
  rewrite <- !Nat.add_assoc. apply H. lia.
Qed.

Lemma same_window_le (n k : nat) (g g' : Rng) :
  (n <= k)%nat -> same_window k g g' -> same_window n g g'.
Proof. intros Hle H i Hi. apply H. lia. Qed.

Lemma calls_ret {A} (a : A) : calls 0 (ret a).
Proof.
  intros g. split; [|reflexivity].
  unfold advance, ret. cbn [snd]. rewrite Nat.add_0_r. destruct g; reflexivity.
Qed.

Lemma calls_bind {A B} (n k : nat) (m : Rand A) (f : A -> Rand B) :
  calls n m -> (forall a, calls k (f a)) -> calls (n + k) (bind m f).
Proof.
  intros Hm Hf g. rewrite bind_run. destruct (Hm g) as [Hs Hv].
  destruct (Hf (fst (m g)) (snd (m g))) as [Hs' Hv'].
  split.
  - rewrite Hs', Hs. apply advance_advance.
  - intros g' Hw. rewrite bind_run.
    rewrite <- (Hv g' (same_window_le n (n + k) g g' ltac:(lia) Hw)).
    rewrite Hs, (proj1 (Hm g')).
    destruct (Hf (fst (m g)) (advance n g)) as [_ Hv''].
    apply Hv''. apply same_window_advance. exact Hw.
Qed.

Lemma calls_draw : calls 1 draw.
Proof.
  intros g. split.
  - unfold draw, advance. cbn [snd raw used]. rewrite Nat.add_1_r. reflexivity.
  - intros g' Hw. unfold draw. cbn [fst].
    specialize (Hw 0%nat ltac:(lia)). rewrite !Nat.add_0_r in Hw. exact Hw.
Qed.

Lemma calls_randbelow (n : Z) : calls 1 (randbelow n).
Proof. exact (calls_bind 1 0 _ _ calls_draw (fun r => calls_ret _)). Qed.

Lemma calls_random : calls 1 random.
Proof. exact (calls_bind 1 0 _ _ calls_draw (fun r => calls_ret _)). Qed.

Lemma calls_randint (a b : Z) : calls 1 (randint a b).
Proof. exact (calls_bind 1 0 _ _ (calls_randbelow _) (fun r => calls_ret _)). Qed.

Lemma calls_uniform (a b : Q) : calls 1 (uniform a b).
Proof. exact (calls_bind 1 0 _ _ calls_random (fun r => calls_ret _)). Qed.

Lemma calls_choice {A} (x : A) (xs : list A) : calls 1 (choice x xs).
Proof. exact (calls_bind 1 0 _ _ (calls_randbelow _) (fun r => calls_ret _)). Qed.

Lemma calls_new_asset (today : Z) (eq_type : string) (id_counter : Z) :
  calls 9 (new_asset today eq_type id_counter).
Proof.
  unfold new_asset.
  apply (calls_bind 1 8); [apply calls_choice | intros zone].
  apply (calls_bind 1 7); [apply calls_randint | intros age].
  apply (calls_bind 1 6); [apply calls_randint | intros days].
  apply (calls_bind 1 5); [apply calls_uniform | intros degradation].
  apply (calls_bind 1 4); [apply calls_choice | intros status].
  apply (calls_bind 1 3); [apply calls_uniform | intros vibration].
  apply (calls_bind 1 2); [apply calls_uniform | intros temperature].
  apply (calls_bind 1 1); [apply calls_uniform | intros corrosion].
  apply (calls_bind 1 0); [apply calls_randint | intros rul].
  apply calls_ret.
Qed.

Lemma calls_append_assets (today : Z) (eq_type : string) (count : nat) :
  forall assets id_counter,
    calls (9 * count) (append_assets today eq_type count assets id_counter).
Proof.
  induction count as [|count IH]; intros assets id_counter.
  - apply calls_ret.
  - cbn [append_assets].
    replace (9 * S count)%nat with (9 + 9 * count)%nat by lia.
    apply calls_bind; [apply calls_new_asset | intros a; apply IH].
Qed.

Lemma calls_each_type (today : Z) (types : list (string * nat)) :
  forall assets id_counter,
    calls (9 * list_sum (map snd types))
          (each_type today types assets id_counter).
Proof.
  induction types as [|[eq_type count] types IH]; intros assets id_counter.
  - apply calls_ret.
  - cbn [each_type].
    replace (9 * list_sum (map snd ((eq_type, count) :: types)))%nat
      with (9 * count + 9 * list_sum (map snd types))%nat
      by (unfold list_sum; cbn [map snd fold_right]; lia).
    apply calls_bind; [apply calls_append_assets | intros st; apply IH].
Qed.

Lemma calls_get_equipment_cost (eq_type : string) :
  calls 10 (get_equipment_cost eq_type).
Proof.
  unfold get_equipment_cost.
  apply (calls_bind 1 9); [apply calls_randint | intros pump].
  apply (calls_bind 1 8); [apply calls_randint | intros compressor].
  apply (calls_bind 1 7); [apply calls_randint | intros turbine].
  apply (calls_bind 1 6); [apply calls_randint | intros tank].
  apply (calls_bind 1 5); [apply calls_randint | intros sensor].
  apply (calls_bind 1 4); [apply calls_randint | intros pipeline].
  apply (calls_bind 1 3); [apply calls_randint | intros motor].
  apply (calls_bind 1 2); [apply calls_randint | intros control_panel].
  apply (calls_bind 1 1); [apply calls_randint | intros heat_exchanger].
  apply (calls_bind 1 0); [apply calls_randint | intros vessel].
  apply calls_ret.
Qed.

(** Every value that a routine can return is the result for some element of
    the stream. *)
Lemma randbelow_onto (n v : Z) (k : nat) :
  0 <= v < n -> fst (randbelow n (mkRng (fun _ => Z.to_N v) k)) = v.
Proof.
  intros Hv. unfold randbelow. rewrite bind_run. unfold draw, ret. cbn [fst raw used].
  rewrite Z2N.id by lia. apply Z.mod_small. exact Hv.
Qed.

Lemma random_onto (v : Z) (k : nat) :
  0 <= v < 2 ^ 53 ->
  fst (random (mkRng (fun _ => Z.to_N v) k)) = Qmake v (2 ^ 53).
Proof.
  intros Hv. unfold random. rewrite bind_run. unfold draw, ret. cbn [fst raw used].
  rewrite Z2N.id by lia. rewrite Z.mod_small by exact Hv. reflexivity.
Qed.

End Calls.

(** X1: [generate_assets] calls the sampling routines of the library exactly
    1260 times, nine times per record (two [choice], three [randint], four
    [uniform]), and the table it returns depends on nothing but what these
    calls are answered.  The count is of calls, not of the words that the
    generator produces for them. *)
Theorem generate_assets_makes_1260_calls (today : Z) :
  calls 1260 (generate_assets today).
Proof.
  unfold generate_assets.
  apply (calls_bind 1260 0); [|intros st; apply calls_ret].
  exact (calls_each_type today equipment_types [] 1).
Qed.

(** X2: a cost estimate builds the whole catalog each time it is asked: it
    calls [randint] ten times whatever the type, known or not; applied to a
    column of [n] types the estimates make [10 * n] calls and depend on
    nothing but what these calls are answered. *)
Theorem cost_estimates_make_ten_calls_each (types : list string) :
  calls (10 * List.length types) (apply get_equipment_cost types).
Proof.
  induction types as [|t types IH].
  - apply calls_ret.
  - cbn [apply List.length].
    replace (10 * S (List.length types))%nat
      with (10 + (10 * List.length types + 0))%nat by lia.
    apply calls_bind; [apply calls_get_equipment_cost | intros c].
    apply calls_bind; [exact IH | intros cs; apply calls_ret].
Qed.

(** ** The fields of a record that are not numeric *)

Section GeneratorValues.

Import Random RandomFacts.
Variable today : Z.

Lemma post_choice {A} (x : A) (xs : list A) :
  post (choice x xs) (fun y => In y (x :: xs)).
Proof.
  intros g. unfold choice. rewrite bind_run. cbn [ret fst].
  destruct (nth_in_or_default (Z.to_nat (fst (randbelow (Z.of_nat (List.length (x :: xs))) g)))
              (x :: xs) x) as [H|H]; [exact H | rewrite H; left; reflexivity].
Qed.

Lemma post_new_asset_values (eq_type : string) (id_counter : Z) :
  In eq_type (map fst declared_cost_ranges) ->
  post (new_asset today eq_type id_counter) (within_declared_values today).
Proof.
  intros Hty. unfold new_asset.
  eapply post_bind; [apply (post_choice "A" ["B"; "C"; "D"])|]. intros zone Hzone.
  eapply post_bind; [apply (post_ret_any (randint 1 20))|]. intros age _.
  eapply post_bind; [apply (post_randint 30 900); lia|]. intros days Hdays.
  eapply post_bind; [apply (post_ret_any (uniform 10 90))|]. intros degradation _.
  eapply post_bind;
    [apply (post_choice "Operational" ["Under Maintenance"; "Standby"])|].
  intros status Hstatus.
  eapply post_bind; [apply (post_ret_any (uniform 0.1 5.0))|]. intros vibration _.
  eapply post_bind; [apply (post_ret_any (uniform 30 120))|]. intros temperature _.
  eapply post_bind; [apply (post_ret_any (uniform 0 1.0))|]. intros corrosion _.
  eapply post_bind; [apply (post_ret_any (randint 1 36))|]. intros rul _.
  apply post_ret. unfold within_declared_values.
  cbn [Location Status Last_Maintenance Type_]. cbv beta in *.
  split; [|split; [exact Hstatus | split; [lia | exact Hty]]].
  unfold zones. cbn [In] in Hzone |- *.
  destruct Hzone as [<-|[<-|[<-|[<-|[]]]]]; auto.
Qed.

Lemma append_assets_all (P : Asset -> Prop) (eq_type : string) (count : nat) :
  (forall id_counter, post (new_asset today eq_type id_counter) P) ->
  forall assets id_counter,
    Forall P assets ->
    post (append_assets today eq_type count assets id_counter)
         (fun st => Forall P (fst st)).
Proof.
  intros Hnew. induction count as [|count IH]; intros assets id_counter Hall.
  - apply post_ret. exact Hall.
  - cbn [append_assets].
    eapply post_bind; [apply Hnew|].
    intros a Ha. apply IH. apply Forall_app. split; [exact Hall|].
    constructor; [exact Ha | constructor].
Qed.

Lemma each_type_all (P : Asset -> Prop) (types : list (string * nat)) :
  (forall eq_type count id_counter,
      In (eq_type, count) types -> post (new_asset today eq_type id_counter) P) ->
  forall assets id_counter,
    Forall P assets ->
    post (each_type today types assets id_counter)
         (fun st => Forall P (fst st)).
Proof.
  induction types as [|[eq_type count] types IH]; intros Hnew assets id_counter Hall.
  - apply post_ret. exact Hall.
  - cbn [each_type].
    eapply post_bind.
    + apply append_assets_all; [|exact Hall].
      intros id. apply (Hnew eq_type count id). left. reflexivity.
    + intros st Hst. apply IH; [|exact Hst].
      intros t c id Hin. apply (Hnew t c id). right. exact Hin.
Qed.

Lemma generate_assets_all (P : Asset -> Prop) :
  (forall eq_type count id_counter,
      In (eq_type, count) equipment_types ->
      post (new_asset today eq_type id_counter) P) ->
  post (generate_assets today) (Forall P).
Proof.
  intros Hnew. unfold generate_assets.
  eapply post_bind; [apply (each_type_all P equipment_types Hnew); constructor|].
  intros st Hst. apply post_ret. exact Hst.
Qed.

End GeneratorValues.

(** X3: every generated record lies in one of the four zones, has one of the
    three statuses, was last maintained between 30 and 900 days before today,
    and has a type that the cost catalog knows. *)
Theorem generated_values_as_declared (today : Z) (g : Random.Rng) :
  Forall (within_declared_values today) (fst (generate_assets today g)).
Proof.
  apply (generate_assets_all today (within_declared_values today)).
  intros eq_type count id_counter Hin. apply post_new_asset_values.
  unfold equipment_types in Hin. cbn [In] in Hin.
  unfold declared_cost_ranges. cbn [map fst In].
  repeat (destruct Hin as [Hin|Hin]; [injection Hin as <- _; tauto|]).
  destruct Hin.
Qed.

(** ** Ranking *)

Lemma insert_desc_perm (key : Row -> Q) (r : Row) (f : Frame) :
  insert_desc key r f ≡ₚ r :: f.
Proof.
  induction f as [|r' f IH]; [reflexivity|].
  cbn [insert_desc]. destruct (Qle_bool (key r') (key r)); [reflexivity|].
  rewrite IH. apply perm_swap.
Qed.

Lemma sort_values_desc_perm (key : Row -> Q) (f : Frame) :
  sort_values_desc key f ≡ₚ f.
Proof.
  induction f as [|r f IH]; [reflexivity|].
  unfold sort_values_desc in *. cbn [fold_right].
  rewrite insert_desc_perm, IH. reflexivity.
Qed.

Lemma insert_desc_descending (key : Row -> Q) (r : Row) (f : Frame) :
  descending key f -> descending key (insert_desc key r f).
Proof.
  unfold descending. induction 1 as [|r' f Hf IH Hall].
  - cbn. constructor; constructor.
  - cbn [insert_desc]. destruct (Qle_bool (key r') (key r)) eqn:E.
    + apply Qle_bool_iff in E. constructor; [constructor; assumption|].
      constructor; [exact E|].
      eapply Forall_impl; [exact Hall|]. cbv beta.
      intros x Hx. apply Qle_trans with (key r'); assumption.
    + constructor; [exact IH|].
      rewrite insert_desc_perm. constructor; [|exact Hall].
      destruct (Qlt_le_dec (key r) (key r')) as [Hlt|Hle].
      * apply Qlt_le_weak. exact Hlt.
      * apply Qle_bool_iff in Hle. congruence.
Qed.

Lemma sort_values_desc_descending (key : Row -> Q) (f : Frame) :
  descending key (sort_values_desc key f).
Proof.
  induction f as [|r f IH]; [constructor|].
  unfold sort_values_desc in *. cbn [fold_right].
  apply insert_desc_descending. exact IH.
Qed.

Lemma descending_split (key : Row -> Q) (f1 f2 : Frame) :
  descending key (f1 ++ f2) ->
  forall a b, In a f1 -> In b f2 -> (key b <= key a)%Q.
Proof.
  unfold descending. induction f1 as [|r f1 IH]; intros Hs a b Ha Hb; [destruct Ha|].
  cbn [app] in Hs. apply StronglySorted_inv in Hs as [Hs Hall].
  destruct Ha as [<-|Ha].
  - rewrite Forall_forall in Hall. apply Hall. apply list_elem_of_In.
    apply in_or_app. right. exact Hb.
  - exact (IH Hs a b Ha Hb).
Qed.

(** X4: ranking a frame by a key rearranges its rows, loses and adds none,
    and puts them from the largest key down; so the first [n] rows of the
    ranking, the ones that the corrosion panel and the failure-mode panel keep
    with [n = 5], have keys at least as large as every row left out. *)
Theorem ranking_keeps_the_largest (key : Row -> Q) (f : Frame) (n : nat) :
  sort_values_desc key f ≡ₚ f /\
  descending key (sort_values_desc key f) /\
  List.length (head n (sort_values_desc key f)) = Nat.min n (List.length f) /\
  (forall kept left_out,
      In kept (head n (sort_values_desc key f)) ->
      In left_out (skipn n (sort_values_desc key f)) ->
      (key left_out <= key kept)%Q).
Proof.
  split; [apply sort_values_desc_perm|].
  split; [apply sort_values_desc_descending|].
  split.
  - unfold head. rewrite length_firstn, sort_values_desc_length. reflexivity.
  - intros kept left_out Hk Hl.
    apply (descending_split key (head n (sort_values_desc key f))
             (skipn n (sort_values_desc key f))); [|exact Hk|exact Hl].
    unfold head. rewrite firstn_skipn. apply sort_values_desc_descending.
Qed.

Lemma ranking_keeps_the_largest_witness :
  exists kept left_out,
    In kept (head 5 (sort_values_desc corrosion (frame_at 0 (heap after_lifespan)))) /\
    In left_out
       (skipn 5 (sort_values_desc corrosion (frame_at 0 (heap after_lifespan)))) /\
    (corrosion left_out <= corrosion kept)%Q.
Proof.
  set (ranked := sort_values_desc corrosion (frame_at 0 (heap after_lifespan))).
  assert (Hk : exists kept, In kept (head 5 ranked)).
  { destruct (head 5 ranked) as [|kept rest] eqn:E.
    - apply (f_equal (@List.length Row)) in E. vm_compute in E. discriminate.
    - exists kept. left. reflexivity. }
  assert (Hl : exists left_out, In left_out (skipn 5 ranked)).
  { destruct (skipn 5 ranked) as [|left_out rest] eqn:E.
    - apply (f_equal (@List.length Row)) in E. vm_compute in E. discriminate.
    - exists left_out. left. reflexivity. }
  destruct Hk as (kept & Hk). destruct Hl as (left_out & Hl).
  exists kept, left_out. split; [exact Hk|]. split; [exact Hl|].
  exact (proj2 (proj2 (proj2 (ranking_keeps_the_largest corrosion
                                (frame_at 0 (heap after_lifespan)) 5)))
           kept left_out Hk Hl).
Defined.

(** ** What each panel sends and shows *)









(** ** The script as a whole *)

Lemma frame_at_lookup (l : nat) (h : list Frame) (f : Frame) :
  h !! l = Some f -> frame_at l h = f.
Proof. intros H. apply (f_equal (default [])) in H. exact H. Qed.

Lemma tab5_requests env s :
  exists s',
    tab5 env s = Ok tt s' /\
    List.length (requests s') =
      (List.length (requests s) + if generate_summary_clicked env then 1 else 0)%nat.
Proof.
  unfold tab5. step. step. step.
  destruct (generate_summary_clicked env).
  - step. step.
    match goal with
    | |- context [and_then (genai_advisory ?p) _ _ ?s0] =>
        destruct (genai_advisory_run p env s0) as (text & Hrun')
    end.
    erewrite and_then_run by exact Hrun'. fields.
    eexists. split; [reflexivity|]. fields. rewrite length_app. reflexivity.
  - eexists. split; [reflexivity|]. fields. lia.
Qed.

Lemma tab6_requests (l : nat) env s :
  frame_at l (heap s) <> [] ->
  exists s',
    tab6 l env s = Ok tt s' /\
    List.length (requests s') = S (List.length (requests s)).
Proof.
  intros Hne. unfold tab6. step.
  destruct (frame_at l (heap s)) as [|r f] eqn:E; [congruence|].
  match goal with
  | |- context [and_then (sample1 ?l0) _ _ ?s0] =>
      destruct (sample1_run l0 env s0 r f E) as (sample & g' & Hin & Hrun)
  end.
  erewrite and_then_run by exact Hrun. fields.
  step. step.
  match goal with
  | |- context [and_then (genai_advisory ?p) _ _ ?s0] =>
      destruct (genai_advisory_run p env s0) as (text & Hrun')
  end.
  erewrite and_then_run by exact Hrun'. fields.
  eexists. split; [reflexivity|]. fields. rewrite length_app. cbn [List.length]. lia.
Qed.

Lemma tab8_requests (l : nat) env s :
  exists s',
    tab8 l env s = Ok tt s' /\
    List.length (requests s') =
      (List.length (requests s)
       + match critical_rows l s with [] => 0 | _ => 1 end)%nat.
Proof.
  unfold critical_rows, tab8.
  step. step. step_with mask_run. step_with rows_run. rewrite frame_at_new.
  destruct (List.filter (fun r => RUL r <=? 3) (frame_at l (heap s)))
    as [|r critical] eqn:E.
  - eexists. split; [reflexivity|]. fields. lia.
  - destruct (select_work_order_columns (r :: critical)) as (table & Ht).
    unfold project at 1. rewrite Ht. step. step.
    match goal with
    | |- context [and_then (sample1 ?l0) _ _ ?s0] =>
        destruct (sample1_run l0 env s0 r critical) as (sample & g' & Hin & Hrun);
          [apply frame_at_new|]
    end.
    erewrite and_then_run by exact Hrun. fields.
    step. step.
    match goal with
    | |- context [and_then (genai_advisory ?p) _ _ ?s0] =>
        destruct (genai_advisory_run p env s0) as (text & Hrun')
    end.
    erewrite and_then_run by exact Hrun'. fields.
    destruct (Py.contains "⚠️" text); eexists; (split; [reflexivity|]);
      fields; rewrite length_app; reflexivity.
Qed.

(** What is left of a panel's run when only the table matters. *)
Lemma table_after (panel : nat -> Script unit) (l : nat) env s s' (table : Frame) :
  In panel panels -> panel l env s = Ok tt s' ->
  heap s !! 0%nat = Some table -> heap s' !! 0%nat = Some table.
Proof.
  intros Hin Hrun H0.
  pose proof (panel_keeps_frame panel l env s 0%nat table Hin H0) as H.
  rewrite Hrun in H. exact H.
Qed.

Lemma filter_some_low (f : Frame) (n : Z) :
  Exists (fun r => RUL r <= n) f -> List.filter (fun r => RUL r <=? n) f <> [].
Proof.
  intros Hex E. apply Exists_exists in Hex as (r & Hin & Hr).
  apply list_elem_of_In in Hin.
  assert (H : In r (List.filter (fun r => RUL r <=? n) f))
    by (apply filter_In; split; [exact Hin | apply Z.leb_le; exact Hr]).
  rewrite E in H. destruct H.
Qed.

(** X9: when at least one generated record has six months or less left, the
    script runs all nine panels to the end.  It sends thirteen requests (one
    for the lifespan panel, five each for the corrosion and failure-mode
    panels, one each for the compliance panel and the cost forecast), one more
    if the summary button was clicked and one more if some record has three
    months or less left. *)
Theorem main_runs_to_the_end (env : Env) (py np : nat -> N) :
  let table := DataFrame (fst (generate_assets (today env) (Random.mkRng py 0))) in
  Exists (fun r => RUL r <= 6) table ->
  exists s',
    main env (startup py np) = Ok tt s' /\
    List.length (requests s') =
      (13 + (if generate_summary_clicked env then 1 else 0)
          + (if existsb (fun r => (RUL r <=? 3)%Z) table then 1 else 0))%nat.
Proof.
  cbv zeta.
  pose proof (generate_assets_length (today env) (Random.mkRng py 0)) as Hlen.
  destruct (main_prefix_run env py np
              (fun assets_df =>
                 tab2 assets_df ;;; tab3 assets_df ;;; tab4 assets_df ;;; tab5 ;;;
                 tab6 assets_df ;;; tab7 assets_df ;;; tab8 assets_df))
    as (pg & Hmain).
  unfold main. rewrite Hmain. clear Hmain.
  destruct (generate_assets (today env) (Random.mkRng py 0)) as [assets g'].
  cbn [fst snd] in *.
  set (table := DataFrame assets).
  assert (Hfive : (5 <= List.length table)%nat)
    by (unfold table, DataFrame; rewrite length_map, Hlen; lia).
  intros Hex.
  assert (Hin : forall panel, In panel panels_before_work_order -> In panel panels).
  { unfold panels, panels_before_work_order. cbn [In]. intros panel H. tauto. }
  set (s1 := mkState g' (Random.mkRng np 0) [table] None pg []).
  assert (H1 : heap s1 !! 0%nat = Some table) by reflexivity.
  (* lifespan *)
  destruct (tab2_nonempty 0%nat env s1) as (sample & s2 & _ & R2 & Q2 & P2 & _).
  { rewrite (frame_at_lookup _ _ _ H1). apply filter_some_low. exact Hex. }
  pose proof (table_after tab2 _ _ _ _ _ ltac:(apply Hin; cbn; tauto) R2 H1) as H2.
  (* corrosion, failure mode *)
  destruct (tab3_bound 0%nat env s2 _ P2) as (s3 & R3 & Q3 & P3 & _).
  pose proof (table_after tab3 _ _ _ _ _ ltac:(apply Hin; cbn; tauto) R3 H2) as H3.
  destruct (tab4_bound 0%nat env s3 _ P3) as (s4 & R4 & Q4 & _).
  pose proof (table_after tab4 _ _ _ _ _ ltac:(apply Hin; cbn; tauto) R4 H3) as H4.
  rewrite top5_of_five in Q3 by (rewrite (frame_at_lookup _ _ _ H2); exact Hfive).
  rewrite top5_of_five in Q4 by (rewrite (frame_at_lookup _ _ _ H3); exact Hfive).
  (* field report, compliance, cost forecast, work orders *)
  destruct (tab5_requests env s4) as (s5 & R5 & Q5).
  pose proof (table_after (fun _ => tab5) 0%nat _ _ _ _
                ltac:(apply Hin; cbn; tauto) R5 H4) as H5.
  destruct (tab6_requests 0%nat env s5) as (s6 & R6 & Q6).
  { rewrite (frame_at_lookup _ _ _ H5). intros E. rewrite E in Hfive.
    cbn in Hfive. lia. }
  pose proof (table_after tab6 _ _ _ _ _ ltac:(apply Hin; cbn; tauto) R6 H5) as H6.
  destruct (tab7_run 0%nat env s6) as (s7 & R7 & Q7).
  { unfold due_for_replacement. rewrite (frame_at_lookup _ _ _ H6).
    apply filter_some_low. exact Hex. }
  pose proof (table_after tab7 _ _ _ _ _ ltac:(apply Hin; cbn; tauto) R7 H6) as H7.
  destruct (tab8_requests 0%nat env s7) as (s8 & R8 & Q8).
  exists s8. split.
  - erewrite and_then_run by exact R2.
    erewrite and_then_run by exact R3.
    erewrite and_then_run by exact R4.
    erewrite and_then_run by exact R5.
    erewrite and_then_run by exact R6.
    erewrite and_then_run by exact R7.
    exact R8.
  - rewrite Q8, Q7, length_app, Q6, Q5, Q4, length_app, Q3, length_app, Q2.
    unfold critical_rows. rewrite (frame_at_lookup _ _ _ H7).
    assert (Hc : match List.filter (fun r => RUL r <=? 3) table with
                 | [] => 0%nat | _ => 1%nat end
                 = if existsb (fun r => RUL r <=? 3) table then 1%nat else 0%nat).
    { clear. induction table as [|r f IH]; [reflexivity|].
      cbn [List.filter existsb]. destruct (RUL r <=? 3); [reflexivity | exact IH]. }
    rewrite Hc, !length_app, !repeat_length. subst s1. cbn [List.length requests].
    destruct (generate_summary_clicked env),
             (existsb (fun r => RUL r <=? 3) table); lia.
Qed.

Lemma main_runs_to_the_end_witness :
  Exists (fun r => RUL r <= 6)
         (DataFrame (fst (generate_assets 20000 (Random.mkRng sample_draws 0)))) /\
  exists s',
    main answering (startup sample_draws sample_draws) = Ok tt s' /\
    List.length (requests s') = 14%nat.
Proof.
  assert (H : Exists (fun r => RUL r <= 6)
                (DataFrame (fst (generate_assets 20000
                                   (Random.mkRng sample_draws 0)))))
    by (apply (bool_decide_unpack _); vm_compute; exact I).
  split; [exact H|].
  destruct (main_runs_to_the_end answering sample_draws sample_draws H)
    as (s' & Hrun & Hreq).
  exists s'. split; [exact Hrun|]. rewrite Hreq. vm_compute. reflexivity.
Defined.

(** ** More on the cost forecast *)

Lemma get_equipment_cost_known (eq_type : string) (g : Random.Rng) :
  In eq_type (map fst declared_cost_ranges) ->
  in_declared_range eq_type (fst (get_equipment_cost eq_type g)).
Proof.
  intros Hin.
  destruct (get_equipment_cost_post eq_type g)
    as (pump & compressor & turbine & tank & sensor & pipeline & motor
        & control_panel & heat_exchanger & vessel & Hr & ->).
  unfold in_declared_range, declared_cost_ranges in *. cbn [map fst In] in Hin.
  repeat (destruct Hin as [<-|Hin];
          [ cbn [list_to_map foldr fst snd uncurry]; simplify_map_eq;
            eexists _, _; split; [cbn [In]; eauto 12 | lia] | ]).
  destruct Hin.
Qed.

(** X10: in the cost forecast over a frame whose rows all have a type that
    the catalog knows, as every generated row has, each row's estimate lies in
    the range declared for its type, and the total for [n] rows lies between
    [500 * n] and [120000 * n]. *)
Theorem forecast_costs_within_ranges (assets_df : nat) (s : State) :
  let low := due_for_replacement assets_df s in
  let costs := cost_samples (map (fun r => Type_ (asset r)) low) (py_random s) in
  Forall known_type (frame_at assets_df (heap s)) ->
  Forall2 (fun r c => in_declared_range (Type_ (asset r)) c) low costs /\
  500 * Z.of_nat (List.length low) <= foldr Z.add 0 costs
    <= 120000 * Z.of_nat (List.length low).
Proof.
  cbv zeta. unfold due_for_replacement. intros Hknown.
  assert (Hlow : Forall known_type
                   (List.filter (fun r => RUL r <=? 6) (frame_at assets_df (heap s)))).
  { rewrite Forall_forall in *. intros r Hr. apply Hknown.
    apply list_elem_of_In in Hr. apply filter_In in Hr as [Hr _].
    apply list_elem_of_In. exact Hr. }
  clear Hknown.
  generalize (py_random s) as g.
  induction Hlow as [|r low Hr _ IH]; intros g.
  - split; [constructor | cbn; lia].
  - cbn [map cost_samples foldr List.length].
    destruct (IH (snd (get_equipment_cost (Type_ (asset r)) g))) as [IH1 IH2].
    pose proof (get_equipment_cost_known _ g Hr) as Hc.
    split; [constructor; assumption|].
    destruct Hc as (lo & hi & Hin & Hc).
    assert (500 <= lo /\ hi <= 120000).
    { unfold declared_cost_ranges in Hin. cbn [In] in Hin.
      repeat (destruct Hin as [Hin|Hin]; [injection Hin as _ <- <-; lia|]).
      destruct Hin. }
    lia.
Qed.

Lemma forecast_costs_within_ranges_witness :
  Forall known_type (frame_at 0 (heap after_lifespan)) /\
  500 * 21 <= foldr Z.add 0
                (cost_samples (map (fun r => Type_ (asset r))
                                   (due_for_replacement 0 after_lifespan))
                              (py_random after_lifespan))
           <= 120000 * 21.
Proof.
  assert (H : Forall known_type (frame_at 0 (heap after_lifespan))).
  { unfold known_type. apply Forall_forall. intros r Hr.
    assert (Hb : forallb (fun r => bool_decide (In (Type_ (asset r))
                                     (map fst declared_cost_ranges)))
                         (frame_at 0 (heap after_lifespan)) = true)
      by (vm_compute; reflexivity).
    rewrite forallb_forall in Hb. apply list_elem_of_In in Hr.
    specialize (Hb r Hr). apply bool_decide_eq_true in Hb. exact Hb. }
  split; [exact H|].
  pose proof (proj2 (forecast_costs_within_ranges 0 after_lifespan H)) as Hb.
  assert (Hn : Z.of_nat (List.length (due_for_replacement 0 after_lifespan)) = 21)
    by (vm_compute; reflexivity).
  rewrite Hn in Hb. exact Hb.
Defined.

Lemma set_columns_zip (today : Z) (low : Frame) :
  forall costs, List.length costs = List.length low ->
    set_replace_by today (set_replacement_cost low costs)
    = forecast_frame today low costs.
Proof.
  induction low as [|r low IH]; intros [|c costs] Hlen; try discriminate.
  - reflexivity.
  - rewrite set_columns_cons. unfold forecast_frame in *. cbn [zip_with].
    rewrite IH by (cbn in Hlen; lia). reflexivity.
Qed.



(** ** A failing endpoint on the page *)

Lemma genai_advisory_text (p : string) env s :
  genai_advisory p env s = Ok (reply_text env (List.length (requests s)) p) (sent p s).
Proof.
  unfold genai_advisory, reply_text, advisory_request.
  destruct (first_content_stripped _); reflexivity.
Qed.

Lemma reply_text_down env (e : Py.Exn) (n : nat) (p : string) :
  always_raises env e -> reply_text env n p = "⚠️ GenAI Error: " +:+ Py.exn_str e.
Proof. intros H. unfold reply_text. rewrite H. reflexivity. Qed.

Lemma failure_text_has_marker (msg : string) :
  Py.contains "⚠️" ("⚠️ GenAI Error: " +:+ msg) = true.
Proof. apply PyFacts.contains_prefix. reflexivity. Qed.

(** The loop of the two ranked panels when every call raises: a header and
    the failure text for each row. *)
Lemma advisory_loop_down (c : Container) (header : Row -> string)
    (widget : string -> Widget) (p : string) (e : Py.Exn) (top5 : list Row) env :
  always_raises env e ->
  forall s,
    prompt s = Some p ->
    exists s',
      for_each top5 (fun row =>
        show c (st_markdown (header row)) ;;;
        p <- read_prompt ;;
        advisory <- genai_advisory p ;;
        show c (widget advisory)) env s = Ok tt s' /\
      page s' =
        page s ++
        flat_map (fun row =>
                    [ (c, st_markdown (header row));
                      (c, widget ("⚠️ GenAI Error: " +:+ Py.exn_str e)) ]) top5.
Proof.
  intros Hdown. induction top5 as [|row top5 IH]; intros s Hp.
  - exists s. cbn [for_each flat_map]. rewrite app_nil_r. split; reflexivity.
  - cbn [for_each]. unfold and_then at 1 2. cbn [show].
    unfold and_then at 1, read_prompt at 1. cbn [prompt]. rewrite Hp.
    unfold and_then at 1.
    rewrite genai_advisory_text, (reply_text_down env e _ _ Hdown).
    cbn [show sent]. fields.
    match goal with
    | |- context [for_each _ _ _ ?s0] =>
        destruct (IH s0 eq_refl) as (s' & Hrun & Hpage)
    end.
    exists s'. split; [exact Hrun|]. rewrite Hpage. fields.
    cbn [flat_map]. rewrite <- !app_assoc. reflexivity.
Qed.

(** X12: when every call to the endpoint raises, every panel that asks for
    an advisory still ends normally (the two ranked panels provided [prompt]
    is bound) and shows the warning marker followed by the message of the
    exception, in the widget it uses for any advisory: information for the
    lifespan panel and the compliance panel, a warning for each ranked row of
    the corrosion panel, an error for each ranked row of the failure-mode
    panel, a success for the field report and for the cost forecast.  The
    work-order panel shows it as an error, the branch it takes for a text
    with the marker. *)
Theorem failing_endpoint_on_the_page (assets_df : nat) (env : Env) (s : State)
    (e : Py.Exn) :
  always_raises env e ->
  let text := "⚠️ GenAI Error: " +:+ Py.exn_str e in
  (due_for_replacement assets_df s <> [] ->
   (exists s', tab2 assets_df env s = Ok tt s' /\
               last (page s') = Some (Tab 2, st_info text)) /\
   (exists s', tab7 assets_df env s = Ok tt s' /\
               last (page s') = Some (Tab 7, st_success text))) /\
  (prompt s <> None ->
   (exists s',
      tab3 assets_df env s = Ok tt s' /\
      page s' =
        page s ++
        [ (Tab 3, st_subheader "🧪 Corrosion Trend Simulator");
          (Tab 3, st_pyplot "Top Corroding Assets" "Asset ID" "Corrosion Level"
                    (map (fun r => (Asset_ID (asset r), Corrosion_Level (asset r)))
                         (top5_by corrosion assets_df (heap s)))) ] ++
        flat_map (fun row =>
                    [ (Tab 3, st_markdown ("**Corrosion Summary for "
                                           +:+ Asset_ID (asset row) +:+ "**"));
                      (Tab 3, st_warning text) ])
                 (top5_by corrosion assets_df (heap s))) /\
   (exists s',
      tab4 assets_df env s = Ok tt s' /\
      page s' =
        page s ++
        flat_map (fun row =>
                    [ (Tab 4, st_markdown ("**Failure Mode Prediction for "
                                           +:+ Asset_ID (asset row) +:+ "**"));
                      (Tab 4, st_error text) ])
                 (top5_by degradation assets_df (heap s)))) /\
  (generate_summary_clicked env = true ->
   exists s', tab5 env s = Ok tt s' /\
              last (page s') = Some (Tab 5, st_success text)) /\
  (frame_at assets_df (heap s) <> [] ->
   exists s', tab6 assets_df env s = Ok tt s' /\
              last (page s') = Some (Tab 6, st_info text)) /\
  (critical_rows assets_df s <> [] ->
   exists s', tab8 assets_df env s = Ok tt s' /\
              last (page s') = Some (Tab 8, st_error text)).
Proof.
  intros Hdown. cbv zeta.
  split; [|split; [|split; [|split]]].
  - unfold due_for_replacement. intros Hlow. split.
    + unfold tab2.
      step. step_with mask_run. step. step_with rows_run. rewrite frame_at_new.
      destruct (List.filter (fun r => RUL r <=? 6) (frame_at assets_df (heap s)))
        as [|r low] eqn:E; [congruence|].
      step.
      match goal with
      | |- context [and_then (sample1 ?l0) _ _ ?s0] =>
          destruct (sample1_run l0 env s0 r low) as (sample & g' & Hin & Hrun);
            [apply frame_at_new|]
      end.
      erewrite and_then_run by exact Hrun. fields.
      step. step. step_with genai_advisory_text.
      rewrite (reply_text_down env e _ _ Hdown). step.
      eexists. split; [reflexivity|]. fields. apply last_snoc.
    + unfold tab7.
      step. step_with mask_run. step_with rows_run. rewrite frame_at_new.
      destruct (List.filter (fun r => RUL r <=? 6) (frame_at assets_df (heap s)))
        as [|r low] eqn:E; [congruence|].
      set (rows6 := r :: low) in *.
      step_with @rand_run. rewrite apply_cost_samples.
      set (costs := cost_samples (map (fun r => Type_ (asset r)) rows6) (py_random s)).
      assert (Hlen : List.length costs = List.length rows6)
        by (unfold costs; rewrite cost_samples_length, length_map; reflexivity).
      assert (Hl : (List.length (heap s) < List.length (heap s ++ [rows6]))%nat)
        by (rewrite length_app; cbn [List.length]; lia).
      step. step_with rows_run. rewrite frame_at_store by exact Hl.
      step. step_with rows_run.
      rewrite frame_at_store by (rewrite length_insert; exact Hl).
      destruct (select_costs (today env)
                  ["Asset ID"; "Type"; "Location"; "RUL (months)";
                   "Replacement Cost ($)"; "Replace By"] rows6
                  ltac:(intros; eexists; reflexivity) costs Hlen) as (table & Ht).
      unfold project at 1. rewrite Ht. step. step.
      rewrite (int_column_costs (today env) rows6 costs Hlen).
      step. step. step_with genai_advisory_text.
      rewrite (reply_text_down env e _ _ Hdown).
      eexists. split; [reflexivity|]. fields. apply last_snoc.
  - intros Hbound. destruct (prompt s) as [p|] eqn:Hp; [clear Hbound|congruence].
    split.
    + unfold tab3.
      step. step_with top_run. step_with rows_run. rewrite frame_at_new2. step.
      match goal with
      | |- context [for_each _ _ _ ?s0] =>
          destruct (advisory_loop_down (Tab 3)
                      (fun row => "**Corrosion Summary for "
                                  +:+ Asset_ID (asset row) +:+ "**")
                      st_warning p e (top5_by corrosion assets_df (heap s)) env
                      Hdown s0 Hp)
            as (s' & Hrun & Hpage)
      end.
      exists s'. split; [exact Hrun|]. rewrite Hpage. fields.
      rewrite <- !app_assoc. reflexivity.
    + unfold tab4.
      step_with top_run. step_with rows_run. rewrite frame_at_new2.
      match goal with
      | |- context [for_each _ _ _ ?s0] =>
          destruct (advisory_loop_down (Tab 4)
                      (fun row => "**Failure Mode Prediction for "
                                  +:+ Asset_ID (asset row) +:+ "**")
                      st_error p e (top5_by degradation assets_df (heap s)) env
                      Hdown s0 Hp)
            as (s' & Hrun & Hpage)
      end.
      exists s'. split; [exact Hrun|]. rewrite Hpage. fields. reflexivity.
  - intros Hclicked. unfold tab5. step. step. step. rewrite Hclicked.
    step. step. step_with genai_advisory_text.
    rewrite (reply_text_down env e _ _ Hdown).
    eexists. split; [reflexivity|]. fields. apply last_snoc.
  - intros Hne. unfold tab6. step.
    destruct (frame_at assets_df (heap s)) as [|r f] eqn:E; [congruence|].
    match goal with
    | |- context [and_then (sample1 ?l0) _ _ ?s0] =>
        destruct (sample1_run l0 env s0 r f E) as (sample & g' & Hin & Hrun)
    end.
    erewrite and_then_run by exact Hrun. fields.
    step. step. step_with genai_advisory_text.
    rewrite (reply_text_down env e _ _ Hdown).
    eexists. split; [reflexivity|]. fields. apply last_snoc.
  - unfold critical_rows. intros Hne. unfold tab8.
    step. step. step_with mask_run. step_with rows_run. rewrite frame_at_new.
    destruct (List.filter (fun r => RUL r <=? 3) (frame_at assets_df (heap s)))
      as [|r critical] eqn:E; [congruence|].
    destruct (select_work_order_columns (r :: critical)) as (table & Ht).
    unfold project at 1. rewrite Ht. step. step.
    match goal with
    | |- context [and_then (sample1 ?l0) _ _ ?s0] =>
        destruct (sample1_run l0 env s0 r critical) as (sample & g' & Hin & Hrun);
          [apply frame_at_new|]
    end.
    erewrite and_then_run by exact Hrun. fields.
    step. step. step_with genai_advisory_text.
    rewrite (reply_text_down env e _ _ Hdown), failure_text_has_marker.
    eexists. split; [reflexivity|]. fields. apply last_snoc.
Qed.

Lemma failing_endpoint_on_the_page_witness :
  always_raises endpoint_down (Py.mkExn "APIConnectionError" "Connection error.") /\
  prompt after_lifespan <> None /\
  critical_rows 0 after_lifespan <> [] /\
  (exists s', tab4 0 endpoint_down after_lifespan = Ok tt s') /\
  (exists s', tab8 0 endpoint_down after_lifespan = Ok tt s' /\
              last (page s') =
                Some (Tab 8, st_error "⚠️ GenAI Error: Connection error.")).
Proof.
  assert (Hd : always_raises endpoint_down
                 (Py.mkExn "APIConnectionError" "Connection error."))
    by (intros n model messages; reflexivity).
  assert (Hp : prompt after_lifespan <> None) by (vm_compute; discriminate).
  assert (Hne : critical_rows 0 after_lifespan <> []) by (vm_compute; discriminate).
  pose proof (failing_endpoint_on_the_page 0 endpoint_down after_lifespan _ Hd)
    as (_ & Hranked & _ & _ & Hwork).
  split; [exact Hd|]. split; [exact Hp|]. split; [exact Hne|]. split.
  - destruct (proj2 (Hranked Hp)) as (s' & Hrun & _). exists s'. exact Hrun.
  - exact (Hwork Hne).
Defined.

(** ** Replies do not feed back *)

Section Aloof.

Variable env : Env.
Variable create' : nat -> string -> list (string * string) -> Reply.

Local Abbreviation aloof' := (aloof env create').

Lemma agree_refl (s : State) : agree s s.
Proof. repeat split. Qed.

Lemma aloof_bind {A B} (R : A -> A -> Prop) (S : B -> B -> Prop)
    (m1 m2 : Script A) (k1 k2 : A -> Script B) :
  aloof' R m1 m2 -> (forall a1 a2, R a1 a2 -> aloof' S (k1 a1) (k2 a2)) ->
  aloof' S (and_then m1 k1) (and_then m2 k2).
Proof.
  intros Hm Hk s1 s2 Hs. unfold and_then. specialize (Hm s1 s2 Hs).
  unfold same_outcome in Hm.
  destruct (m1 env s1) as [a1 s1'|e1 s1'],
           (m2 (with_endpoint env create') s2) as [a2 s2'|e2 s2'];
    try contradiction.
  - destruct Hm as [Ha Hs']. exact (Hk a1 a2 Ha s1' s2' Hs').
  - exact Hm.
Qed.

Lemma aloof_pure {A} (R : A -> A -> Prop) (a1 a2 : A) :
  R a1 a2 -> aloof' R (pure a1) (pure a2).
Proof. intros Ha s1 s2 Hs. split; assumption. Qed.

Lemma aloof_raise {A} (R : A -> A -> Prop) (e : Py.Exn) :
  aloof' R (raise e) (raise e).
Proof. intros s1 s2 Hs. split; [reflexivity | exact Hs]. Qed.

Lemma aloof_ask : aloof' same_inputs ask ask.
Proof. intros s1 s2 Hs. split; [repeat split | exact Hs]. Qed.

(** What is shown plays no part. *)
Lemma aloof_show (c1 c2 : Container) (w1 w2 : Widget) :
  aloof' eq (show c1 w1) (show c2 w2).
Proof.
  intros s1 s2 (Hpy & Hnp & Hh & Hp & Hr). unfold show.
  split; [reflexivity|]. unfold agree. fields. repeat split; assumption.
Qed.

Lemma aloof_rows (l : nat) : aloof' eq (rows l) (rows l).
Proof.
  intros s1 s2 Hs. unfold rows. split; [|exact Hs].
  destruct Hs as (_ & _ & Hh & _). rewrite Hh. reflexivity.
Qed.

Lemma aloof_alloc (f : Frame) : aloof' eq (alloc f) (alloc f).
Proof.
  intros s1 s2 (Hpy & Hnp & Hh & Hp & Hr). unfold alloc.
  split; [rewrite Hh; reflexivity|]. unfold agree. fields.
  rewrite Hh. repeat split; assumption.
Qed.

Lemma aloof_store (l : nat) (f : Frame) : aloof' eq (store l f) (store l f).
Proof.
  intros s1 s2 (Hpy & Hnp & Hh & Hp & Hr). unfold store.
  split; [reflexivity|]. unfold agree. fields.
  rewrite Hh. repeat split; assumption.
Qed.

Lemma aloof_assign_prompt (p : string) :
  aloof' eq (assign_prompt p) (assign_prompt p).
Proof.
  intros s1 s2 (Hpy & Hnp & Hh & Hp & Hr). unfold assign_prompt.
  split; [reflexivity|]. unfold agree. fields. repeat split; assumption.
Qed.

Lemma aloof_read_prompt : aloof' eq read_prompt read_prompt.
Proof.
  intros s1 s2 Hs. unfold read_prompt.
  destruct Hs as (Hpy & Hnp & Hh & Hp & Hr). rewrite Hp.
  destruct (prompt s2) eqn:E; (split; [reflexivity|]);
    unfold agree; rewrite ?E; repeat split; assumption.
Qed.

Lemma aloof_rand {A} (m : Random.Rand A) : aloof' eq (rand m) (rand m).
Proof.
  intros s1 s2 (Hpy & Hnp & Hh & Hp & Hr). unfold rand. rewrite Hpy.
  destruct (m (py_random s2)). split; [reflexivity|]. unfold agree. fields.
  repeat split; assumption.
Qed.

Lemma aloof_np_rand {A} (m : Random.Rand A) : aloof' eq (np_rand m) (np_rand m).
Proof.
  intros s1 s2 (Hpy & Hnp & Hh & Hp & Hr). unfold np_rand. rewrite Hnp.
  destruct (m (np_random s2)). split; [reflexivity|]. unfold agree. fields.
  repeat split; assumption.
Qed.

(** The two replies need not have anything in common. *)
Lemma aloof_genai_advisory (p : string) :
  aloof' (fun _ _ => True) (genai_advisory p) (genai_advisory p).
Proof.
  intros s1 s2 (Hpy & Hnp & Hh & Hp & Hr). unfold genai_advisory.
  destruct (first_content_stripped _), (first_content_stripped _);
    (split; [exact I|]); unfold agree; fields; rewrite Hr;
    repeat split; assumption.
Qed.

Lemma aloof_for_each {A} (xs : list A) (body1 body2 : A -> Script unit) :
  (forall x, aloof' eq (body1 x) (body2 x)) ->
  aloof' eq (for_each xs body1) (for_each xs body2).
Proof.
  intros Hbody. induction xs as [|x xs IH]; cbn [for_each].
  - apply aloof_pure. reflexivity.
  - eapply aloof_bind; [apply Hbody|]. intros _ _ _. exact IH.
Qed.

(** A widget chosen by looking at the reply. *)
Lemma aloof_show_either (b1 b2 : bool) (c : Container) (w1 w2 w3 w4 : Widget) :
  aloof' eq (if b1 then show c w1 else show c w2)
            (if b2 then show c w3 else show c w4).
Proof. destruct b1, b2; apply aloof_show. Qed.

End Aloof.

Create HintDb aloof.
#[local] Hint Resolve aloof_ask aloof_rows aloof_alloc aloof_store aloof_assign_prompt
  aloof_read_prompt aloof_rand aloof_np_rand aloof_genai_advisory aloof_raise
  aloof_show aloof_show_either : aloof.

Ltac aloof_tac :=
  repeat first
    [ progress intros
    | progress subst
    | match goal with
      | H : same_inputs _ _ |- _ => destruct H as (? & ? & ?)
      | H : today ?e1 = today ?e2 |- context [today ?e1] => rewrite H
      | H : technician_notes ?e1 = _ |- context [technician_notes ?e1] => rewrite H
      | H : generate_summary_clicked ?e1 = _
        |- context [generate_summary_clicked ?e1] => rewrite H
      end
    | solve [eauto with aloof]
    | apply aloof_pure; reflexivity
    | apply aloof_for_each
    | eapply aloof_bind; [solve [eauto with aloof] | ]
    | match goal with
      | |- aloof _ _ _ (match ?x with _ => _ end) (match ?x with _ => _ end) =>
          destruct x
      end ].

Lemma aloof_mask env create' (l : nat) (p : Row -> bool) :
  aloof env create' eq (mask l p) (mask l p).
Proof. unfold mask. aloof_tac. Qed.

Lemma aloof_top env create' (l : nat) (key : Row -> Q) (n : nat) :
  aloof env create' eq (top l key n) (top l key n).
Proof. unfold top. aloof_tac. Qed.

Lemma aloof_sample1 env create' (l : nat) :
  aloof env create' eq (sample1 l) (sample1 l).
Proof. unfold sample1. aloof_tac. Qed.

Lemma aloof_project env create' (cols : list string) (f : Frame) :
  aloof env create' eq (project cols f) (project cols f).
Proof. unfold project. aloof_tac. Qed.

#[local] Hint Resolve aloof_mask aloof_top aloof_sample1 aloof_project : aloof.

Lemma aloof_panel env create' (panel : nat -> Script unit) (assets_df : nat) :
  In panel panels ->
  aloof env create' eq (panel assets_df) (panel assets_df).
Proof.
  unfold panels. cbn [In].
  intros [<-|[<-|[<-|[<-|[<-|[<-|[<-|[<-|[<-|[]]]]]]]]]].
  - unfold tab0. aloof_tac.
  - unfold tab1. aloof_tac.
  - unfold tab2. aloof_tac.
  - unfold tab3. aloof_tac.
  - unfold tab4. aloof_tac.
  - unfold tab5. aloof_tac.
  - unfold tab6. aloof_tac.
  - unfold tab7. aloof_tac.
  - unfold tab8. aloof_tac.
Qed.



(** ** The variant script *)

Lemma ported_same {A} (m : Script A) :
  (forall e1 e2 s, m e1 s = m e2 s) -> ported m m.
Proof. intros H env s. apply H. Qed.

Lemma ported_bind {A B} (m1 m2 : Script A) (k1 k2 : A -> Script B) :
  ported m1 m2 -> (forall a, ported (k1 a) (k2 a)) ->
  ported (and_then m1 k1) (and_then m2 k2).
Proof.
  intros Hm Hk env s. unfold and_then. rewrite Hm.
  destruct (m2 _ s) as [a s'|e s']; [apply Hk | reflexivity].
Qed.

Lemma ported_ask_bind {A} (k1 k2 : Env -> Script A) :
  (forall e, ported (k1 e) (k2 (with_model e "gpt-3.5-turbo"))) ->
  ported (and_then ask k1) (and_then ask k2).
Proof. intros Hk env s. unfold and_then, ask. apply Hk. Qed.

Lemma ported_for_each {A} (xs : list A) (body1 body2 : A -> Script unit) :
  (forall x, ported (body1 x) (body2 x)) ->
  ported (for_each xs body1) (for_each xs body2).
Proof.
  intros Hbody. induction xs as [|x xs IH]; cbn [for_each].
  - apply ported_same. reflexivity.
  - apply ported_bind; [apply Hbody | intros _; exact IH].
Qed.

Lemma ported_genai_advisory (p : string) :
  ported (Aligned.genai_advisory p) (genai_advisory p).
Proof. intros env s. reflexivity. Qed.

Ltac ported_tac :=
  repeat first
    [ progress intros
    | match goal with
      | |- ported (Aligned.genai_advisory _) _ => apply ported_genai_advisory
      | |- ported (for_each _ _) (for_each _ _) => apply ported_for_each
      | |- ported (and_then ask _) (and_then ask _) =>
          apply ported_ask_bind; intros; cbv beta zeta;
          cbn [with_model today technician_notes generate_summary_clicked]
      | |- ported (and_then _ _) (and_then _ _) => apply ported_bind
      | |- ported (match ?x with _ => _ end) (match ?x with _ => _ end) =>
          destruct x
      | |- ported (let x := _ in _) _ => cbv zeta
      | |- ported (sample1 _) (sample1 _) => unfold sample1
      | |- ported (project _ _) (project _ _) => unfold project
      | |- ported ?m ?m => apply ported_same; reflexivity
      end ].

Lemma aligned_tab1_ported (l : nat) : ported (Aligned.tab1 l) (tab1 l).
Proof. unfold Aligned.tab1, tab1. ported_tac. Qed.

Lemma aligned_tab3_ported (l : nat) : ported (Aligned.tab3 l) (tab3 l).
Proof. unfold Aligned.tab3, tab3. ported_tac. Qed.

Lemma aligned_tab4_ported (l : nat) : ported (Aligned.tab4 l) (tab4 l).
Proof. unfold Aligned.tab4, tab4. ported_tac. Qed.

Lemma aligned_tab5_ported : ported Aligned.tab5 tab5.
Proof. unfold Aligned.tab5, tab5. ported_tac. Qed.

Lemma aligned_tab6_ported (l : nat) : ported (Aligned.tab6 l) (tab6 l).
Proof. unfold Aligned.tab6, tab6. ported_tac. Qed.

Lemma aligned_tab7_ported (l : nat) : ported (Aligned.tab7 l) (tab7 l).
Proof. unfold Aligned.tab7, tab7. ported_tac. Qed.

(** X14: from the asset register to the cost forecast, the lifespan panel
    apart, each panel of the variant script runs exactly as the panel of the
    first script does when its deployment is named gpt-3.5-turbo: same
    widgets, same requests, same frames, same draws, same outcome. *)
Theorem aligned_panels_run_as_the_first_script (assets_df : nat) (env : Env)
    (s : State) :
  let env' := with_model env "gpt-3.5-turbo" in
  Aligned.tab1 assets_df env s = tab1 assets_df env' s /\
  Aligned.tab3 assets_df env s = tab3 assets_df env' s /\
  Aligned.tab4 assets_df env s = tab4 assets_df env' s /\
  Aligned.tab5 env s = tab5 env' s /\
  Aligned.tab6 assets_df env s = tab6 assets_df env' s /\
  Aligned.tab7 assets_df env s = tab7 assets_df env' s.
Proof.
  cbv zeta.
  split; [apply aligned_tab1_ported|].
  split; [apply aligned_tab3_ported|].
  split; [apply aligned_tab4_ported|].
  split; [apply aligned_tab5_ported|].
  split; [apply aligned_tab6_ported | apply aligned_tab7_ported].
Qed.

Lemma aligned_genai_advisory_run (p : string) env s :
  exists text, Aligned.genai_advisory p env s = Ok text (sent p s).
Proof. rewrite (ported_genai_advisory p env s). apply genai_advisory_run. Qed.

Lemma aligned_tab2_empty (l : nat) env s :
  List.filter (fun r => RUL r <=? 6) (frame_at l (heap s)) = [] ->
  exists s',
    Aligned.tab2 l env s = Ok tt s' /\
    requests s' = requests s /\ prompt s' = prompt s /\
    heap s' = heap s ++ [[]].
Proof.
  intros Hlow. unfold Aligned.tab2.
  step. step_with mask_run. step. step_with rows_run. rewrite frame_at_new.
  rewrite Hlow. step.
  eexists. split; [reflexivity|]. fields. repeat split.
Qed.

Lemma aligned_tab2_nonempty (l : nat) env s :
  List.filter (fun r => RUL r <=? 6) (frame_at l (heap s)) <> [] ->
  exists sample s',
    In sample (List.filter (fun r => RUL r <=? 6) (frame_at l (heap s))) /\
    Aligned.tab2 l env s = Ok tt s' /\
    requests s' = requests s ++ [Aligned.lifespan_prompt (asset sample)] /\
    prompt s' = Some (Aligned.lifespan_prompt (asset sample)) /\
    heap s' = heap s ++ [List.filter (fun r => RUL r <=? 6) (frame_at l (heap s))].
Proof.
  intros Hlow. unfold Aligned.tab2.
  step. step_with mask_run. step. step_with rows_run. rewrite frame_at_new.
  destruct (List.filter (fun r => RUL r <=? 6) (frame_at l (heap s)))
    as [|r low] eqn:E; [congruence|].
  step.
  match goal with
  | |- context [and_then (sample1 ?l0) _ _ ?s0] =>
      destruct (sample1_run l0 env s0 r low) as (sample & g' & Hin & Hrun);
        [apply frame_at_new|]
  end.
  erewrite and_then_run by exact Hrun. fields.
  step. step.
  match goal with
  | |- context [and_then (Aligned.genai_advisory ?p) _ _ ?s0] =>
      destruct (aligned_genai_advisory_run p env s0) as (text & Hrun')
  end.
  erewrite and_then_run by exact Hrun'. fields.
  step.
  exists sample. eexists. split; [exact Hin|]. split; [reflexivity|].
  fields. repeat split.
Qed.

(** The variant up to its lifespan panel. *)
Lemma aligned_main_prefix_run env (py np : nat -> N) (rest : nat -> Script unit) :
  exists pg,
    (env' <- ask ;;
     assets <- rand (generate_assets (today env')) ;;
     assets_df <- alloc (DataFrame assets) ;;
     show Page (st_title "🏭 Asset Integrity GenAI Assistant") ;;;
     Aligned.tab0 ;;;
     Aligned.tab1 assets_df ;;;
     rest assets_df)%script env (startup py np)
    = rest 0%nat env
        (mkState (snd (generate_assets (today env) (Random.mkRng py 0)))
                 (Random.mkRng np 0)
                 [DataFrame (fst (generate_assets (today env) (Random.mkRng py 0)))]
                 None pg []).
Proof.
  step. step_with @rand_run. unfold startup. fields. step. step. step.
  match goal with
  | |- context [and_then (Aligned.tab1 ?l) _ _ ?s0] =>
      destruct (tab1_run l (with_model env "gpt-3.5-turbo") s0) as (pg & Hrun);
      rewrite <- (aligned_tab1_ported l env s0) in Hrun
  end.
  erewrite and_then_run by exact Hrun. fields.
  exists pg. reflexivity.
Qed.

Lemma tab5_appends env s :
  exists s' rest,
    tab5 env s = Ok tt s' /\ requests s' = requests s ++ rest /\
    List.length rest = if generate_summary_clicked env then 1%nat else 0%nat.
Proof.
  unfold tab5. step. step. step.
  destruct (generate_summary_clicked env).
  - step. step.
    match goal with
    | |- context [and_then (genai_advisory ?p) _ _ ?s0] =>
        destruct (genai_advisory_run p env s0) as (text & Hrun')
    end.
    erewrite and_then_run by exact Hrun'. fields.
    eexists _, [_]. split; [reflexivity|]. fields. split; reflexivity.
  - eexists _, []. split; [reflexivity|]. fields. rewrite app_nil_r.
    split; reflexivity.
Qed.

Lemma tab6_appends (l : nat) env s :
  frame_at l (heap s) <> [] ->
  exists s' p,
    tab6 l env s = Ok tt s' /\ requests s' = requests s ++ [p].
Proof.
  intros Hne. unfold tab6. step.
  destruct (frame_at l (heap s)) as [|r f] eqn:E; [congruence|].
  match goal with
  | |- context [and_then (sample1 ?l0) _ _ ?s0] =>
      destruct (sample1_run l0 env s0 r f E) as (sample & g' & Hin & Hrun)
  end.
  erewrite and_then_run by exact Hrun. fields.
  step. step.
  match goal with
  | |- context [and_then (genai_advisory ?p) _ _ ?s0] =>
      destruct (genai_advisory_run p env s0) as (text & Hrun')
  end.
  erewrite and_then_run by exact Hrun'. fields.
  eexists _, _. split; [reflexivity|]. fields. reflexivity.
Qed.

Lemma lookup_first_app (h : list Frame) (f table : Frame) :
  h !! 0%nat = Some table -> (h ++ [f]) !! 0%nat = Some table.
Proof. intros H. destruct h; [discriminate | exact H]. Qed.

(** X15: the variant script, when at least one generated record has six
    months or less left, runs to the end of its last panel, the cost
    forecast.  Its first eleven requests all carry the lifespan prompt of one
    sampled record with six months or less left: once for the lifespan panel,
    then once for every row of the corrosion panel and of the failure-mode
    panel.  Two more requests follow (compliance, cost forecast), three if
    the summary button was clicked; none is for a work order. *)
Theorem aligned_main_runs_to_the_end (env : Env) (py np : nat -> N) :
  let table := DataFrame (fst (generate_assets (today env) (Random.mkRng py 0))) in
  Exists (fun r => RUL r <= 6) table ->
  exists sample rest s',
    In sample table /\ RUL sample <= 6 /\
    Aligned.main env (startup py np) = Ok tt s' /\
    requests s' = repeat (Aligned.lifespan_prompt (asset sample)) 11 ++ rest /\
    List.length rest = (2 + if generate_summary_clicked env then 1 else 0)%nat.
Proof.
  cbv zeta.
  pose proof (generate_assets_length (today env) (Random.mkRng py 0)) as Hlen.
  destruct (aligned_main_prefix_run env py np
              (fun assets_df =>
                 Aligned.tab2 assets_df ;;; Aligned.tab3 assets_df ;;;
                 Aligned.tab4 assets_df ;;; Aligned.tab5 ;;;
                 Aligned.tab6 assets_df ;;; Aligned.tab7 assets_df))
    as (pg & Hmain).
  unfold Aligned.main. rewrite Hmain. clear Hmain.
  destruct (generate_assets (today env) (Random.mkRng py 0)) as [assets g'].
  cbn [fst snd] in *.
  set (table := DataFrame assets).
  assert (Hfive : (5 <= List.length table)%nat)
    by (unfold table, DataFrame; rewrite length_map, Hlen; lia).
  intros Hex.
  assert (Hin : forall panel, In panel panels_before_work_order -> In panel panels).
  { unfold panels, panels_before_work_order. cbn [In]. intros panel H. tauto. }
  set (env' := with_model env "gpt-3.5-turbo").
  set (s1 := mkState g' (Random.mkRng np 0) [table] None pg []).
  assert (H1 : heap s1 !! 0%nat = Some table) by reflexivity.
  (* lifespan *)
  destruct (aligned_tab2_nonempty 0%nat env s1) as (sample & s2 & Hs & R2 & Q2 & P2 & Hh2).
  { rewrite (frame_at_lookup _ _ _ H1). apply filter_some_low. exact Hex. }
  rewrite (frame_at_lookup _ _ _ H1) in Hs. apply filter_In in Hs as [Hs Hlow].
  apply Z.leb_le in Hlow.
  assert (H2 : heap s2 !! 0%nat = Some table)
    by (rewrite Hh2; apply lookup_first_app; exact H1).
  (* corrosion, failure mode *)
  destruct (tab3_bound 0%nat env' s2 _ P2) as (s3 & R3 & Q3 & P3 & _).
  pose proof (table_after tab3 _ _ _ _ _ ltac:(apply Hin; cbn; tauto) R3 H2) as H3.
  destruct (tab4_bound 0%nat env' s3 _ P3) as (s4 & R4 & Q4 & _).
  pose proof (table_after tab4 _ _ _ _ _ ltac:(apply Hin; cbn; tauto) R4 H3) as H4.
  rewrite top5_of_five in Q3 by (rewrite (frame_at_lookup _ _ _ H2); exact Hfive).
  rewrite top5_of_five in Q4 by (rewrite (frame_at_lookup _ _ _ H3); exact Hfive).
  (* field report, compliance, cost forecast *)
  destruct (tab5_appends env' s4) as (s5 & rest5 & R5 & Q5 & L5).
  pose proof (table_after (fun _ => tab5) 0%nat _ _ _ _
                ltac:(apply Hin; cbn; tauto) R5 H4) as H5.
  destruct (tab6_appends 0%nat env' s5) as (s6 & p6 & R6 & Q6).
  { rewrite (frame_at_lookup _ _ _ H5). intros E. rewrite E in Hfive.
    cbn in Hfive. lia. }
  pose proof (table_after tab6 _ _ _ _ _ ltac:(apply Hin; cbn; tauto) R6 H5) as H6.
  destruct (tab7_run 0%nat env' s6) as (s7 & R7 & Q7).
  { unfold due_for_replacement. rewrite (frame_at_lookup _ _ _ H6).
    apply filter_some_low. exact Hex. }
  subst env'. cbn [with_model generate_summary_clicked] in L5.
  rewrite <- (aligned_tab3_ported 0%nat env s2) in R3.
  rewrite <- (aligned_tab4_ported 0%nat env s3) in R4.
  rewrite <- (aligned_tab5_ported env s4) in R5.
  rewrite <- (aligned_tab6_ported 0%nat env s5) in R6.
  rewrite <- (aligned_tab7_ported 0%nat env s6) in R7.
  exists sample. eexists (rest5 ++ [p6] ++ [_]), s7.
  split; [exact Hs|]. split; [exact Hlow|]. split; [|split].
  - erewrite and_then_run by exact R2.
    erewrite and_then_run by exact R3.
    erewrite and_then_run by exact R4.
    erewrite and_then_run by exact R5.
    erewrite and_then_run by exact R6.
    exact R7.
  - rewrite Q7, Q6, Q5, Q4, Q3, Q2. subst s1. cbn [requests repeat app].
    rewrite <- !app_assoc. reflexivity.
  - rewrite length_app, L5. cbn [List.length app]. destruct (generate_summary_clicked env); reflexivity.
Qed.

Lemma aligned_main_runs_to_the_end_witness :
  Exists (fun r => RUL r <= 6)
         (DataFrame (fst (generate_assets 20000 (Random.mkRng sample_draws 0)))) /\
  exists sample rest s',
    RUL sample <= 6 /\
    Aligned.main answering (startup sample_draws sample_draws) = Ok tt s' /\
    requests s' = repeat (Aligned.lifespan_prompt (asset sample)) 11 ++ rest /\
    List.length rest = 2%nat.
Proof.
  assert (H : Exists (fun r => RUL r <= 6)
                (DataFrame (fst (generate_assets 20000
                                   (Random.mkRng sample_draws 0)))))
    by (apply (bool_decide_unpack _); vm_compute; exact I).
  split; [exact H|].
  destruct (aligned_main_runs_to_the_end answering sample_draws sample_draws H)
    as (sample & rest & s' & _ & Hlow & Hrun & Hreq & Hlen).
  exists sample, rest, s'. repeat split; assumption.
Defined.

(** X16: the variant script has the same dependency on a row with six months
    or less left.  When no generated record has one, its lifespan panel binds
    no prompt and the script stops in the corrosion panel with NameError,
    before any request has been sent. *)
Theorem aligned_main_needs_a_low_rul_row (env : Env) (py np : nat -> N) :
  let table := DataFrame (fst (generate_assets (today env) (Random.mkRng py 0))) in
  Forall (fun r => 6 < RUL r) table ->
  exists s',
    Aligned.main env (startup py np) = Raised NameError_prompt s' /\
    requests s' = [] /\ prompt s' = None.
Proof.
  cbv zeta.
  pose proof (generate_assets_length (today env) (Random.mkRng py 0)) as Hlen.
  destruct (aligned_main_prefix_run env py np
              (fun assets_df =>
                 Aligned.tab2 assets_df ;;; Aligned.tab3 assets_df ;;;
                 Aligned.tab4 assets_df ;;; Aligned.tab5 ;;;
                 Aligned.tab6 assets_df ;;; Aligned.tab7 assets_df))
    as (pg & Hmain).
  unfold Aligned.main. rewrite Hmain. clear Hmain.
  destruct (generate_assets (today env) (Random.mkRng py 0)) as [assets g'].
  cbn [fst snd] in *.
  set (table := DataFrame assets).
  intros Hall.
  assert (Hfive : (5 <= List.length table)%nat)
    by (unfold table, DataFrame; rewrite length_map, Hlen; lia).
  set (s1 := mkState g' (Random.mkRng np 0) [table] None pg []).
  assert (H1 : heap s1 !! 0%nat = Some table) by reflexivity.
  destruct (aligned_tab2_empty 0%nat env s1) as (s2 & R2 & Q2 & P2 & Hh2).
  { rewrite (frame_at_lookup _ _ _ H1). apply filter_none_low. exact Hall. }
  assert (H2 : heap s2 !! 0%nat = Some table)
    by (rewrite Hh2; apply lookup_first_app; exact H1).
  destruct (tab3_unbound 0%nat (with_model env "gpt-3.5-turbo") s2)
    as (s3 & R3 & Q3 & P3).
  { rewrite P2. reflexivity. }
  { intros E. apply (f_equal (@List.length Row)) in E.
    rewrite top5_by_length, (frame_at_lookup _ _ _ H2) in E.
    cbn [List.length] in E. lia. }
  rewrite <- (aligned_tab3_ported 0%nat env s2) in R3.
  exists s3. split; [|split].
  - erewrite and_then_run by exact R2.
    unfold and_then at 1. rewrite R3. reflexivity.
  - rewrite Q3, Q2. reflexivity.
  - exact P3.
Qed.

Lemma aligned_main_needs_a_low_rul_row_witness :
  Forall (fun r => 6 < RUL r)
         (DataFrame (fst (generate_assets 20000
                            (Random.mkRng (constant_draws 10) 0)))) /\
  exists s',
    Aligned.main endpoint_down (startup (constant_draws 10) (constant_draws 0))
    = Raised NameError_prompt s' /\ requests s' = [] /\ prompt s' = None.
Proof.
  assert (H : Forall (fun r => 6 < RUL r)
                (DataFrame (fst (generate_assets 20000
                                   (Random.mkRng (constant_draws 10) 0))))).
  { apply (bool_decide_unpack _). vm_compute. exact I. }
  split; [exact H|].
  exact (aligned_main_needs_a_low_rul_row endpoint_down (constant_draws 10)
           (constant_draws 0) H).
Defined.

Lemma string_length_app (s1 s2 : string) :
  String.length (s1 +:+ s2) = (String.length s1 + String.length s2)%nat.
Proof.
  induction s1 as [|c s1 IH]; [reflexivity|].
  change (String c s1 +:+ s2) with (String c (s1 +:+ s2)).
  cbn [String.length]. rewrite IH. reflexivity.
Qed.

(** X17: for every record, the lifespan prompt of the variant script is eight
    bytes longer than that of the first script, one empty line after each of
    the eight fields; the two scripts never send the same lifespan prompt. *)
Theorem aligned_lifespan_prompt_is_longer (sample : Asset) :
  String.length (Aligned.lifespan_prompt sample)
    = (String.length (lifespan_prompt sample) + 8)%nat /\
  Aligned.lifespan_prompt sample <> lifespan_prompt sample.
Proof.
  assert (H : String.length (Aligned.lifespan_prompt sample)
              = (String.length (lifespan_prompt sample) + 8)%nat).
  { unfold Aligned.lifespan_prompt, lifespan_prompt.
    rewrite !string_length_app. cbn [String.length]. lia. }
  split; [exact H|].
  intros E. rewrite E in H. lia.
Qed.
